(** * The container-based code-execution engine: [DockerExecutor.execute_code]

    A shallow embedding of [src/executor/app/docker_executor.py].

    The engine talks to three things outside itself: the local file system
    (the request's scratch directory), the Docker daemon (one container per
    request) and the wall clock.  The file system is modelled as explicit
    state; the daemon's and the clock's answers are an oracle ([Env]) over
    which every theorem quantifies.  Python exceptions are the [Raise] branch
    of a small state-and-exception monad, with [try_except] and
    [try_finally] following the [try]/[except]/[finally] blocks of the
    source. *)

From Stdlib Require Import String Ascii List ZArith Bool Lia PeanoNat.
From Stdlib Require Import DecimalString DecimalZ.
Import ListNotations.

Local Open Scope string_scope.
Local Open Scope Z_scope.

(* ===================================================================== *)
(** * Python strings *)
(* ===================================================================== *)

(** A Python [str] is modelled by its UTF-8 encoding, one [ascii] per byte,
    which is also how a Rocq string literal holding Cyrillic text reads. *)
Module PyStr.

Definition nl : string := String (ascii_of_nat 10) EmptyString.

Definition bytes (l : list nat) : string :=
  string_of_list_ascii (map ascii_of_nat l).

Fixpoint rev_onto (s acc : string) : string :=
  match s with
  | EmptyString => acc
  | String c s' => rev_onto s' (String c acc)
  end.

Definition rev (s : string) : string := rev_onto s EmptyString.

(** [s.startswith(p)] and [s.endswith(p)]. *)
Definition startswith (s p : string) : bool := String.prefix p s.
Definition endswith (s p : string) : bool := String.prefix (rev p) (rev s).

Fixpoint drop (n : nat) (s : string) : string :=
  match n, s with
  | O, _ => s
  | S n', String _ s' => drop n' s'
  | S _, EmptyString => EmptyString
  end.

(** The code points for which [str.isspace] holds, as UTF-8 byte sequences:
    U+0009..U+000D, U+001C..U+0020, U+0085, U+00A0, U+1680, U+2000..U+200A,
    U+2028, U+2029, U+202F, U+205F, U+3000. *)
Definition whitespace : list string :=
  map bytes
    [ [9%nat]; [10%nat]; [11%nat]; [12%nat]; [13%nat];
      [28%nat]; [29%nat]; [30%nat]; [31%nat]; [32%nat];
      [194; 133]%nat; [194; 160]%nat; [225; 154; 128]%nat;
      [226; 128; 128]%nat; [226; 128; 129]%nat; [226; 128; 130]%nat;
      [226; 128; 131]%nat; [226; 128; 132]%nat; [226; 128; 133]%nat;
      [226; 128; 134]%nat; [226; 128; 135]%nat; [226; 128; 136]%nat;
      [226; 128; 137]%nat; [226; 128; 138]%nat;
      [226; 128; 168]%nat; [226; 128; 169]%nat; [226; 128; 175]%nat;
      [226; 129; 159]%nat; [227; 128; 128]%nat ].

(** The first entry of [ws] that [s] starts with, if any. *)
Fixpoint leading (ws : list string) (s : string) : option string :=
  match ws with
  | [] => None
  | w :: ws' => if String.prefix w s then Some w else leading ws' s
  end.

Fixpoint lstrip_with (ws : list string) (fuel : nat) (s : string) : string :=
  match fuel with
  | O => s
  | S fuel' =>
      match leading ws s with
      | Some w => lstrip_with ws fuel' (drop (String.length w) s)
      | None => s
      end
  end.

Definition lstrip (s : string) : string :=
  lstrip_with whitespace (String.length s) s.

Definition rstrip (s : string) : string :=
  rev (lstrip_with (map rev whitespace) (String.length s) (rev s)).

(** [s.strip()]. *)
Definition strip (s : string) : string := rstrip (lstrip s).

(** Truthiness of a [str]: non-empty. *)
Definition truthy (s : string) : bool :=
  match s with EmptyString => false | _ => true end.

Definition lower_ascii (c : ascii) : ascii :=
  let n := nat_of_ascii c in
  if ((65 <=? n) && (n <=? 90))%nat then ascii_of_nat (n + 32) else c.

(** [s.lower()] on the ASCII letters.  The bytes of a multi-byte character
    are left alone; no such character lowers to an ASCII letter that occurs
    in a recognised extension, so extension lookup is not affected. *)
Fixpoint lower (s : string) : string :=
  match s with
  | EmptyString => EmptyString
  | String c s' => String (lower_ascii c) (lower s')
  end.

(** [s.replace('.ts', '.js')]: every non-overlapping occurrence, left to
    right. *)
Fixpoint replace_ts_js (s : string) : string :=
  match s with
  | EmptyString => EmptyString
  | String c s' =>
      match c, s' with
      | "."%char, String "t"%char (String "s"%char rest) =>
          ".js" ++ replace_ts_js rest
      | _, _ => String c (replace_ts_js s')
      end
  end.

(** [f'{n}'] for an [int]. *)
Definition of_int (n : Z) : string := NilZero.string_of_int (Z.to_int n).

(** ['\n'.join(lines)]. *)
Definition join_lines (lines : list string) : string := String.concat nl lines.

End PyStr.

(* ===================================================================== *)
(** * [os.path] on POSIX paths *)
(* ===================================================================== *)

Module OsPath.

Definition sep : ascii := "/"%char.
Definition extsep : ascii := "."%char.

(** The text before the last [c] of [s] (with that [c]) and the text after
    it; [None] when [c] does not occur.  [p.rfind(c)] is the length of the
    first part minus one. *)
Fixpoint rsplit (c : ascii) (s : string) : option (string * string) :=
  match s with
  | EmptyString => None
  | String a s' =>
      match rsplit c s' with
      | Some (h, t) => Some (String a h, t)
      | None =>
          if Ascii.eqb a c then Some (String a EmptyString, s') else None
      end
  end.

(** [head, tail = p[:i], p[i:]] for [i = p.rfind('/') + 1]. *)
Definition split_last_sep (p : string) : string * string :=
  match rsplit sep p with
  | Some (h, t) => (h, t)
  | None => (EmptyString, p)
  end.

Definition basename (p : string) : string := snd (split_last_sep p).

Fixpoint all_char (c : ascii) (s : string) : bool :=
  match s with
  | EmptyString => true
  | String a s' => Ascii.eqb a c && all_char c s'
  end.

Fixpoint lstrip_char (c : ascii) (s : string) : string :=
  match s with
  | String a s' => if Ascii.eqb a c then lstrip_char c s' else s
  | EmptyString => EmptyString
  end.

Definition rstrip_char (c : ascii) (s : string) : string :=
  PyStr.rev (lstrip_char c (PyStr.rev s)).

(** [posixpath.dirname]: the head, without its trailing slashes unless it
    is made of slashes only. *)
Definition dirname (p : string) : string :=
  let head := fst (split_last_sep p) in
  if PyStr.truthy head && negb (all_char sep head)
  then rstrip_char sep head else head.

(** [posixpath.splitext(p)]: the extension runs from the last dot of the
    last path component on, provided some character before that dot in the
    component is not a dot; otherwise it is empty and the root is [p]. *)
Definition splitext (p : string) : string * string :=
  let (head, name) := split_last_sep p in
  match rsplit extsep name with
  | Some (stem_dot, ext) =>
      (* [stem_dot] ends with the last dot; the loop of [_splitext] looks
         for a non-dot character strictly before it *)
      if all_char extsep stem_dot then (p, EmptyString)
      else (head ++ PyStr.rev (PyStr.drop 1 (PyStr.rev stem_dot)), String extsep ext)
  | None => (p, EmptyString)
  end.

(** [posixpath.join(a, b)] for two components. *)
Definition join (a b : string) : string :=
  if PyStr.startswith b "/" then b
  else if negb (PyStr.truthy a) || PyStr.endswith a "/" then a ++ b
  else a ++ "/" ++ b.

End OsPath.

(** [base64.b64encode(s.encode('utf-8')).decode('ascii')]. *)
Module Base64.

Definition alphabet : string :=
  "ABCDEFGHIJKLMNOPQRSTUVWXYZabcdefghijklmnopqrstuvwxyz0123456789+/".

Definition digit (n : N) : ascii :=
  match String.get (N.to_nat n) alphabet with
  | Some c => c
  | None => "="%char
  end.

Definition sextet (w : N) (k : N) : ascii :=
  digit (N.land (N.shiftr w (6 * k)) 63).

Fixpoint encode (s : string) : string :=
  match s with
  | EmptyString => EmptyString
  | String a EmptyString =>
      let w := N.shiftl (N_of_ascii a) 16 in
      String (sextet w 3) (String (sextet w 2) "==")
  | String a (String b EmptyString) =>
      let w := N.lor (N.shiftl (N_of_ascii a) 16) (N.shiftl (N_of_ascii b) 8) in
      String (sextet w 3) (String (sextet w 2) (String (sextet w 1) "="))
  | String a (String b (String c rest)) =>
      let w := N.lor (N.lor (N.shiftl (N_of_ascii a) 16)
                            (N.shiftl (N_of_ascii b) 8)) (N_of_ascii c) in
      String (sextet w 3) (String (sextet w 2)
        (String (sextet w 1) (String (sextet w 0) (encode rest))))
  end.

End Base64.

(* ===================================================================== *)
(** * Exceptions, the outside world and the engine's monad *)
(* ===================================================================== *)

(** The exception classes that reach [execute_code].  [DockerException]
    stands for whatever the Docker SDK or the HTTP layer below it raises
    ([APIError], [ImageNotFound], a connection error): from the engine's
    side all of them are "some other [Exception]".
    [docker.errors.ContainerError] is raised by [containers.run] only, which
    the engine never calls, so its handler in single-run mode is unreachable
    and the class is left out.  [RecursionError] is what a walk of the
    scratch directory raises when the directory is nested too deep. *)
Inductive exn : Type :=
| ValueError (msg : string)
| IndexError (msg : string)
| OSError (msg : string)
| TimeoutError (msg : string)
| DockerException (msg : string)
| RecursionError (msg : string).

(** [str(exc)]. *)
Definition str_exn (e : exn) : string :=
  match e with
  | ValueError m | IndexError m | OSError m | TimeoutError m
  | DockerException m | RecursionError m => m
  end.

Inductive outcome (A : Type) : Type :=
| Return (a : A)
| Raise (e : exn).
Arguments Return {A} a.
Arguments Raise {A} e.

(** What one [await asyncio.wait_for(asyncio.to_thread(_run), timeout)]
    can give: the exit code and the two decoded streams of an [exec_run]
    that finished in time; the deadline, reached while [exec_run] was
    running; an exception of [exec_run]; or the deadline reached before
    any worker thread took the call, as happens when the threads of the
    pool are all held by earlier runs that never finished.  Under a
    timeout that is not positive the call is cancelled before it starts,
    and the world has no answer but a deadline. *)
Inductive exec_outcome : Type :=
| ExecDone (exit_code : Z) (stdout stderr : string)
| ExecTimeout
| ExecRaise (e : exn)
| ExecNotStarted.

(** The calls made on the Docker client, in the order they are made. *)
Inductive docker_op : Type :=
| Create (image command : string) (network_disabled : bool)
| PutArchive (members : list (string * string))
| Start
| Wait (timeout : Z)
| Stop
| LogsStdout
| LogsStderr
| Reload
| ExecRun (command : string) (timeout : Z)
| Remove.

Inductive node : Type :=
| Dir
| File (content : string).

(** The answers of the outside world to one request.  A request has one
    container, so each container call other than [exec_run] is answered
    once; the awaited [exec_run] calls are answered one by one, numbered
    from 0. *)
Record Env : Type := {
  uuid_hex : string;                 (* uuid.uuid4().hex[:12] *)
  clock : nat -> Z;                  (* k-th reading of time.time(), in ms *)
  write_error : string -> option exn; (* makedirs/open/write of one path *)
  create_error : option exn;
  put_archive_error : option exn;
  start_error : option exn;
  wait_error : option exn;
  stop_error : option exn;
  logs_stdout : outcome string;
  logs_stderr : outcome string;
  reload_error : option exn;
  state_exit_code : option Z;        (* attrs['State']['ExitCode'] *)
  remove_error : option exn;
  exec_run : nat -> exec_outcome;
  rmtree_limit : option nat;         (* directory levels shutil.rmtree can descend
                                        before the recursion limit; None when it
                                        does not recurse *)
  unremovable : string -> bool       (* os.unlink / os.rmdir of this path fails *)
}.

Inductive Container : Type :=
| Handle (image command : string).

Record State : Type := {
  fs : list (string * node);         (* existing paths *)
  docker_log : list docker_op;       (* calls made so far *)
  container : option Container;      (* the local variable [container] *)
  exec_calls : nat;                  (* exec_run calls awaited so far *)
  clock_reads : nat                  (* time.time() calls made so far *)
}.

Definition M (A : Type) : Type := State -> outcome A * State.

Definition ret {A} (a : A) : M A := fun s => (Return a, s).

Definition raise {A} (e : exn) : M A := fun s => (Raise e, s).

Definition bind {A B} (c : M A) (k : A -> M B) : M B :=
  fun s =>
    match c s with
    | (Return a, s') => k a s'
    | (Raise e, s') => (Raise e, s')
    end.

(** [try: body / except Exception as e: handler(e)]. *)
Definition try_except {A} (body : M A) (handler : exn -> M A) : M A :=
  fun s =>
    match body s with
    | (Return a, s') => (Return a, s')
    | (Raise e, s') => handler e s'
    end.

(** [try: body / finally: final].  An exception of [final] replaces the
    outcome of [body]. *)
Definition try_finally {A} (body : M A) (final : M unit) : M A :=
  fun s =>
    match body s with
    | (o, s') =>
        match final s' with
        | (Return _, s'') => (o, s'')
        | (Raise e, s'') => (Raise e, s'')
        end
    end.

Declare Scope py_scope.
Delimit Scope py_scope with py.
Notation "x <- c ;; k" := (bind c (fun x => k))
  (at level 61, c at next level, right associativity) : py_scope.
Notation "' pat <- c ;; k" := (bind c (fun x => match x with pat => k end))
  (at level 61, pat pattern, c at next level, right associativity) : py_scope.
Notation "c ;; k" := (bind c (fun _ => k))
  (at level 61, right associativity) : py_scope.
Local Open Scope py_scope.

(** [try: c / except Exception: pass]. *)
Definition suppress (c : M unit) : M unit := try_except c (fun _ => ret tt).

Definition of_option (r : option exn) : outcome unit :=
  match r with
  | None => Return tt
  | Some e => Raise e
  end.

(** ** The file system *)

Definition with_fs (f : list (string * node) -> list (string * node)) (s : State) : State :=
  {| fs := f (fs s); docker_log := docker_log s; container := container s;
     exec_calls := exec_calls s; clock_reads := clock_reads s |}.

Definition lookup_path (p : string) (l : list (string * node)) : option node :=
  match find (fun e => String.eqb (fst e) p) l with
  | Some e => Some (snd e)
  | None => None
  end.

(** [os.path.exists(p)]. *)
Definition path_exists (p : string) : M bool :=
  fun s => (Return (match lookup_path p (fs s) with Some _ => true | None => false end), s).

Fixpoint ancestors (fuel : nat) (p : string) : list string :=
  match fuel with
  | O => []
  | S fuel' =>
      if negb (PyStr.truthy p) || OsPath.all_char OsPath.sep p then []
      else p :: ancestors fuel' (OsPath.dirname p)
  end.

Definition add_dir (l : list (string * node)) (p : string) : list (string * node) :=
  match lookup_path p l with
  | Some _ => l
  | None => (p, Dir) :: l
  end.

(** [os.makedirs(p, exist_ok=True)]: [p] and every missing ancestor.  A
    failure to create a directory for one of the request's files is part of
    [write_error]. *)
Definition makedirs (p : string) : M unit :=
  fun s => (Return tt, with_fs (fun l => fold_left add_dir (ancestors (S (String.length p)) p) l) s).

Definition put_file (p content : string) (l : list (string * node)) : list (string * node) :=
  (p, File content) :: filter (fun e => negb (String.eqb (fst e) p)) l.

(** [with open(p, 'w') as f: f.write(content)]. *)
Definition write_file (p content : string) : M unit :=
  fun s => (Return tt, with_fs (put_file p content) s).

Definition under (d p : string) : bool :=
  String.eqb p d || PyStr.startswith p (d ++ "/").

(** The number of directories between [d] and the file [p] below it. *)
Definition nesting (d p : string) : nat :=
  List.length (filter (fun a => PyStr.startswith a (d ++ "/"))
                 (ancestors (S (String.length p)) (OsPath.dirname p))).

(** The depth of the tree that holds the files [paths] below [d]. *)
Definition tree_depth (d : string) (paths : list string) : nat :=
  fold_right (fun p n => Nat.max (nesting d p) n) 0%nat paths.

(** The walk of [shutil.rmtree] calls itself once per directory level: a
    tree nested deeper than [rmtree_limit] exceeds the recursion limit of
    the interpreter. *)
Definition overflows (env : Env) (depth : nat) : bool :=
  match rmtree_limit env with
  | Some n => (n <? depth)%nat
  | None => false
  end.

(** An entry stays when it, or an entry below it, cannot be removed: a
    directory that is not empty cannot be removed either. *)
Definition stays (env : Env) (l : list (string * node)) (p : string) : bool :=
  existsb (fun e => unremovable env (fst e) && under p (fst e)) l.

(** [shutil.rmtree(d, ignore_errors=True)] on a tree nested [depth]
    directories deep.  Past the depth that the interpreter allows the walk
    raises [RecursionError], which is not one of the errors that are
    ignored, and the tree is left.  Otherwise every entry at or below [d]
    is removed, except those whose removal fails and the directories above
    them: these errors are ignored. *)
Definition rmtree (env : Env) (d : string) (depth : nat) : M unit :=
  fun s =>
    if overflows env depth
    then (Raise (RecursionError "maximum recursion depth exceeded"), s)
    else (Return tt,
          with_fs (fun l => filter (fun e => negb (under d (fst e)) || stays env l (fst e)) l)
            s).

Definition has_sep (name : string) : bool :=
  match OsPath.rsplit OsPath.sep name with Some _ => true | None => false end.

(** The regular files directly inside [d], with their contents: what the
    [os.listdir]/[os.path.isfile]/[tar.add] loop puts in the archive.
    Paths are taken as they were written, without resolving [.] or [..],
    and the members come in the order of the list, not in that of
    [os.listdir], which the file system decides. *)
Definition archive_of (d : string) (l : list (string * node)) : list (string * string) :=
  flat_map
    (fun e =>
       match snd e with
       | File content =>
           if PyStr.startswith (fst e) (d ++ "/") then
             let name := PyStr.drop (S (String.length d)) (fst e) in
             if PyStr.truthy name && negb (has_sep name) then [(name, content)] else []
           else []
       | Dir => []
       end) l.

(** ** The clock *)

Definition time_ms (env : Env) : M Z :=
  fun s =>
    (Return (clock env (clock_reads s)),
     {| fs := fs s; docker_log := docker_log s; container := container s;
        exec_calls := exec_calls s; clock_reads := S (clock_reads s) |}).

(** ** The Docker client *)

Definition logged (op : docker_op) (s : State) : State :=
  {| fs := fs s; docker_log := docker_log s ++ [op]; container := container s;
     exec_calls := exec_calls s; clock_reads := clock_reads s |}.

Definition docker_call {A} (op : docker_op) (answer : outcome A) : M A :=
  fun s => (answer, logged op s).

Definition set_container (c : option Container) : M unit :=
  fun s =>
    (Return tt,
     {| fs := fs s; docker_log := docker_log s; container := c;
        exec_calls := exec_calls s; clock_reads := clock_reads s |}).

Definition get_container : M (option Container) :=
  fun s => (Return (container s), s).

Definition get_fs : M (list (string * node)) :=
  fun s => (Return (fs s), s).

(** [container = self.client.containers.create(...)]: the variable is
    assigned only when the call returns.  Memory and CPU limits and the
    working directory are the same constants in every call and are not
    recorded. *)
Definition containers_create (env : Env) (image command : string) (network_disabled : bool) : M unit :=
  docker_call (Create image command network_disabled) (of_option (create_error env)) ;;
  set_container (Some (Handle image command)).

(** The archive of the workspace's top-level files, sent to [/workspace]. *)
Definition put_workspace (env : Env) (tmpdir : string) : M unit :=
  l <- get_fs ;;
  docker_call (PutArchive (archive_of tmpdir l)) (of_option (put_archive_error env)).

(** The [finally] block of both modes. *)
Definition remove_container (env : Env) : M unit :=
  suppress
    (c <- get_container ;;
     match c with
     | Some _ => docker_call Remove (of_option (remove_error env))
     | None => ret tt
     end).

Definition timeout_message (timeout : Z) : string :=
  "Execution timeout after " ++ PyStr.of_int timeout ++ " seconds".

(** Whether [container.exec_run] was called at all.  With a timeout that is
    not positive, [asyncio.wait_for] cancels the call before it starts: a
    deadline is then reached without [exec_run] being called. *)
Definition call_made (timeout : Z) (answer : exec_outcome) : bool :=
  match answer with
  | ExecDone _ _ _ | ExecRaise _ => true
  | ExecTimeout => 0 <? timeout
  | ExecNotStarted => false
  end.

(** [_exec_in_container]: one [exec_run] in a worker thread, awaited under
    [asyncio.wait_for].  The call reaches the Docker client only when a
    thread takes it before the deadline. *)
Definition _exec_in_container (env : Env) (command : string) (timeout : Z) : M (Z * string * string) :=
  fun s =>
    let answer := exec_run env (exec_calls s) in
    let s' := {| fs := fs s;
                 docker_log :=
                   docker_log s
                     ++ (if call_made timeout answer then [ExecRun command timeout] else []);
                 container := container s; exec_calls := S (exec_calls s);
                 clock_reads := clock_reads s |} in
    match answer with
    | ExecDone exit_code stdout stderr => (Return (exit_code, stdout, stderr), s')
    | ExecTimeout | ExecNotStarted => (Raise (TimeoutError ""), s')
    | ExecRaise e => (Raise e, s')
    end.

(* ===================================================================== *)
(** * The engine *)
(* ===================================================================== *)

Record LanguageConfig : Type := {
  image : string;
  main_file : string;
  setup_command : option string
}.

Definition LANGUAGE_CONFIG : list (string * LanguageConfig) :=
  [ ("python", {| image := "python:3.12-slim"; main_file := "main.py";
                  setup_command := None |});
    ("typescript", {| image := "node:20-slim"; main_file := "main.ts";
                      setup_command := Some "npm install -g typescript ts-node" |});
    ("go", {| image := "golang:1.23-alpine"; main_file := "main.go";
              setup_command := None |});
    ("java", {| image := "openjdk:21-jdk-slim"; main_file := "Main.java";
                setup_command := None |}) ].

(** [d.get(k)] on a dict written as a literal. *)
Fixpoint dict_get {V} (d : list (string * V)) (k : string) : option V :=
  match d with
  | [] => None
  | (k', v) :: d' => if String.eqb k' k then Some v else dict_get d' k
  end.

Definition _detect_language_from_file (filepath : string) : option string :=
  let ext := PyStr.lower (snd (OsPath.splitext filepath)) in
  let ext_map :=
    [ (".py", "python"); (".ts", "typescript"); (".js", "typescript");
      (".go", "go"); (".java", "java") ] in
  dict_get ext_map ext.

(** A test case, as the dict [{'input': ..., 'output': ...}] or the object
    with these two attributes; both texts are [str]. *)
Record TestCase : Type := {
  input : string;
  output : string
}.

Record TestResult : Type := {
  test_index : nat;
  tr_input : string;
  expected_output : string;
  actual_output : string;
  passed : bool;
  tr_exit_code : Z;
  tr_duration_ms : Z
}.

Record ExecutionResult : Type := {
  stdout : string;
  stderr : string;
  exit_code : Z;
  duration_ms : Z;
  test_results : option (list TestResult);
  verdict : option string
}.

Definition dq : string := String (ascii_of_nat 34) EmptyString.

(** The first loop over [files.keys()]: the first path with a recognised
    extension, with its language. *)
Fixpoint detect_first (paths : list string) : option (string * string) :=
  match paths with
  | [] => None
  | filepath :: rest =>
      match _detect_language_from_file filepath with
      | Some file_lang => Some (file_lang, filepath)
      | None => detect_first rest
      end
  end.

(** The language the request runs under: lines 107-121 of the source. *)
Definition effective_language (language : string) (files : list (string * string)) : string :=
  match detect_first (map fst files) with
  | Some (file_lang, _) => file_lang
  | None => language
  end.

(** The main file: lines 108-139.  With no file at all,
    [list(files.keys())[0]] raises. *)
Definition select_main_file (detected_language : string) (files : list (string * string)) : M string :=
  match detect_first (map fst files) with
  | Some (_, filepath) => ret filepath
  | None =>
      let ext_map := [ ("python", ".py"); ("typescript", ".ts"); ("go", ".go");
                       ("java", ".java") ] in
      let target_ext :=
        match dict_get ext_map detected_language with
        | Some e => e
        | None => ".py"
        end in
      match find (fun filepath => PyStr.endswith filepath target_ext) (map fst files) with
      | Some filepath => ret filepath
      | None =>
          match files with
          | (filepath, _) :: _ => ret filepath
          | [] => raise (IndexError "list index out of range")
          end
      end
  end.

(** Lines 98-103: every file is written below [tmpdir], in order; the first
    failure ends the loop. *)
Fixpoint write_files (env : Env) (tmpdir : string) (files : list (string * string)) : M unit :=
  match files with
  | [] => ret tt
  | (filepath, content) :: rest =>
      let full_path := OsPath.join tmpdir filepath in
      match write_error env full_path with
      | Some e => raise e
      | None =>
          makedirs (OsPath.dirname full_path) ;;
          write_file full_path content ;;
          write_files env tmpdir rest
      end
  end.

(** The files that the loop of lines 98-103 wrote: those before the first
    failure. *)
Fixpoint written (env : Env) (tmpdir : string) (files : list (string * string)) : list string :=
  match files with
  | [] => []
  | (filepath, _) :: rest =>
      let full_path := OsPath.join tmpdir filepath in
      match write_error env full_path with
      | Some _ => []
      | None => full_path :: written env tmpdir rest
      end
  end.

Definition tsc_options : string :=
  "npx -y tsc --target ES2020 --module commonjs --esModuleInterop --skipLibCheck *.ts".

Definition class_name_of (main_file_path : string) : string :=
  fst (OsPath.splitext (OsPath.basename main_file_path)).

(** Lines 152-167: the command of single-run mode. *)
Definition run_command (language main_file_path : string) : string :=
  if String.eqb language "typescript" then
    let js_file := PyStr.replace_ts_js main_file_path in
    "/bin/sh -c " ++ dq ++ "cd /workspace && " ++ tsc_options
      ++ " 2>&1 && node " ++ js_file ++ dq
  else if String.eqb language "java" then
    "/bin/sh -c " ++ dq ++ "cd /workspace && javac " ++ main_file_path
      ++ " && java " ++ class_name_of main_file_path ++ dq
  else if String.eqb language "go" then
    "go run /workspace/" ++ main_file_path
  else
    "python /workspace/" ++ main_file_path.

(** Lines 182-241: one container whose entry command is the run. *)
Definition single_run (env : Env) (config : LanguageConfig) (language command tmpdir : string)
    (timeout : Z) : M (string * string * Z) :=
  set_container None ;;
  try_finally
    (try_except
       (let use_network := String.eqb language "typescript" in
        containers_create env (image config) command (negb use_network) ;;
        put_workspace env tmpdir ;;
        docker_call Start (of_option (start_error env)) ;;
        try_except
          (docker_call (Wait timeout) (of_option (wait_error env)))
          (fun wait_exc =>
             docker_call Stop (of_option (stop_error env)) ;;
             raise (TimeoutError (timeout_message timeout))) ;;
        stdout_text <- docker_call LogsStdout (logs_stdout env) ;;
        stderr_raw <- docker_call LogsStderr (logs_stderr env) ;;
        docker_call Reload (of_option (reload_error env)) ;;
        let exit_code := match state_exit_code env with Some c => c | None => 0 end in
        let stderr :=
          if negb (exit_code =? 0) && PyStr.truthy (PyStr.strip stderr_raw)
          then stderr_raw else "" in
        ret (stdout_text, stderr, exit_code))
       (fun exc =>
          match exc with
          | TimeoutError msg => ret ("", msg, -1)
          | _ => ret ("", "Docker error: " ++ str_exn exc, -1)
          end))
    (remove_container env).

(** Lines 273-297: the one-time build and the command that runs a test. *)
Definition prepare_runner (env : Env) (language main_file_path : string) (timeout : Z) : M string :=
  if String.eqb language "typescript" then
    _exec_in_container env
      ("/bin/sh -lc " ++ dq ++ "cd /workspace && " ++ tsc_options ++ dq) timeout ;;
    ret ("node " ++ PyStr.replace_ts_js main_file_path)
  else if String.eqb language "java" then
    _exec_in_container env
      ("/bin/sh -lc " ++ dq ++ "cd /workspace && javac " ++ main_file_path ++ dq) timeout ;;
    ret ("java " ++ class_name_of main_file_path)
  else if String.eqb language "go" then
    _exec_in_container env
      ("/bin/sh -lc " ++ dq ++ "cd /workspace && go build -o main_bin "
         ++ main_file_path ++ dq) timeout ;;
    ret "./main_bin"
  else
    ret ("python " ++ main_file_path).

Definition test_command (runner_command test_input : string) : string :=
  "/bin/sh -lc " ++ dq ++ "cd /workspace && echo " ++ Base64.encode test_input
    ++ " | base64 -d | " ++ runner_command ++ dq.

(** Lines 318-337: the record of one test from what its run gave. *)
Definition judge (test_idx : nat) (test_case : TestCase) (t_exit : Z) (t_out t_err : string)
    (test_duration_ms : Z) : TestResult :=
  let expected_output := PyStr.strip (output test_case) in
  let actual_output := PyStr.strip t_out in
  let passed := (t_exit =? 0) && String.eqb actual_output expected_output in
  let actual_output_with_error :=
    if PyStr.truthy t_err && PyStr.truthy (PyStr.strip t_err) then
      if PyStr.truthy actual_output
      then actual_output ++ PyStr.nl ++ "Ошибка: " ++ PyStr.strip t_err
      else "Ошибка: " ++ PyStr.strip t_err
    else actual_output in
  {| test_index := test_idx + 1;
     tr_input := input test_case;
     expected_output := expected_output;
     actual_output := actual_output_with_error;
     passed := passed;
     tr_exit_code := t_exit;
     tr_duration_ms := test_duration_ms |}.

(** Lines 322-324: the first non-blank stderr of the suite is kept. *)
Definition note_error (first_error_output t_err : string) : string :=
  if PyStr.truthy t_err && PyStr.truthy (PyStr.strip t_err) then
    if negb (PyStr.truthy first_error_output) then PyStr.strip t_err
    else first_error_output
  else first_error_output.

(** Lines 299-337: the loop over [enumerate(test_cases)], from index
    [test_idx] on, with the two variables it updates. *)
Fixpoint run_tests (env : Env) (runner_command : string) (timeout : Z) (test_idx : nat)
    (test_cases : list TestCase) (first_error_output : string) (results : list TestResult)
    : M (string * list TestResult) :=
  match test_cases with
  | [] => ret (first_error_output, results)
  | test_case :: rest =>
      test_start_time <- time_ms env ;;
      let cmd := test_command runner_command (input test_case) in
      '(t_exit, t_out, t_err) <-
         try_except (_exec_in_container env cmd timeout)
           (fun exc =>
              match exc with
              | TimeoutError _ => ret (-1, "", timeout_message timeout)
              | _ => raise exc
              end) ;;
      test_end_time <- time_ms env ;;
      let test_duration_ms := test_end_time - test_start_time in
      run_tests env runner_command timeout (S test_idx) rest
        (note_error first_error_output t_err)
        (results ++ [judge test_idx test_case t_exit t_out t_err test_duration_ms])
  end.

Definition passed_count (results : list TestResult) : nat :=
  List.length (filter passed results).

Definition all_passed (results : list TestResult) : bool :=
  Nat.eqb (passed_count results) (List.length results).

Definition verdict_of (results : list TestResult) : string :=
  if all_passed results then "ACCEPTED" else "WRONG ANSWER".

Definition transcript_line (tr : TestResult) : string :=
  let status_icon := if passed tr then "✅" else "❌" in
  status_icon ++ " Тест " ++ PyStr.of_int (Z.of_nat (test_index tr)) ++ ": "
    ++ actual_output tr ++ " (ожидалось: " ++ expected_output tr ++ ")".

(** Lines 344-351: the generated request-level stdout. *)
Definition transcript (results : list TestResult) : string :=
  PyStr.join_lines
    ([ "Вердикт: " ++ verdict_of results;
       "Пройдено тестов: " ++ PyStr.of_int (Z.of_nat (passed_count results)) ++ "/"
         ++ PyStr.of_int (Z.of_nat (List.length results));
       "" ] ++ map transcript_line results).

(** Lines 246-360: one long-lived container for the build and all tests.
    The block has a [finally] and no [except]. *)
Definition batch_run (env : Env) (config : LanguageConfig) (language main_file_path tmpdir : string)
    (timeout : Z) (test_cases : list TestCase) (stderr0 : string)
    : M (string * string * Z * list TestResult * string) :=
  set_container None ;;
  try_finally
    (let use_network := String.eqb language "typescript" in
     containers_create env (image config) ("/bin/sh -c " ++ dq ++ "sleep 3600" ++ dq)
       (negb use_network) ;;
     docker_call Start (of_option (start_error env)) ;;
     put_workspace env tmpdir ;;
     runner_command <- prepare_runner env language main_file_path timeout ;;
     '(first_error_output, results) <-
        run_tests env runner_command timeout 0 test_cases "" [] ;;
     let stderr :=
       if negb (all_passed results) && PyStr.truthy first_error_output
       then first_error_output else stderr0 in
     let exit_code := if all_passed results then 0 else 1 in
     ret (transcript results, stderr, exit_code, results, verdict_of results))
    (remove_container env).

(** Truthiness of [test_cases]: neither [None] nor the empty list. *)
Definition has_tests (test_cases : option (list TestCase)) : bool :=
  match test_cases with
  | Some (_ :: _) => true
  | _ => false
  end.

Definition workspace_of (env : Env) : string :=
  OsPath.join "/app/tmp" ("executor_run_" ++ uuid_hex env).

(** Lines 151-372: the request once its language is resolved and
    registered: the run in one of the two modes and the response. *)
Definition run_resolved (env : Env) (config : LanguageConfig) (language main_file_path tmpdir : string)
    (timeout : Z) (test_cases : option (list TestCase)) (start_time : Z) : M ExecutionResult :=
  let command := run_command language main_file_path in
  '(stdout, stderr, exit_code) <-
     (if negb (has_tests test_cases)
      then single_run env config language command tmpdir timeout
      else ret ("", "", 0)) ;;
  '(stdout, stderr, exit_code, test_results, verdict) <-
     (match test_cases with
      | Some ((_ :: _) as tests) =>
          '(out, err, code, results, v) <-
             batch_run env config language main_file_path tmpdir timeout tests stderr ;;
          ret (out, err, code, Some results, Some v)
      | _ => ret (stdout, stderr, exit_code, None, None)
      end) ;;
  end_time <- time_ms env ;;
  ret {| stdout := stdout; stderr := stderr; exit_code := exit_code;
         duration_ms := end_time - start_time;
         test_results := test_results; verdict := verdict |}.

(** Lines 96-149: the files are written, the language and the main file
    are found, and the language is looked up in the registry. *)
Definition resolve_and_run (env : Env) (language : string) (files : list (string * string))
    (timeout : Z) (test_cases : option (list TestCase)) (tmpdir : string) (start_time : Z)
    : M ExecutionResult :=
  write_files env tmpdir files ;;
  let detected_language := effective_language language files in
  main_file_path <- select_main_file detected_language files ;;
  match dict_get LANGUAGE_CONFIG detected_language with
  | None => raise (ValueError ("Unsupported language: " ++ detected_language))
  | Some config =>
      run_resolved env config detected_language main_file_path tmpdir timeout test_cases
        start_time
  end.

(** Lines 373-377: the outer [finally], for a tree [depth] levels deep. *)
Definition remove_workspace (env : Env) (tmpdir : string) (depth : nat) : M unit :=
  present <- path_exists tmpdir ;;
  if present then rmtree env tmpdir depth else ret tt.

(** [execute_code].  The scratch directory has a fresh name: the tree that
    the final [rmtree] walks is the one that this request wrote. *)
Definition execute_code (env : Env) (language : string) (files : list (string * string))
    (timeout : Z) (test_cases : option (list TestCase)) : M ExecutionResult :=
  start_time <- time_ms env ;;
  let tmp_base := "/app/tmp" in
  makedirs tmp_base ;;
  let tmpdir := workspace_of env in
  makedirs tmpdir ;;
  try_finally
    (resolve_and_run env language files timeout test_cases tmpdir start_time)
    (remove_workspace env tmpdir (tree_depth tmpdir (written env tmpdir files))).

Definition init_state : State :=
  {| fs := []; docker_log := []; container := None; exec_calls := 0; clock_reads := 0 |}.

(* ===================================================================== *)
(** * Vocabulary of the statements *)
(* ===================================================================== *)

(** ** What the outside world is assumed to do *)

(** Every file of the request can be written below [d]. *)
Definition writable (env : Env) (d : string) (files : list (string * string)) : bool :=
  forallb (fun f => match write_error env (OsPath.join d (fst f)) with
                    | None => true
                    | Some _ => false
                    end) files.

(** The setup steps of single-run mode, in the order they are made. *)
Definition single_setup_error (env : Env) : option exn :=
  match create_error env with
  | Some e => Some e
  | None =>
      match put_archive_error env with
      | Some e => Some e
      | None => start_error env
      end
  end.

(** The setup steps of batch mode, in the order they are made. *)
Definition batch_setup_error (env : Env) : option exn :=
  match create_error env with
  | Some e => Some e
  | None =>
      match start_error env with
      | Some e => Some e
      | None => put_archive_error env
      end
  end.

Definition state_exit (env : Env) : Z :=
  match state_exit_code env with
  | Some c => c
  | None => 0
  end.

(** Languages with a build step in batch mode (lines 274-295). *)
Definition needs_build (language : string) : bool :=
  String.eqb language "typescript" || String.eqb language "java" || String.eqb language "go".

(** The number of [exec_run] calls awaited before the first test. *)
Definition build_calls (language : string) : nat :=
  if needs_build language then 1%nat else 0%nat.

(** What the loop sees of one run (lines 310-315): the run's exit code and
    streams, or the stand-in triple when the deadline passed; any other
    exception leaves the loop. *)
Definition test_observation (timeout : Z) (o : exec_outcome) : outcome (Z * string * string) :=
  match o with
  | ExecDone c out err => Return (c, out, err)
  | ExecTimeout | ExecNotStarted => Return (-1, "", timeout_message timeout)
  | ExecRaise (TimeoutError _) => Return (-1, "", timeout_message timeout)
  | ExecRaise e => Raise e
  end.

(** A run that finishes or reaches the deadline, as opposed to one on which
    the SDK call itself fails. *)
Definition completes_or_times_out (o : exec_outcome) : Prop :=
  match o with
  | ExecDone _ _ _ | ExecTimeout | ExecNotStarted => True
  | ExecRaise _ => False
  end.

(** [env] with the answer to the [k]-th [exec_run] replaced. *)
Definition with_exec (env : Env) (k : nat) (o : exec_outcome) : Env :=
  {| uuid_hex := uuid_hex env; clock := clock env; write_error := write_error env;
     create_error := create_error env; put_archive_error := put_archive_error env;
     start_error := start_error env; wait_error := wait_error env;
     stop_error := stop_error env; logs_stdout := logs_stdout env;
     logs_stderr := logs_stderr env; reload_error := reload_error env;
     state_exit_code := state_exit_code env; remove_error := remove_error env;
     exec_run := fun i => if Nat.eqb i k then o else exec_run env i;
     rmtree_limit := rmtree_limit env; unremovable := unremovable env |}.

(** ** What a result says *)

(** The stderr that the handlers of lines 224-235 give to an exception. *)
Definition stderr_of_exn (e : exn) : string :=
  match e with
  | TimeoutError msg => msg
  | _ => "Docker error: " ++ str_exn e
  end.

(** The results of a suite from what each run showed and how long it took. *)
Fixpoint judge_all (test_idx : nat) (tcs : list TestCase) (obs : list (Z * string * string * Z))
    : list TestResult :=
  match tcs, obs with
  | tc :: tcs', (c, out, err, d) :: obs' =>
      judge test_idx tc c out err d :: judge_all (S test_idx) tcs' obs'
  | _, _ => []
  end.

Definition obs_stderr (o : Z * string * string * Z) : string := snd (fst o).

Definition first_error_of (obs : list (Z * string * string * Z)) : string :=
  fold_left note_error (map obs_stderr obs) "".

(** What a finished suite reports, from what each run showed:
    lines 339-354. *)
Definition suite_stderr (results : list TestResult) (first_error_output : string) : string :=
  if negb (all_passed results) && PyStr.truthy first_error_output
  then first_error_output else "".

(** What the response of a batch run says, from what each run showed. *)
Definition suite_report (env : Env) (T : Z) (first_call : nat) (tests : list TestCase)
    (r : ExecutionResult) : Prop :=
  exists obs,
    List.length obs = List.length tests /\
    (forall k c o e dt, nth_error obs k = Some (c, o, e, dt) ->
       test_observation T (exec_run env (first_call + k)) = Return (c, o, e)) /\
    test_results r = Some (judge_all 0 tests obs) /\
    verdict r = Some (verdict_of (judge_all 0 tests obs)) /\
    exit_code r = (if all_passed (judge_all 0 tests obs) then 0 else 1) /\
    stderr r = suite_stderr (judge_all 0 tests obs) (first_error_of obs) /\
    stdout r = transcript (judge_all 0 tests obs).

(** ** How a computation changes the state *)

(** The parts of the state that the file-system operations leave alone. *)
Definition same_docker (s s' : State) : Prop :=
  docker_log s' = docker_log s /\ container s' = container s /\
  exec_calls s' = exec_calls s /\ clock_reads s' = clock_reads s.

Definition after_exec (made : bool) (cmd : string) (timeout : Z) (ticks : nat) (s : State)
    : State :=
  {| fs := fs s;
     docker_log := docker_log s ++ (if made then [ExecRun cmd timeout] else []);
     container := container s; exec_calls := S (exec_calls s);
     clock_reads := ticks + clock_reads s |}.

(** The [exec_run] calls that reach the Docker client during the loop over
    the test cases, the first of which is the awaited call number
    [first_call]. *)
Fixpoint test_calls (env : Env) (runner_command : string) (timeout : Z) (first_call : nat)
    (test_cases : list TestCase) : list docker_op :=
  match test_cases with
  | [] => []
  | test_case :: rest =>
      (if call_made timeout (exec_run env first_call)
       then [ExecRun (test_command runner_command (input test_case)) timeout] else [])
        ++ test_calls env runner_command timeout (S first_call) rest
  end.

(** ** The final cleanup *)

(** The tree that the request wrote is not nested deeper than [rmtree] can
    walk within the recursion limit of the interpreter. *)
Definition within_rmtree_limit (env : Env) (files : list (string * string)) : bool :=
  negb (overflows env (tree_depth (workspace_of env) (written env (workspace_of env) files))).

(** Nothing at or below [d] resists removal. *)
Definition removable (env : Env) (d : string) : Prop :=
  forall p, under d p = true -> unremovable env p = false.

Definition tick (s : State) : State :=
  {| fs := fs s; docker_log := docker_log s; container := container s;
     exec_calls := exec_calls s; clock_reads := S (clock_reads s) |}.

Definition extends (s s' : State) : Prop :=
  exists l, docker_log s' = (docker_log s ++ l)%list.

Definition grows {A} (m : M A) : Prop :=
  forall s o s', m s = (o, s') -> extends s s'.

(** [m] makes the call [op] before any other. *)
Definition begins {A} (op : docker_op) (m : M A) : Prop :=
  forall s o s', m s = (o, s') -> exists l, docker_log s' = (docker_log s ++ op :: l)%list.

(** ** The rule of language resolution *)

Definition undetected (filepath : string) : Prop :=
  _detect_language_from_file filepath = None.

(** The rule in the words of the specification: the first path, in the order
    supplied, whose extension matches a registered language gives the
    language; when no extension matches, the declared language stands. *)
Definition resolution_rule (language : string) (paths : list string) (l : string) : Prop :=
  (exists pre p post,
     paths = (pre ++ p :: post)%list /\ Forall undetected pre /\
     _detect_language_from_file p = Some l /\ dict_get LANGUAGE_CONFIG l <> None) \/
  (Forall undetected paths /\ l = language).

Definition extension_table : list (string * string) :=
  [ (".py", "python"); (".ts", "typescript"); (".js", "typescript");
    (".go", "go"); (".java", "java") ].

(** ** Worlds and requests used as instances *)

(** A daemon on which every call succeeds; the container prints ["2"] and
    exits with 0, and every [exec_run] echoes ["hello"]. *)
Definition calm : Env :=
  {| uuid_hex := "0123456789ab";
     clock := fun k => 7 * Z.of_nat k;
     write_error := fun _ => None;
     create_error := None; put_archive_error := None; start_error := None;
     wait_error := None; stop_error := None;
     logs_stdout := Return ("2" ++ PyStr.nl);
     logs_stderr := Return "";
     reload_error := None; state_exit_code := Some 0; remove_error := None;
     exec_run := fun _ => ExecDone 0 ("hello" ++ PyStr.nl) "";
     rmtree_limit := Some 900%nat; unremovable := fun _ => false |}.

(** A container that compiles with warnings and then succeeds. *)
Definition warned : Env :=
  {| uuid_hex := "0123456789ab";
     clock := fun k => 7 * Z.of_nat k;
     write_error := fun _ => None;
     create_error := None; put_archive_error := None; start_error := None;
     wait_error := None; stop_error := None;
     logs_stdout := Return ("2" ++ PyStr.nl);
     logs_stderr := Return "warning: unused variable";
     reload_error := None; state_exit_code := Some 0; remove_error := None;
     exec_run := fun _ => ExecDone 0 ("hello" ++ PyStr.nl) "DeprecationWarning: x";
     rmtree_limit := Some 900%nat; unremovable := fun _ => false |}.

(** A TypeScript submission with a type error: [tsc] reports it and exits
    with 2, and still writes [main.js], which then runs. *)
Definition tsc_reports : Env :=
  with_exec calm 0 (ExecDone 2 "main.ts(1,7): error TS2322: Type 'string' is not assignable to type 'number'." "").


(** A daemon that does not have the image. *)
Definition no_image : Env :=
  {| uuid_hex := "0123456789ab";
     clock := fun k => 7 * Z.of_nat k;
     write_error := fun _ => None;
     create_error := Some (DockerException "404 Client Error: No such image: python:3.12-slim");
     put_archive_error := None; start_error := None;
     wait_error := None; stop_error := None;
     logs_stdout := Return ""; logs_stderr := Return "";
     reload_error := None; state_exit_code := Some 0; remove_error := None;
     exec_run := fun _ => ExecDone 0 ("hello" ++ PyStr.nl) "";
     rmtree_limit := Some 900%nat; unremovable := fun _ => false |}.

Definition echo_py : list (string * string) := [("main.py", "print(input())")].

Definition echo_ts : list (string * string) :=
  [("main.ts", "const n: number = 'x'; process.stdin.on('data', d => process.stdout.write(d));")].

Definition hello_test : TestCase := {| input := "hello"; output := "hello" |}.
Definition one_two_test : TestCase := {| input := "1"; output := "2" |}.

(* ===================================================================== *)
(** * The single-test runner [_run_test] *)
(* ===================================================================== *)

(** The dict returned by [_run_test]. *)
Record RunResult : Type := {
  run_stdout : string;
  run_stderr : string;
  run_exit_code : Z
}.

(** Lines 406-421: the command of one test, reading the input file.  A
    [runner_command] that is [None] or empty leaves the choice to the
    language. *)
Definition run_test_command (language main_file_path : string)
    (runner_command : option string) : string :=
  let by_language :=
    if String.eqb language "typescript" then
      "/bin/sh -c " ++ dq ++ "cd /workspace && " ++ tsc_options
        ++ " 2>&1 && cat test_input.txt | node " ++ PyStr.replace_ts_js main_file_path ++ dq
    else if String.eqb language "java" then
      "/bin/sh -c " ++ dq ++ "cd /workspace && cat test_input.txt | java "
        ++ class_name_of main_file_path ++ dq
    else if String.eqb language "go" then
      "/bin/sh -c " ++ dq ++ "cd /workspace && cat test_input.txt | go run "
        ++ main_file_path ++ dq
    else
      "sh -c " ++ dq ++ "cd /workspace && cat test_input.txt | python "
        ++ main_file_path ++ dq in
  match runner_command with
  | Some rc =>
      if PyStr.truthy rc then
        "/bin/sh -c " ++ dq ++ "cd /workspace && cat test_input.txt | " ++ rc ++ dq
      else by_language
  | None => by_language
  end.

(** Lines 425-477: the container of one test.  Every exception is caught
    by the one handler; the container is not stopped. *)
Definition run_test_container (env : Env) (config : LanguageConfig)
    (language command tmpdir : string) (timeout : Z) : M (string * string * Z) :=
  set_container None ;;
  try_finally
    (try_except
       (let use_network := String.eqb language "typescript" in
        containers_create env (image config) command (negb use_network) ;;
        put_workspace env tmpdir ;;
        docker_call Start (of_option (start_error env)) ;;
        docker_call (Wait timeout) (of_option (wait_error env)) ;;
        stdout_text <- docker_call LogsStdout (logs_stdout env) ;;
        stderr_raw <- docker_call LogsStderr (logs_stderr env) ;;
        docker_call Reload (of_option (reload_error env)) ;;
        let exit_code := match state_exit_code env with Some c => c | None => 0 end in
        let stderr :=
          if negb (exit_code =? 0) && PyStr.truthy (PyStr.strip stderr_raw)
          then stderr_raw else "" in
        ret (stdout_text, stderr, exit_code))
       (fun exc => ret ("", str_exn exc, -1)))
    (remove_container env).

(** [_run_test], lines 379-483.  [self.LANGUAGE_CONFIG[language]] raises a
    [KeyError] for a language that is not registered; that class is not one
    of [exn], and the call then gives [None] here.  A failure to open or
    write the input file is raised as it is. *)
Definition _run_test (env : Env) (language main_file_path tmpdir test_input : string)
    (timeout : Z) (runner_command : option string) : M (option RunResult) :=
  match dict_get LANGUAGE_CONFIG language with
  | None => ret None
  | Some config =>
      let input_file_path := OsPath.join tmpdir "test_input.txt" in
      let test_input_normalized := if PyStr.truthy test_input then test_input else "" in
      match write_error env input_file_path with
      | Some e => raise e
      | None =>
          write_file input_file_path test_input_normalized ;;
          present <- path_exists input_file_path ;;
          if negb present then
            ret (Some {| run_stdout := ""; run_stderr := "Failed to create input file";
                         run_exit_code := -1 |})
          else
            let command := run_test_command language main_file_path runner_command in
            '(stdout, stderr, exit_code) <-
               run_test_container env config language command tmpdir timeout ;;
            ret (Some {| run_stdout := stdout; run_stderr := stderr;
                         run_exit_code := exit_code |})
      end
  end.

(* ===================================================================== *)
(** * Vocabulary of the further properties *)
(* ===================================================================== *)

(** A call made on a container between its creation and its removal. *)
Definition inner_op (op : docker_op) : Prop :=
  match op with
  | Create _ _ _ | Remove => False
  | _ => True
  end.

(** [m] leaves the variable [container] alone and makes only calls that
    satisfy [P]. *)
Definition emits (P : docker_op -> Prop) {A} (m : M A) : Prop :=
  forall s o s', m s = (o, s') ->
    container s' = container s /\
    exists l, docker_log s' = (docker_log s ++ l)%list /\ Forall P l.

(** The calls made for one request: none; or a failed [create] alone; or a
    [create] that succeeded, calls on that container, and its removal as
    the last call. *)
Definition container_lifecycle (env : Env) (l : list docker_op) : Prop :=
  l = [] \/
  exists img cmd nd,
    match create_error env with
    | Some _ => l = [Create img cmd nd]
    | None => exists mid, l = (Create img cmd nd :: mid ++ [Remove])%list /\ Forall inner_op mid
    end.

(** The exception with which an [exec_run] that does not complete leaves
    [_exec_in_container]. *)
Definition exec_failure (o : exec_outcome) : option exn :=
  match o with
  | ExecDone _ _ _ => None
  | ExecTimeout | ExecNotStarted => Some (TimeoutError "")
  | ExecRaise e => Some e
  end.

(** The first step of [_run_test]'s container that fails, if any. *)
Definition run_test_failure (env : Env) : option exn :=
  match create_error env with
  | Some e => Some e
  | None =>
  match put_archive_error env with
  | Some e => Some e
  | None =>
  match start_error env with
  | Some e => Some e
  | None =>
  match wait_error env with
  | Some e => Some e
  | None =>
  match logs_stdout env with
  | Raise e => Some e
  | Return _ =>
  match logs_stderr env with
  | Raise e => Some e
  | Return _ => reload_error env
  end end end end end end.

Fixpoint all_chars (f : ascii -> bool) (s : string) : bool :=
  match s with
  | EmptyString => true
  | String c s' => f c && all_chars f s'
  end.

(** Letters, digits, [+], [/] and [=]: the characters that mean nothing to
    a shell. *)
Definition base64_char (c : ascii) : bool :=
  let n := nat_of_ascii c in
  ((65 <=? n) && (n <=? 90) || (97 <=? n) && (n <=? 122) || (48 <=? n) && (n <=? 57)
   || (n =? 43) || (n =? 47) || (n =? 61))%nat.

(** A daemon on which [container.wait] fails. *)
Definition stuck : Env :=
  {| uuid_hex := "0123456789ab";
     clock := fun k => 7 * Z.of_nat k;
     write_error := fun _ => None;
     create_error := None; put_archive_error := None; start_error := None;
     wait_error := Some (DockerException "Read timed out. (read timeout=30)");
     stop_error := None;
     logs_stdout := Return ""; logs_stderr := Return "";
     reload_error := None; state_exit_code := None; remove_error := None;
     exec_run := fun _ => ExecDone 0 ("hello" ++ PyStr.nl) "";
     rmtree_limit := Some 900%nat; unremovable := fun _ => false |}.


Definition python_config : LanguageConfig :=
  {| image := "python:3.12-slim"; main_file := "main.py"; setup_command := None |}.

Definition typescript_config : LanguageConfig :=
  {| image := "node:20-slim"; main_file := "main.ts";
     setup_command := Some "npm install -g typescript ts-node" |}.

(* ===================================================================== *)
(** * Checks of the string and path functions *)
(* ===================================================================== *)

Example strip_ex : PyStr.strip ("  hello" ++ PyStr.nl) = "hello".
Proof. reflexivity. Qed.
Example splitext_ex1 : OsPath.splitext "src/Main.JAVA" = ("src/Main", ".JAVA").
Proof. reflexivity. Qed.
Example splitext_ex2 : OsPath.splitext "dir.d/.py" = ("dir.d/.py", "").
Proof. reflexivity. Qed.
Example splitext_ex3 : OsPath.splitext "..py" = ("..py", "").
Proof. reflexivity. Qed.
Example splitext_ex4 : OsPath.splitext "a..py" = ("a.", ".py").
Proof. reflexivity. Qed.
Example dirname_ex : OsPath.dirname "/app/tmp/x/src/main.py" = "/app/tmp/x/src".
Proof. reflexivity. Qed.
Example b64_ex : Base64.encode "hello" = "aGVsbG8=".
Proof. reflexivity. Qed.
Example b64_ex2 : Base64.encode "a" = "YQ==" /\ Base64.encode "1 2" = "MSAy".
Proof. split; reflexivity. Qed.
Example strip_ex2 :
  PyStr.strip (PyStr.bytes [194; 160; 9]%nat ++ "a b" ++ PyStr.bytes [226; 128; 137; 13]%nat)
  = "a b".
Proof. reflexivity. Qed.
Example detect_ex1 : _detect_language_from_file "src/Main.JAVA" = Some "java".
Proof. reflexivity. Qed.
Example detect_ex2 : _detect_language_from_file "app.js" = Some "typescript".
Proof. reflexivity. Qed.
Example detect_ex3 : _detect_language_from_file ".py" = None.
Proof. reflexivity. Qed.
Example join_ex : OsPath.join "/app/tmp/x" "/etc/motd" = "/etc/motd".
Proof. reflexivity. Qed.
Example replace_ex : PyStr.replace_ts_js "my.tsx.ts" = "my.jsx.js".
Proof. reflexivity. Qed.
Example of_int_ex : PyStr.of_int (-1) = "-1" /\ PyStr.of_int 0 = "0" /\ PyStr.of_int 30 = "30".
Proof. repeat split. Qed.
Example nesting_ex :
  nesting "/app/tmp/x" "/app/tmp/x/main.py" = 0%nat /\
  nesting "/app/tmp/x" "/app/tmp/x/src/io/main.py" = 2%nat /\
  tree_depth "/app/tmp/x" ["/app/tmp/x/main.py"; "/app/tmp/x/src/io/main.py"] = 2%nat.
Proof. repeat split. Qed.
Example exec_ex1 :
  _exec_in_container (with_exec calm 0 ExecTimeout) "true" 30 init_state
  = (Raise (TimeoutError ""), after_exec true "true" 30 0 init_state).
Proof. reflexivity. Qed.
Example exec_ex2 :
  _exec_in_container (with_exec calm 0 ExecNotStarted) "true" 30 init_state
  = (Raise (TimeoutError ""), after_exec false "true" 30 0 init_state).
Proof. reflexivity. Qed.
Example exec_ex3 :
  _exec_in_container (with_exec calm 0 ExecTimeout) "true" 0 init_state
  = (Raise (TimeoutError ""), after_exec false "true" 0 0 init_state).
Proof. reflexivity. Qed.

(* ===================================================================== *)
(** * Reasoning about the monad *)
(* ===================================================================== *)

Lemma bind_return {A B} (c : M A) (k : A -> M B) s b s' :
  bind c k s = (Return b, s') ->
  exists a s1, c s = (Return a, s1) /\ k a s1 = (Return b, s').
Proof.
  unfold bind. destruct (c s) as [[a | e] s1]; intros H.
  - exists a, s1. split; [reflexivity | exact H].
  - discriminate H.
Qed.

Lemma bind_step {A B} (c : M A) (k : A -> M B) s a s1 :
  c s = (Return a, s1) -> bind c k s = k a s1.
Proof. unfold bind. intros ->. reflexivity. Qed.

Lemma try_finally_return {A} (body : M A) (final : M unit) s a s' :
  try_finally body final s = (Return a, s') ->
  exists s1, body s = (Return a, s1) /\ final s1 = (Return tt, s').
Proof.
  unfold try_finally. destruct (body s) as [o s1].
  destruct (final s1) as [[[] | e] s2] eqn:F; intros H; inversion H; subst.
  exists s1. split; [reflexivity | exact F].
Qed.

Lemma same_docker_refl s : same_docker s s.
Proof. repeat split. Qed.

Lemma same_docker_trans s1 s2 s3 :
  same_docker s1 s2 -> same_docker s2 s3 -> same_docker s1 s3.
Proof.
  unfold same_docker. intros (a & b & c & d) (a' & b' & c' & d').
  repeat split; congruence.
Qed.

Lemma with_fs_same_docker f s : same_docker s (with_fs f s).
Proof. repeat split. Qed.

Create HintDb engine.
#[local] Hint Resolve same_docker_refl with_fs_same_docker : engine.

(** ** The workspace *)

Lemma overflows_0 (env : Env) : overflows env 0 = false.
Proof. unfold overflows. destruct (rmtree_limit env); reflexivity. Qed.

Lemma stays_removable (env : Env) (d : string) (l : list (string * node)) :
  removable env d -> stays env l d = false.
Proof.
  intros R. unfold stays. induction l as [| e l IH]; simpl; [reflexivity |].
  rewrite IH, orb_false_r.
  destruct (under d (fst e)) eqn:U; [rewrite (R _ U); reflexivity | apply andb_false_r].
Qed.

Lemma lookup_path_rmtree (env : Env) (d : string) (l0 l : list (string * node)) :
  stays env l0 d = false ->
  lookup_path d (filter (fun e => negb (under d (fst e)) || stays env l0 (fst e)) l) = None.
Proof.
  intros St. unfold lookup_path.
  induction l as [| [p n] l IH]; simpl; [reflexivity |].
  destruct (String.eqb p d) eqn:E.
  - apply String.eqb_eq in E. subst p.
    assert (U : under d d = true) by (unfold under; rewrite String.eqb_refl; reflexivity).
    rewrite U, St. simpl. exact IH.
  - destruct (negb (under d p) || stays env l0 p); simpl; [rewrite E |]; exact IH.
Qed.

(** The cleanup touches the file system only. *)
Lemma remove_workspace_frame (env : Env) (d : string) (n : nat) s o s' :
  remove_workspace env d n s = (o, s') -> same_docker s s'.
Proof.
  unfold remove_workspace, bind, path_exists, rmtree, ret.
  destruct (lookup_path d (fs s)); [destruct (overflows env n) |];
    intros H; inversion H; subst; auto with engine.
Qed.

(** Past the recursion limit the cleanup of a directory that exists raises
    and leaves the directory. *)
Lemma remove_workspace_overflow (env : Env) (d : string) (n : nat) (s : State) :
  overflows env n = true -> lookup_path d (fs s) <> None ->
  remove_workspace env d n s
  = (Raise (RecursionError "maximum recursion depth exceeded"), s).
Proof.
  intros Hn L. unfold remove_workspace, bind, path_exists, rmtree. rewrite Hn.
  destruct (lookup_path d (fs s)); [reflexivity | contradiction L; reflexivity].
Qed.

(** Within the recursion limit the cleanup returns, and it leaves nothing
    when nothing resists removal. *)
Lemma remove_workspace_spec (env : Env) (d : string) (n : nat) (s : State) :
  overflows env n = false ->
  exists s', remove_workspace env d n s = (Return tt, s') /\
             same_docker s s' /\
             (removable env d -> lookup_path d (fs s') = None).
Proof.
  intros Hn. unfold remove_workspace, bind, path_exists, rmtree. rewrite Hn.
  destruct (lookup_path d (fs s)) eqn:L.
  - eexists. split; [reflexivity |]. split; [apply with_fs_same_docker |].
    intros R. simpl. apply lookup_path_rmtree. apply stays_removable. exact R.
  - exists s. split; [reflexivity |]. split; [apply same_docker_refl |].
    intros _. exact L.
Qed.

Lemma write_files_frame (env : Env) (d : string) (files : list (string * string)) :
  forall s o s', write_files env d files s = (o, s') -> same_docker s s'.
Proof.
  induction files as [| [filepath content] rest IH]; intros s o s' H; simpl in H.
  - inversion H; subst. apply same_docker_refl.
  - destruct (write_error env (OsPath.join d filepath)).
    + inversion H; subst. apply same_docker_refl.
    + unfold bind, makedirs, write_file in H. simpl in H.
      apply IH in H. eapply same_docker_trans; [| exact H]. repeat split.
Qed.

Lemma write_files_ok (env : Env) (d : string) (files : list (string * string)) :
  writable env d files = true ->
  forall s, exists s', write_files env d files s = (Return tt, s') /\ same_docker s s'.
Proof.
  induction files as [| [filepath content] rest IH]; intros W s; simpl in *.
  - exists s. split; [reflexivity | apply same_docker_refl].
  - destruct (write_error env (OsPath.join d filepath)); [discriminate W |].
    simpl in W. unfold bind, makedirs, write_file. simpl.
    destruct (IH W (with_fs (put_file (OsPath.join d filepath) content)
                 (with_fs (fun l => fold_left add_dir
                    (ancestors (S (String.length (OsPath.dirname (OsPath.join d filepath))))
                       (OsPath.dirname (OsPath.join d filepath))) l) s)))
      as (s' & E & F).
    exists s'. split; [exact E |].
    eapply same_docker_trans; [| exact F]. repeat split.
Qed.

Lemma select_main_file_pure (l : string) (files : list (string * string)) s o s' :
  select_main_file l files s = (o, s') -> s' = s.
Proof.
  unfold select_main_file.
  destruct (detect_first (map fst files)) as [[? ?] |].
  - intros H; inversion H; reflexivity.
  - destruct (find _ (map fst files)).
    + intros H; inversion H; reflexivity.
    + destruct files as [| [? ?] ?]; intros H; inversion H; reflexivity.
Qed.

Lemma select_main_file_ok (l : string) (files : list (string * string)) s :
  files <> [] -> exists p, select_main_file l files s = (Return p, s).
Proof.
  intros NE. unfold select_main_file.
  destruct (detect_first (map fst files)) as [[? p] |]; [exists p; reflexivity |].
  destruct (find _ (map fst files)) as [p |]; [exists p; reflexivity |].
  destruct files as [| [p ?] ?]; [contradiction | exists p; reflexivity].
Qed.

(** ** The test loop *)

Lemma run_tests_cons (env : Env) (rc : string) (T : Z) (idx : nat) (tc : TestCase)
    (rest : list TestCase) (first : string) (acc : list TestResult) (s : State) :
  run_tests env rc T idx (tc :: rest) first acc s =
  match test_observation T (exec_run env (exec_calls s)) with
  | Return (c, out, err) =>
      run_tests env rc T (S idx) rest (note_error first err)
        (acc ++ [judge idx tc c out err
                   (clock env (S (clock_reads s)) - clock env (clock_reads s))])
        (after_exec (call_made T (exec_run env (exec_calls s)))
           (test_command rc (input tc)) T 2 s)
  | Raise e =>
      (Raise e,
       after_exec (call_made T (exec_run env (exec_calls s)))
         (test_command rc (input tc)) T 1 s)
  end.
Proof.
  simpl. unfold bind, time_ms, try_except, _exec_in_container, test_observation. simpl.
  destruct (exec_run env (exec_calls s)) as [c out err | | e |]; simpl; try reflexivity.
  destruct e; reflexivity.
Qed.

Lemma judge_all_length idx tcs : forall obs,
  List.length obs = List.length tcs -> List.length (judge_all idx tcs obs) = List.length tcs.
Proof.
  revert idx. induction tcs as [| tc tcs IH]; intros idx [| [[[c out] err] d] obs] L;
    simpl in *; try reflexivity; try discriminate.
  f_equal. apply IH. lia.
Qed.

Lemma judge_all_nth idx tcs : forall obs k tc c out err d,
  nth_error tcs k = Some tc -> nth_error obs k = Some (c, out, err, d) ->
  nth_error (judge_all idx tcs obs) k = Some (judge (idx + k) tc c out err d).
Proof.
  revert idx. induction tcs as [| tc0 tcs IH]; intros idx obs k tc c out err d Ht Ho.
  - destruct k; discriminate Ht.
  - destruct obs as [| [[[c0 out0] err0] d0] obs]; [destruct k; discriminate Ho |].
    destruct k as [| k]; simpl in *.
    + inversion Ht; inversion Ho; subst. rewrite Nat.add_0_r. reflexivity.
    + rewrite (IH (S idx) obs k tc c out err d Ht Ho). do 2 f_equal. lia.
Qed.

Lemma run_tests_return (env : Env) (rc : string) (T : Z) :
  forall tcs idx first acc s first' res s',
    run_tests env rc T idx tcs first acc s = (Return (first', res), s') ->
    exists obs,
      List.length obs = List.length tcs /\
      (forall k c out err d, nth_error obs k = Some (c, out, err, d) ->
         test_observation T (exec_run env (exec_calls s + k)) = Return (c, out, err)) /\
      res = (acc ++ judge_all idx tcs obs)%list /\
      first' = fold_left note_error (map obs_stderr obs) first /\
      exec_calls s' = (exec_calls s + List.length tcs)%nat /\
      docker_log s' = (docker_log s ++ test_calls env rc T (exec_calls s) tcs)%list /\
      container s' = container s /\ fs s' = fs s.
Proof.
  induction tcs as [| tc rest IH]; intros idx first acc s first' res s' H.
  - simpl in H. inversion H; subst. exists []. simpl.
    rewrite !app_nil_r, Nat.add_0_r. repeat split; try reflexivity.
    intros [| k] ? ? ? ? Hk; discriminate Hk.
  - rewrite run_tests_cons in H.
    destruct (test_observation T (exec_run env (exec_calls s))) as [[[c out] err] | e] eqn:O;
      [| discriminate H].
    apply IH in H. destruct H as (obs & L & Hobs & Hres & Hfirst & Hcalls & Hlog & Hc & Hfs).
    exists ((c, out, err, clock env (S (clock_reads s)) - clock env (clock_reads s)) :: obs).
    simpl in *. repeat split.
    + f_equal. exact L.
    + intros [| k] c' out' err' d' Hk; simpl in Hk.
      * inversion Hk; subst. rewrite Nat.add_0_r. exact O.
      * rewrite Nat.add_succ_r. exact (Hobs k c' out' err' d' Hk).
    + rewrite Hres, <- app_assoc. reflexivity.
    + exact Hfirst.
    + rewrite Hcalls. lia.
    + rewrite Hlog, <- app_assoc. reflexivity.
    + exact Hc.
    + exact Hfs.
Qed.

(** When every run of the suite finishes or times out, the loop reaches its
    end. *)
Lemma run_tests_total (env : Env) (rc : string) (T : Z) :
  forall tcs idx first acc s,
    (forall k, (k < List.length tcs)%nat ->
       exists x, test_observation T (exec_run env (exec_calls s + k)) = Return x) ->
    exists first' res s', run_tests env rc T idx tcs first acc s = (Return (first', res), s').
Proof.
  induction tcs as [| tc rest IH]; intros idx first acc s Hall.
  - simpl. do 3 eexists. reflexivity.
  - rewrite run_tests_cons.
    destruct (Hall 0%nat) as [[[c out] err] O]; [simpl; lia |].
    rewrite Nat.add_0_r in O. rewrite O.
    apply IH. intros k Hk. simpl.
    rewrite <- Nat.add_succ_r. apply Hall. simpl. lia.
Qed.

(** The loop reads the oracle only at the [exec_run] calls it makes and at
    the clock. *)
Lemma run_tests_ext (env1 env2 : Env) (rc : string) (T : Z) :
  (forall k, clock env1 k = clock env2 k) ->
  forall tcs idx first acc s,
    (forall k, (exec_calls s <= k)%nat -> exec_run env1 k = exec_run env2 k) ->
    run_tests env1 rc T idx tcs first acc s = run_tests env2 rc T idx tcs first acc s.
Proof.
  intros Hclock. induction tcs as [| tc rest IH]; intros idx first acc s Hexec.
  - reflexivity.
  - rewrite !run_tests_cons. rewrite <- (Hexec (exec_calls s) (Nat.le_refl _)).
    rewrite <- !Hclock.
    destruct (test_observation T (exec_run env1 (exec_calls s))) as [[[c out] err] | e];
      [| reflexivity].
    apply IH. intros k Hk. apply Hexec. simpl in Hk. lia.
Qed.

(** ** Batch test-suite mode *)

#[local] Arguments String.append : simpl never.
#[local] Arguments PyStr.strip : simpl never.
#[local] Arguments PyStr.of_int : simpl never.
#[local] Arguments Base64.encode : simpl never.
#[local] Arguments PyStr.replace_ts_js : simpl never.
#[local] Arguments OsPath.join : simpl never.
#[local] Arguments archive_of : simpl never.
#[local] Arguments transcript : simpl never.

Lemma prepare_runner_return (env : Env) (language main_file_path : string) (T : Z) s rc s' :
  prepare_runner env language main_file_path T s = (Return rc, s') ->
  exec_calls s' = (exec_calls s + build_calls language)%nat /\
  container s' = container s /\ fs s' = fs s /\ clock_reads s' = clock_reads s /\
  (exists cmds, docker_log s' = (docker_log s ++ cmds)%list /\
                List.length cmds = build_calls language) /\
  (needs_build language = true ->
   exists c out err, exec_run env (exec_calls s) = ExecDone c out err).
Proof.
  unfold prepare_runner, build_calls, needs_build.
  destruct (String.eqb language "typescript"); simpl;
    [| destruct (String.eqb language "java"); simpl;
       [| destruct (String.eqb language "go"); simpl ]].
  4: { intros H; inversion H; subst. rewrite Nat.add_0_r.
       repeat split; try reflexivity.
       - exists []. rewrite app_nil_r. split; reflexivity.
       - intros D; discriminate D. }
  all: unfold bind, _exec_in_container;
    destruct (exec_run env (exec_calls s)) as [c out err | | e |] eqn:E;
    intros H; inversion H; subst; simpl;
    (repeat split; try reflexivity; try lia;
     [ eexists; split; reflexivity | intros _; exists c, out, err; reflexivity ]).
Qed.

Lemma prepare_runner_total (env : Env) (language main_file_path : string) (T : Z) s :
  (needs_build language = true ->
   exists c out err, exec_run env (exec_calls s) = ExecDone c out err) ->
  exists rc s', prepare_runner env language main_file_path T s = (Return rc, s').
Proof.
  unfold prepare_runner, needs_build.
  destruct (String.eqb language "typescript"); simpl;
    [| destruct (String.eqb language "java"); simpl;
       [| destruct (String.eqb language "go"); simpl ]].
  4: { intros _. do 2 eexists. reflexivity. }
  all: intros B; destruct (B eq_refl) as (c & out & err & E);
    unfold bind, _exec_in_container; rewrite E; do 2 eexists; reflexivity.
Qed.

Lemma remove_container_spec (env : Env) s :
  exists s', remove_container env s = (Return tt, s') /\
    fs s' = fs s /\ exec_calls s' = exec_calls s /\ clock_reads s' = clock_reads s /\
    container s' = container s /\
    docker_log s' =
      (docker_log s ++ match container s with Some _ => [Remove] | None => [] end)%list.
Proof.
  unfold remove_container, suppress, try_except, bind, get_container, docker_call.
  destruct (container s) eqn:C.
  - destruct (remove_error env); simpl; eexists; (split; [reflexivity |]);
      simpl; repeat split; auto.
  - simpl. exists s. rewrite app_nil_r. repeat split; auto.
Qed.

Lemma batch_run_return (env : Env) (config : LanguageConfig)
    (language main_file_path d : string) (T : Z) (tests : list TestCase) s out err code results v s' :
  batch_run env config language main_file_path d T tests "" s
    = (Return (out, err, code, results, v), s') ->
  batch_setup_error env = None /\
  exec_calls s' = (exec_calls s + build_calls language + List.length tests)%nat /\
  (exists builds rc,
     List.length builds = build_calls language /\
     docker_log s' =
       (docker_log s
          ++ [Create (image config) ("/bin/sh -c " ++ dq ++ "sleep 3600" ++ dq)
                (negb (String.eqb language "typescript"));
              Start; PutArchive (archive_of d (fs s))]
          ++ builds
          ++ test_calls env rc T (exec_calls s + build_calls language) tests
          ++ [Remove])%list) /\
  exists obs,
    List.length obs = List.length tests /\
    (forall k c o e dt, nth_error obs k = Some (c, o, e, dt) ->
       test_observation T (exec_run env (exec_calls s + build_calls language + k))
         = Return (c, o, e)) /\
    results = judge_all 0 tests obs /\
    out = transcript results /\
    err = suite_stderr results (first_error_of obs) /\
    code = (if all_passed results then 0 else 1) /\
    v = verdict_of results.
Proof.
  unfold batch_run. intros H.
  apply bind_return in H. destruct H as ([] & s0 & E0 & H).
  unfold set_container in E0. inversion E0; subst s0; clear E0.
  apply try_finally_return in H. destruct H as (s5 & H & F).
  unfold containers_create in H.
  apply bind_return in H. destruct H as ([] & s1 & E1 & H).
  apply bind_return in E1. destruct E1 as ([] & s1' & E1 & E1').
  unfold docker_call in E1. destruct (create_error env) eqn:Cr; [discriminate E1 |].
  inversion E1; subst s1'; clear E1.
  unfold set_container in E1'. inversion E1'; subst s1; clear E1'.
  apply bind_return in H. destruct H as ([] & s2 & E2 & H).
  unfold docker_call in E2. destruct (start_error env) eqn:St; [discriminate E2 |].
  inversion E2; subst s2; clear E2.
  apply bind_return in H. destruct H as ([] & s3 & E3 & H).
  unfold put_workspace, bind, get_fs, docker_call in E3. simpl in E3.
  destruct (put_archive_error env) eqn:Pu; [discriminate E3 |].
  inversion E3; subst s3; clear E3.
  apply bind_return in H. destruct H as (rc & s4 & E4 & H).
  apply prepare_runner_return in E4.
  destruct E4 as (P1 & P2 & P3 & P4 & (cmds & P5 & P5') & P6).
  apply bind_return in H. destruct H as ([first res] & s6 & E6 & H).
  apply run_tests_return in E6.
  destruct E6 as (obs & L & Hobs & Hres & Hfirst & Hcalls & Hlog & Hc & Hfs).
  unfold ret in H. inversion H; subst; clear H.
  destruct (remove_container_spec env s5) as (s7 & F' & R1 & R2 & R3 & R4 & R5).
  rewrite F in F'. inversion F'; subst s7; clear F'.
  simpl in *.
  split; [unfold batch_setup_error; rewrite Cr, St, Pu; reflexivity |].
  split; [rewrite R2, Hcalls, P1; reflexivity |].
  split.
  - exists cmds, rc. split; [exact P5' |].
    rewrite R5, Hc, P2, Hlog, P5, P1. rewrite <- !app_assoc. reflexivity.
  - exists obs. rewrite P1 in Hobs. repeat split; auto.
Qed.

Lemma batch_run_total (env : Env) (config : LanguageConfig)
    (language main_file_path d : string) (T : Z) (tests : list TestCase) (stderr0 : string) s :
  batch_setup_error env = None ->
  (needs_build language = true ->
   exists c out err, exec_run env (exec_calls s) = ExecDone c out err) ->
  (forall k, (k < List.length tests)%nat ->
     exists x, test_observation T
                 (exec_run env (exec_calls s + build_calls language + k)) = Return x) ->
  exists res s', batch_run env config language main_file_path d T tests stderr0 s
                   = (Return res, s').
Proof.
  unfold batch_setup_error. intros Hsetup Hbuild Htests.
  destruct (create_error env) eqn:Cr; [discriminate Hsetup |].
  destruct (start_error env) eqn:St; [discriminate Hsetup |].
  unfold batch_run.
  cbv beta iota delta [bind set_container try_finally containers_create docker_call
                       put_workspace get_fs ret of_option].
  rewrite Cr, St, Hsetup. simpl.
  match goal with
  | |- context [prepare_runner env language main_file_path T ?s0] =>
      destruct (prepare_runner_total env language main_file_path T s0 Hbuild)
        as (rc & s4 & E4)
  end.
  rewrite E4.
  apply prepare_runner_return in E4. destruct E4 as (P1 & _). simpl in P1.
  destruct (run_tests_total env rc T tests 0 "" [] s4) as (first & res & s5 & E5).
  { intros k Hk. rewrite P1. apply Htests. exact Hk. }
  rewrite E5.
  destruct (remove_container_spec env s5) as (s6 & F & _).
  rewrite F. do 2 eexists. reflexivity.
Qed.

(** ** Single-run mode *)

Ltac run_single :=
  unfold single_run;
  cbv beta iota delta [bind set_container get_container try_finally try_except suppress
                       remove_container containers_create docker_call put_workspace
                       get_fs ret raise of_option].

Ltac close_single :=
  simpl;
  repeat match goal with
         | |- context [remove_error ?env] => destruct (remove_error env)
         end;
  simpl; eexists; repeat split; reflexivity.

Lemma single_run_setup_failure (env : Env) (config : LanguageConfig)
    (language command d : string) (T : Z) (e : exn) s :
  single_setup_error env = Some e ->
  exists s', single_run env config language command d T s
               = (Return ("", stderr_of_exn e, -1), s') /\
             exec_calls s' = exec_calls s /\ clock_reads s' = clock_reads s.
Proof.
  unfold single_setup_error. intros H. run_single.
  destruct (create_error env) as [e1 |] eqn:Cr.
  - inversion H; subst e1. destruct e; close_single.
  - simpl. destruct (put_archive_error env) as [e2 |] eqn:Pu.
    + inversion H; subst e2. destruct e; close_single.
    + simpl. rewrite H. destruct e; close_single.
Qed.

Lemma single_run_completed (env : Env) (config : LanguageConfig)
    (language command d : string) (T : Z) (out raw : string) s :
  single_setup_error env = None -> wait_error env = None ->
  logs_stdout env = Return out -> logs_stderr env = Return raw ->
  reload_error env = None ->
  exists s', single_run env config language command d T s
               = (Return (out,
                          (if negb (state_exit env =? 0) && PyStr.truthy (PyStr.strip raw)
                           then raw else ""),
                          state_exit env), s') /\
             exec_calls s' = exec_calls s /\ clock_reads s' = clock_reads s.
Proof.
  unfold single_setup_error. intros Hs Hw Ho He Hr. run_single.
  destruct (create_error env) eqn:Cr; [discriminate Hs |].
  destruct (put_archive_error env) eqn:Pu; [discriminate Hs |].
  simpl. rewrite Hs, Hw, Ho, He, Hr. unfold state_exit. close_single.
Qed.

(** Single-run mode has a handler for every exception: it always returns. *)
Lemma single_run_total (env : Env) (config : LanguageConfig)
    (language command d : string) (T : Z) s :
  exists res s', single_run env config language command d T s = (Return res, s') /\
                 exec_calls s' = exec_calls s /\ clock_reads s' = clock_reads s.
Proof.
  destruct (single_setup_error env) as [e |] eqn:Hs.
  - destruct (single_run_setup_failure env config language command d T e s Hs)
      as (s' & E & C).
    exists ("", stderr_of_exn e, -1), s'. split; assumption.
  - unfold single_setup_error in Hs. run_single.
    destruct (create_error env) eqn:Cr; [discriminate Hs |].
    destruct (put_archive_error env) eqn:Pu; [discriminate Hs |].
    simpl. rewrite Hs. simpl.
    destruct (wait_error env) as [ew |]; simpl.
    + destruct (stop_error env) as [[] |]; simpl; eexists; close_single.
    + destruct (logs_stdout env) as [o | []]; simpl; try (eexists; close_single).
      destruct (logs_stderr env) as [r | []]; simpl; try (eexists; close_single).
      destruct (reload_error env) as [[] |]; simpl; eexists; close_single.
Qed.

(** ** The resolved request *)

Lemma run_resolved_single (env : Env) (config : LanguageConfig)
    (language main_file_path d : string) (T : Z) (tcs : option (list TestCase)) (st : Z)
    s a b c s1 :
  has_tests tcs = false ->
  single_run env config language (run_command language main_file_path) d T s
    = (Return (a, b, c), s1) ->
  run_resolved env config language main_file_path d T tcs st s =
  (Return {| stdout := a; stderr := b; exit_code := c;
             duration_ms := clock env (clock_reads s1) - st;
             test_results := None; verdict := None |}, tick s1).
Proof.
  intros Hn E. unfold run_resolved. rewrite Hn. simpl negb. cbv iota.
  rewrite (bind_step _ _ _ _ _ E).
  destruct tcs as [[| t ts] |]; try discriminate Hn; reflexivity.
Qed.

Lemma run_resolved_batch_return (env : Env) (config : LanguageConfig)
    (language main_file_path d : string) (T : Z) (tests : list TestCase) (st : Z) s r s' :
  tests <> [] ->
  run_resolved env config language main_file_path d T (Some tests) st s = (Return r, s') ->
  suite_report env T (exec_calls s + build_calls language) tests r /\
  batch_setup_error env = None /\
  exists builds rc,
    List.length builds = build_calls language /\
    docker_log s' =
      (docker_log s
         ++ [Create (image config) ("/bin/sh -c " ++ dq ++ "sleep 3600" ++ dq)
               (negb (String.eqb language "typescript"));
             Start; PutArchive (archive_of d (fs s))]
         ++ builds
         ++ test_calls env rc T (exec_calls s + build_calls language) tests
         ++ [Remove])%list.
Proof.
  intros NE H. destruct tests as [| t ts]; [contradiction |].
  unfold run_resolved in H. simpl has_tests in H. simpl negb in H. cbv iota in H.
  unfold bind at 1 in H. unfold ret at 1 in H.
  apply bind_return in H. destruct H as (x & s1 & E & H).
  apply bind_return in E. destruct E as ([[[[out err] code] results] v] & s2 & E & E').
  apply batch_run_return in E.
  destruct E as (Hsetup & Hcalls & (builds & rc & Lb & Hlog) & obs & L & Hobs & -> & -> & -> & -> & ->).
  unfold ret in E'. inversion E'; subst; clear E'.
  unfold bind, time_ms, ret in H. inversion H; subst; clear H. simpl.
  split; [| split; [exact Hsetup | exists builds, rc; split; assumption]].
  exists obs. repeat split; auto.
Qed.

Lemma run_resolved_batch_total (env : Env) (config : LanguageConfig)
    (language main_file_path d : string) (T : Z) (tests : list TestCase) (st : Z) s :
  tests <> [] ->
  batch_setup_error env = None ->
  (needs_build language = true ->
   exists c out err, exec_run env (exec_calls s) = ExecDone c out err) ->
  (forall k, (k < List.length tests)%nat ->
     exists x, test_observation T
                 (exec_run env (exec_calls s + build_calls language + k)) = Return x) ->
  exists r s', run_resolved env config language main_file_path d T (Some tests) st s
                 = (Return r, s').
Proof.
  intros NE Hsetup Hbuild Htests. destruct tests as [| t ts]; [contradiction |].
  destruct (batch_run_total env config language main_file_path d T (t :: ts) "" s
              Hsetup Hbuild Htests) as ([[[[out err] code] results] v] & s1 & E).
  unfold run_resolved. simpl has_tests. simpl negb. cbv iota.
  unfold bind at 1. unfold ret at 1.
  unfold bind at 1. unfold bind at 1. rewrite E. unfold ret at 1.
  unfold bind, time_ms, ret. do 2 eexists. reflexivity.
Qed.

(** ** The whole request *)

Lemma add_dir_keeps (l : list (string * node)) (p q : string) :
  lookup_path p l <> None -> lookup_path p (add_dir l q) <> None.
Proof.
  unfold add_dir. destruct (lookup_path q l); [trivial |].
  unfold lookup_path. simpl. destruct (String.eqb q p); [discriminate | trivial].
Qed.

Lemma add_dir_adds (l : list (string * node)) (p : string) :
  lookup_path p (add_dir l p) <> None.
Proof.
  unfold add_dir. destruct (lookup_path p l) eqn:E; [rewrite E; discriminate |].
  unfold lookup_path. simpl. rewrite String.eqb_refl. discriminate.
Qed.

Lemma fold_add_dir_keeps (qs : list string) : forall l p,
  lookup_path p l <> None -> lookup_path p (fold_left add_dir qs l) <> None.
Proof.
  induction qs as [| q qs IH]; intros l p H; simpl; [exact H |].
  apply IH. apply add_dir_keeps. exact H.
Qed.

Lemma makedirs_exists (p : string) (s : State) :
  PyStr.truthy p = true -> OsPath.all_char OsPath.sep p = false ->
  exists s', makedirs p s = (Return tt, s') /\ lookup_path p (fs s') <> None /\
             same_docker s s'.
Proof.
  intros Ht Ha. unfold makedirs. eexists. split; [reflexivity |]. split.
  - simpl. rewrite Ht, Ha. simpl. apply fold_add_dir_keeps. apply add_dir_adds.
  - apply with_fs_same_docker.
Qed.

(** The scratch directory exists while the body of the outer [try] runs. *)
Lemma workspace_created (env : Env) (language : string) (files : list (string * string))
    (T : Z) (tcs : option (list TestCase)) (s : State) :
  exists s0,
    lookup_path (workspace_of env) (fs s0) <> None /\
    docker_log s0 = docker_log s /\ container s0 = container s /\
    exec_calls s0 = exec_calls s /\ clock_reads s0 = S (clock_reads s) /\
    execute_code env language files T tcs s =
    try_finally
      (resolve_and_run env language files T tcs (workspace_of env) (clock env (clock_reads s)))
      (remove_workspace env (workspace_of env)
         (tree_depth (workspace_of env) (written env (workspace_of env) files))) s0.
Proof.
  unfold execute_code. unfold bind at 1. unfold time_ms at 1.
  unfold bind at 1. unfold makedirs at 1.
  match goal with
  | |- context [bind (makedirs ?d) ?k ?s1] =>
      destruct (makedirs_exists d s1) as (s0 & E & X & (D1 & D2 & D3 & D4));
      [reflexivity | reflexivity |];
      rewrite (bind_step _ _ _ _ _ E)
  end.
  exists s0. simpl in *. repeat split; auto.
Qed.

(** The outer [finally]: the outcome of the body stands unless the walk of
    the scratch directory overflows. *)
Lemma try_finally_remove_workspace {A} (body : M A) (env : Env) (d : string) (n : nat)
    s o s1 :
  body s = (o, s1) ->
  exists o' s', try_finally body (remove_workspace env d n) s = (o', s') /\
                same_docker s1 s' /\
                (overflows env n = false ->
                 o' = o /\ (removable env d -> lookup_path d (fs s') = None)).
Proof.
  intros E. unfold try_finally. rewrite E.
  destruct (remove_workspace env d n s1) as [[[] | e] s'] eqn:F.
  - exists o, s'. split; [reflexivity |].
    split; [exact (remove_workspace_frame _ _ _ _ _ _ F) |].
    intros Hn. split; [reflexivity |].
    destruct (remove_workspace_spec env d n s1 Hn) as (s'' & F' & _ & L).
    rewrite F in F'. inversion F'; subst s''. exact L.
  - exists (Raise e), s'. split; [reflexivity |].
    split; [exact (remove_workspace_frame _ _ _ _ _ _ F) |].
    intros Hn. destruct (remove_workspace_spec env d n s1 Hn) as (s'' & F' & _).
    rewrite F in F'. discriminate F'.
Qed.

Lemma execute_code_return (env : Env) (language : string) (files : list (string * string))
    (T : Z) (tcs : option (list TestCase)) s r s' :
  execute_code env language files T tcs s = (Return r, s') ->
  exists config main s1 s2,
    dict_get LANGUAGE_CONFIG (effective_language language files) = Some config /\
    exec_calls s1 = exec_calls s /\ docker_log s1 = docker_log s /\
    run_resolved env config (effective_language language files) main (workspace_of env)
      T tcs (clock env (clock_reads s)) s1 = (Return r, s2) /\
    same_docker s2 s'.
Proof.
  intros H.
  destruct (workspace_created env language files T tcs s)
    as (s0 & _ & D1 & _ & D3 & _ & E).
  rewrite E in H. clear E.
  apply try_finally_return in H. destruct H as (s2 & H & F).
  pose proof (remove_workspace_frame _ _ _ _ _ _ F) as D.
  unfold resolve_and_run in H.
  apply bind_return in H. destruct H as ([] & s1 & W & H).
  apply write_files_frame in W. destruct W as (W1 & _ & W3 & _).
  apply bind_return in H. destruct H as (main & s1' & Smain & H).
  apply select_main_file_pure in Smain. subst s1'.
  destruct (dict_get LANGUAGE_CONFIG (effective_language language files)) as [config |];
    [| discriminate H].
  exists config, main, s1, s2. repeat split; try congruence; apply D.
Qed.

Lemma execute_code_resolved (env : Env) (language : string) (files : list (string * string))
    (T : Z) (tcs : option (list TestCase)) s :
  writable env (workspace_of env) files = true -> files <> [] ->
  within_rmtree_limit env files = true ->
  exists main s1,
    exec_calls s1 = exec_calls s /\ docker_log s1 = docker_log s /\
    forall o s2,
      match dict_get LANGUAGE_CONFIG (effective_language language files) with
      | Some config =>
          run_resolved env config (effective_language language files) main
            (workspace_of env) T tcs (clock env (clock_reads s)) s1
      | None =>
          raise (ValueError ("Unsupported language: " ++ effective_language language files)) s1
      end = (o, s2) ->
      exists s', execute_code env language files T tcs s = (o, s') /\
                 same_docker s2 s' /\
                 (removable env (workspace_of env) ->
                  lookup_path (workspace_of env) (fs s') = None).
Proof.
  intros W NE Hdepth.
  apply negb_true_iff in Hdepth.
  destruct (workspace_created env language files T tcs s)
    as (s0 & _ & D1 & _ & D3 & _ & E).
  destruct (write_files_ok env (workspace_of env) files W s0) as (s1 & Wf & (F1 & _ & F3 & _)).
  destruct (select_main_file_ok (effective_language language files) files s1 NE)
    as (main & Sm).
  exists main, s1. split; [congruence |]. split; [congruence |].
  intros o s2 R. rewrite E.
  destruct (try_finally_remove_workspace
              (resolve_and_run env language files T tcs (workspace_of env)
                 (clock env (clock_reads s)))
              env (workspace_of env)
              (tree_depth (workspace_of env) (written env (workspace_of env) files))
              s0 o s2) as (o' & s' & X & D & L).
  { unfold resolve_and_run. rewrite (bind_step _ _ _ _ _ Wf).
    rewrite (bind_step _ _ _ _ _ Sm).
    destruct (dict_get LANGUAGE_CONFIG (effective_language language files)); exact R. }
  destruct (L Hdepth) as (-> & L').
  exists s'. split; [exact X |]. split; [exact D | exact L'].
Qed.

(* ===================================================================== *)
(** * Verdict and exit code of a suite *)
(* ===================================================================== *)

Lemma filter_length_le {A} (f : A -> bool) (l : list A) :
  (List.length (filter f l) <= List.length l)%nat.
Proof.
  induction l as [| a l IH]; simpl; [lia |]. destruct (f a); simpl; lia.
Qed.

Lemma all_passed_Forall (results : list TestResult) :
  all_passed results = true <-> Forall (fun tr => passed tr = true) results.
Proof.
  unfold all_passed, passed_count. rewrite Nat.eqb_eq.
  induction results as [| tr results IH]; simpl.
  - split; [constructor | reflexivity].
  - destruct (passed tr) eqn:P; simpl.
    + split.
      * intros H. constructor; [exact P |]. apply IH. lia.
      * intros H. inversion H; subst. f_equal. apply IH. assumption.
    + split.
      * intros H. pose proof (filter_length_le passed results). lia.
      * intros H. inversion H; subst. congruence.
Qed.

Lemma execute_code_batch_return (env : Env) (language : string)
    (files : list (string * string)) (T : Z) (tests : list TestCase) s r s' :
  has_tests (Some tests) = true ->
  execute_code env language files T (Some tests) s = (Return r, s') ->
  suite_report env T (exec_calls s + build_calls (effective_language language files))
    tests r.
Proof.
  intros Ht H.
  apply execute_code_return in H.
  destruct H as (config & main & s1 & s2 & _ & C1 & _ & R & _).
  apply run_resolved_batch_return in R.
  - rewrite C1 in R. apply R.
  - destruct tests; [discriminate Ht | discriminate].
Qed.

Lemma has_tests_some (tcs : option (list TestCase)) :
  has_tests tcs = true -> exists tests, tcs = Some tests /\ tests <> [].
Proof.
  destruct tcs as [[| t ts] |]; intros H; try discriminate H.
  exists (t :: ts). split; [reflexivity | discriminate].
Qed.

(* ===================================================================== *)
(** * The suite's verdict, the workspace and the stderr of a run
      (C1, C7, C5, C2, C8) *)
(* ===================================================================== *)

(** C1.  In batch test-suite mode (a non-empty [test_cases]), the verdict of
    the returned result is ["ACCEPTED"] exactly when every element of
    [test_results] has [passed = true], and ["WRONG ANSWER"] otherwise. *)
Theorem verdict_accepted_iff_all_passed (env : Env) (language : string)
    (files : list (string * string)) (T : Z) (tcs : option (list TestCase)) s r s' :
  has_tests tcs = true ->
  execute_code env language files T tcs s = (Return r, s') ->
  exists results,
    test_results r = Some results /\
    (verdict r = Some "ACCEPTED" <-> Forall (fun tr => passed tr = true) results) /\
    (~ Forall (fun tr => passed tr = true) results -> verdict r = Some "WRONG ANSWER").
Proof.
  intros Ht H. destruct (has_tests_some tcs Ht) as (tests & -> & NE).
  destruct (execute_code_batch_return env language files T tests s r s' Ht H)
    as (obs & _ & _ & Hres & Hv & _).
  exists (judge_all 0 tests obs). split; [exact Hres |].
  rewrite Hv, <- all_passed_Forall. unfold verdict_of.
  destruct (all_passed (judge_all 0 tests obs)); split.
  - split; reflexivity.
  - intros F. contradiction F. reflexivity.
  - split; intros F; discriminate F.
  - reflexivity.
Qed.

Lemma verdict_accepted_iff_all_passed_witness :
  exists r s',
    execute_code calm "python" echo_py 30 (Some [hello_test; one_two_test]) init_state
      = (Return r, s') /\
    exists results,
      test_results r = Some results /\
      (verdict r = Some "ACCEPTED" <-> Forall (fun tr => passed tr = true) results) /\
      (~ Forall (fun tr => passed tr = true) results -> verdict r = Some "WRONG ANSWER").
Proof.
  eexists. eexists. split.
  - vm_compute. reflexivity.
  - eapply (verdict_accepted_iff_all_passed calm "python" echo_py 30
             (Some [hello_test; one_two_test]) init_state).
    + reflexivity.
    + vm_compute. reflexivity.
Defined.

(** C7.  In batch test-suite mode the request-level [exit_code] of the
    returned result is 0 exactly when the verdict is ["ACCEPTED"], and 1
    otherwise. *)
Theorem exit_code_zero_iff_accepted (env : Env) (language : string)
    (files : list (string * string)) (T : Z) (tcs : option (list TestCase)) s r s' :
  has_tests tcs = true ->
  execute_code env language files T tcs s = (Return r, s') ->
  (exit_code r = 0 <-> verdict r = Some "ACCEPTED") /\
  (verdict r <> Some "ACCEPTED" -> exit_code r = 1).
Proof.
  intros Ht H. destruct (has_tests_some tcs Ht) as (tests & -> & NE).
  destruct (execute_code_batch_return env language files T tests s r s' Ht H)
    as (obs & _ & _ & _ & Hv & Hc & _).
  rewrite Hv, Hc. unfold verdict_of.
  destruct (all_passed (judge_all 0 tests obs)); split.
  - split; reflexivity.
  - intros F. contradiction F. reflexivity.
  - split; intros F; discriminate F.
  - reflexivity.
Qed.

Lemma exit_code_zero_iff_accepted_witness :
  exists r s',
    execute_code calm "python" echo_py 30 (Some [hello_test]) init_state = (Return r, s') /\
    (exit_code r = 0 <-> verdict r = Some "ACCEPTED") /\
    (verdict r <> Some "ACCEPTED" -> exit_code r = 1).
Proof.
  eexists. eexists. split.
  - vm_compute. reflexivity.
  - eapply (exit_code_zero_iff_accepted calm "python" echo_py 30 (Some [hello_test])
             init_state).
    + reflexivity.
    + vm_compute. reflexivity.
Defined.




(** C2.  In batch test-suite mode, a test whose run completes has
    [passed = true] exactly when the run's exit code is 0 and its trimmed
    stdout equals the trimmed expected output of the test case. *)
Theorem passed_iff_exit_zero_and_output_matches (env : Env) (language : string)
    (files : list (string * string)) (T : Z) (tests : list TestCase) s r s'
    (k : nat) (tc : TestCase) (c : Z) (out err : string) :
  has_tests (Some tests) = true ->
  execute_code env language files T (Some tests) s = (Return r, s') ->
  nth_error tests k = Some tc ->
  exec_run env (exec_calls s + build_calls (effective_language language files) + k)
    = ExecDone c out err ->
  exists results tr,
    test_results r = Some results /\ nth_error results k = Some tr /\
    tr_exit_code tr = c /\
    (passed tr = true <-> c = 0 /\ PyStr.strip out = PyStr.strip (output tc)).
Proof.
  intros Ht H Hk Hrun.
  destruct (execute_code_batch_return env language files T tests s r s' Ht H)
    as (obs & L & Hobs & Hres & _).
  assert (Hlt : (k < List.length obs)%nat).
  { rewrite L. apply nth_error_Some. rewrite Hk. discriminate. }
  destruct (nth_error obs k) as [[[[c' out'] err'] dt] |] eqn:Ho;
    [| apply nth_error_None in Ho; lia].
  pose proof (Hobs k c' out' err' dt Ho) as O. rewrite Hrun in O.
  simpl in O. inversion O; subst c' out' err'; clear O.
  exists (judge_all 0 tests obs), (judge k tc c out err dt).
  split; [exact Hres |].
  split; [exact (judge_all_nth 0 tests obs k tc c out err dt Hk Ho) |].
  split; [reflexivity |].
  unfold judge. simpl. rewrite andb_true_iff, Z.eqb_eq, String.eqb_eq. tauto.
Qed.

Lemma passed_iff_exit_zero_and_output_matches_witness :
  exists r s',
    execute_code calm "python" echo_py 30 (Some [hello_test; one_two_test]) init_state
      = (Return r, s') /\
    exists results tr,
      test_results r = Some results /\ nth_error results 1 = Some tr /\
      tr_exit_code tr = 0 /\
      (passed tr = true <->
       0 = 0 /\ PyStr.strip ("hello" ++ PyStr.nl) = PyStr.strip (output one_two_test)).
Proof.
  eexists. eexists. split.
  - vm_compute. reflexivity.
  - refine (passed_iff_exit_zero_and_output_matches calm "python" echo_py 30
              [hello_test; one_two_test] init_state _ _ 1 one_two_test 0
              ("hello" ++ PyStr.nl) "" eq_refl _ eq_refl eq_refl).
    vm_compute. reflexivity.
Defined.

(** C8.  In single-run mode, when the container was set up, ran to its end
    and its logs and state were read, the returned stderr is the captured
    stderr if the container's exit code is non-zero and that stream is not
    blank, and the empty string otherwise: it is non-empty only with a
    non-zero exit code and a non-blank stream, and empty whenever the exit
    code is 0 or the stream is blank. *)
Theorem stderr_only_on_failure (env : Env) (language : string)
    (files : list (string * string)) (T : Z) (tcs : option (list TestCase)) s r s'
    (out raw : string) :
  has_tests tcs = false ->
  single_setup_error env = None -> wait_error env = None ->
  logs_stdout env = Return out -> logs_stderr env = Return raw ->
  reload_error env = None ->
  execute_code env language files T tcs s = (Return r, s') ->
  exit_code r = state_exit env /\ stdout r = out /\
  (stderr r <> "" -> state_exit env <> 0 /\ PyStr.strip raw <> "") /\
  (state_exit env = 0 \/ PyStr.strip raw = "" -> stderr r = "") /\
  (state_exit env <> 0 -> PyStr.strip raw <> "" -> stderr r = raw).
Proof.
  intros Hn Hs Hw Ho He Hr H.
  apply execute_code_return in H.
  destruct H as (config & main & s1 & s2 & _ & _ & _ & R & _).
  destruct (single_run_completed env config (effective_language language files)
              (run_command (effective_language language files) main)
              (workspace_of env) T out raw s1 Hs Hw Ho He Hr) as (s3 & E & _).
  rewrite (run_resolved_single _ _ _ _ _ _ _ _ _ _ _ _ _ Hn E) in R.
  inversion R; subst; clear R. simpl.
  split; [reflexivity |]. split; [reflexivity |].
  destruct (Z.eqb_spec (state_exit env) 0) as [Z0 | Z0]; simpl;
    [| destruct (PyStr.strip raw) eqn:St; simpl ];
    intuition (try congruence; try discriminate).
Qed.

Lemma stderr_only_on_failure_witness :
  exists r s',
    execute_code warned "go" [("main.go", "package main")] 30 None init_state
      = (Return r, s') /\
    exit_code r = 0 /\ stdout r = "2" ++ PyStr.nl /\ stderr r = "".
Proof.
  eexists. eexists. split.
  - vm_compute. reflexivity.
  - assert (E : execute_code warned "go" [("main.go", "package main")] 30 None init_state
                 = (Return _, _)) by (vm_compute; reflexivity).
    pose proof (stderr_only_on_failure warned "go" [("main.go", "package main")] 30 None
                  init_state _ _ ("2" ++ PyStr.nl) "warning: unused variable"
                  eq_refl eq_refl eq_refl eq_refl eq_refl eq_refl E)
      as (Hc & Ho & _ & Hz & _).
    split; [exact Hc |]. split; [exact Ho |]. apply Hz. left. reflexivity.
Defined.

(* ===================================================================== *)
(** * Language resolution (C3) *)
(* ===================================================================== *)

(** ** The log of Docker calls only grows *)

Lemma extends_trans s1 s2 s3 : extends s1 s2 -> extends s2 s3 -> extends s1 s3.
Proof.
  intros [l1 E1] [l2 E2]. exists (l1 ++ l2)%list. rewrite E2, E1, app_assoc. reflexivity.
Qed.

Ltac no_call :=
  let H := fresh "H" in
  intros ? ? ? H; inversion H; subst; exists []; simpl; rewrite app_nil_r; reflexivity.

Lemma grows_ret {A} (a : A) : grows (ret a).
Proof. no_call. Qed.

Lemma grows_raise {A} (e : exn) : grows (@raise A e).
Proof. no_call. Qed.

Lemma grows_bind {A B} (c : M A) (k : A -> M B) :
  grows c -> (forall a, grows (k a)) -> grows (bind c k).
Proof.
  intros Hc Hk s o s' H. unfold bind in H.
  destruct (c s) as [[a | e] s1] eqn:E.
  - eapply extends_trans; [exact (Hc _ _ _ E) | exact (Hk a _ _ _ H)].
  - inversion H; subst. exact (Hc _ _ _ E).
Qed.

Lemma grows_try_except {A} (body : M A) (handler : exn -> M A) :
  grows body -> (forall e, grows (handler e)) -> grows (try_except body handler).
Proof.
  intros Hb Hh s o s' H. unfold try_except in H.
  destruct (body s) as [[a | e] s1] eqn:E.
  - inversion H; subst. exact (Hb _ _ _ E).
  - eapply extends_trans; [exact (Hb _ _ _ E) | exact (Hh e _ _ _ H)].
Qed.

Lemma grows_try_finally {A} (body : M A) (final : M unit) :
  grows body -> grows final -> grows (try_finally body final).
Proof.
  intros Hb Hf s o s' H. unfold try_finally in H.
  destruct (body s) as [ob s1] eqn:E. destruct (final s1) as [[[] | e] s2] eqn:F;
    inversion H; subst;
    (eapply extends_trans; [exact (Hb _ _ _ E) | exact (Hf _ _ _ F)]).
Qed.

Lemma grows_docker_call {A} (op : docker_op) (answer : outcome A) :
  grows (docker_call op answer).
Proof. intros s o s' H. inversion H; subst. exists [op]. reflexivity. Qed.

Lemma grows_set_container (c : option Container) : grows (set_container c).
Proof. no_call. Qed.

Lemma grows_get_container : grows get_container.
Proof. no_call. Qed.

Lemma grows_get_fs : grows get_fs.
Proof. no_call. Qed.

Lemma grows_time_ms (env : Env) : grows (time_ms env).
Proof. no_call. Qed.

Lemma grows_exec (env : Env) (command : string) (T : Z) :
  grows (_exec_in_container env command T).
Proof.
  intros s o s' H. unfold _exec_in_container in H.
  exists (if call_made T (exec_run env (exec_calls s)) then [ExecRun command T] else []).
  destruct (exec_run env (exec_calls s)); inversion H; subst; reflexivity.
Qed.

#[local] Hint Resolve grows_ret grows_raise grows_docker_call grows_set_container
  grows_get_container grows_get_fs grows_time_ms grows_exec : engine.

Ltac grows_step :=
  match goal with
  | |- grows (bind _ _) => apply grows_bind
  | |- grows (try_except _ _) => apply grows_try_except
  | |- grows (try_finally _ _) => apply grows_try_finally
  | |- grows (suppress _) => unfold suppress
  | |- grows (if ?b then _ else _) => destruct b
  | |- grows (match ?x with _ => _ end) => destruct x
  | |- forall _, _ => intro
  | |- grows _ => solve [auto with engine]
  end.

Lemma grows_remove_container (env : Env) : grows (remove_container env).
Proof. unfold remove_container. repeat grows_step. Qed.

Lemma grows_put_workspace (env : Env) (d : string) : grows (put_workspace env d).
Proof. unfold put_workspace. repeat grows_step. Qed.

Lemma grows_prepare_runner (env : Env) (language main_file_path : string) (T : Z) :
  grows (prepare_runner env language main_file_path T).
Proof. unfold prepare_runner. repeat grows_step. Qed.

Lemma grows_run_tests (env : Env) (rc : string) (T : Z) :
  forall tcs idx first acc, grows (run_tests env rc T idx tcs first acc).
Proof.
  induction tcs as [| tc rest IH]; intros idx first acc; simpl.
  - apply grows_ret.
  - repeat grows_step.
Qed.

#[local] Hint Resolve grows_remove_container grows_put_workspace grows_prepare_runner
  grows_run_tests : engine.

Lemma begins_create (env : Env) (img cmd : string) (nd : bool) :
  begins (Create img cmd nd) (containers_create env img cmd nd).
Proof.
  intros s o s' H. unfold containers_create, bind, docker_call, set_container in H.
  destruct (create_error env); inversion H; subst; exists []; reflexivity.
Qed.

Lemma begins_bind {A B} (op : docker_op) (c : M A) (k : A -> M B) :
  begins op c -> (forall a, grows (k a)) -> begins op (bind c k).
Proof.
  intros Hc Hk s o s' H. unfold bind in H.
  destruct (c s) as [[a | e] s1] eqn:E.
  - destruct (Hc _ _ _ E) as [l1 E1]. destruct (Hk a _ _ _ H) as [l2 E2].
    exists (l1 ++ l2)%list. rewrite E2, E1, <- app_assoc. reflexivity.
  - inversion H; subst. exact (Hc _ _ _ E).
Qed.

Lemma begins_try_except {A} (op : docker_op) (body : M A) (handler : exn -> M A) :
  begins op body -> (forall e, grows (handler e)) -> begins op (try_except body handler).
Proof.
  intros Hb Hh s o s' H. unfold try_except in H.
  destruct (body s) as [[a | e] s1] eqn:E.
  - inversion H; subst. exact (Hb _ _ _ E).
  - destruct (Hb _ _ _ E) as [l1 E1]. destruct (Hh e _ _ _ H) as [l2 E2].
    exists (l1 ++ l2)%list. rewrite E2, E1, <- app_assoc. reflexivity.
Qed.

Lemma begins_try_finally {A} (op : docker_op) (body : M A) (final : M unit) :
  begins op body -> grows final -> begins op (try_finally body final).
Proof.
  intros Hb Hf s o s' H. unfold try_finally in H.
  destruct (body s) as [ob s1] eqn:E. destruct (Hb _ _ _ E) as [l1 E1].
  destruct (final s1) as [[[] | e] s2] eqn:F; inversion H; subst;
    destruct (Hf _ _ _ F) as [l2 E2];
    exists (l1 ++ l2)%list; rewrite E2, E1, <- app_assoc; reflexivity.
Qed.

Lemma begins_after_set_container {A} (op : docker_op) (c : option Container) (m : M A) :
  begins op m -> begins op (bind (set_container c) (fun _ => m)).
Proof.
  intros Hm s o s' H. unfold bind, set_container in H.
  destruct (Hm _ _ _ H) as [l E]. exists l. exact E.
Qed.

Lemma single_run_begins (env : Env) (config : LanguageConfig)
    (language command d : string) (T : Z) :
  begins (Create (image config) command (negb (String.eqb language "typescript")))
    (single_run env config language command d T).
Proof.
  unfold single_run. apply begins_after_set_container.
  apply begins_try_finally; [| auto with engine].
  apply begins_try_except; [| intros e; destruct e; auto with engine].
  apply begins_bind; [apply begins_create |]. repeat grows_step.
Qed.

Lemma batch_run_begins (env : Env) (config : LanguageConfig)
    (language main_file_path d : string) (T : Z) (tests : list TestCase) (e0 : string) :
  begins (Create (image config) ("/bin/sh -c " ++ dq ++ "sleep 3600" ++ dq)
            (negb (String.eqb language "typescript")))
    (batch_run env config language main_file_path d T tests e0).
Proof.
  unfold batch_run. apply begins_after_set_container.
  apply begins_try_finally; [| auto with engine].
  apply begins_bind; [apply begins_create |]. repeat grows_step.
Qed.

(** The first Docker call of a resolved request creates a container from
    the image registered for its language. *)
Lemma run_resolved_begins (env : Env) (config : LanguageConfig)
    (language main_file_path d : string) (T : Z) (tcs : option (list TestCase)) (st : Z) :
  exists cmd,
    begins (Create (image config) cmd (negb (String.eqb language "typescript")))
      (run_resolved env config language main_file_path d T tcs st).
Proof.
  unfold run_resolved.
  destruct tcs as [[| t ts] |]; simpl has_tests; simpl negb; cbv iota.
  2: { eexists. intros s o s' H. unfold bind at 1 in H. unfold ret at 1 in H.
       revert s o s' H. apply begins_bind.
       - apply begins_bind; [apply batch_run_begins |]. repeat grows_step.
       - repeat grows_step. }
  all: eexists; apply begins_bind; [apply single_run_begins | repeat grows_step].
Qed.

(** ** The rule and the engine *)

(** The recognised extensions, compared in lower case. *)
Lemma detect_language_table (filepath l : string) :
  _detect_language_from_file filepath = Some l <->
  In (PyStr.lower (snd (OsPath.splitext filepath)), l) extension_table.
Proof.
  unfold _detect_language_from_file, extension_table.
  generalize (PyStr.lower (snd (OsPath.splitext filepath))). intros ext.
  cbn [dict_get In]. split.
  - repeat match goal with
           | |- context [String.eqb ?a ext] =>
               destruct (String.eqb_spec a ext); [subst ext |]
           end; intros H; inversion H; subst; tauto.
  - intros [H | [H | [H | [H | [H | []]]]]]; inversion H; subst; reflexivity.
Qed.

(** Every language found from an extension is registered. *)
Lemma detect_language_registered (filepath l : string) :
  _detect_language_from_file filepath = Some l -> dict_get LANGUAGE_CONFIG l <> None.
Proof.
  rewrite detect_language_table. unfold extension_table.
  intros [H | [H | [H | [H | [H | []]]]]]; inversion H; subst; discriminate.
Qed.

Lemma detect_first_undetected (pre rest : list string) :
  Forall undetected pre -> detect_first (pre ++ rest) = detect_first rest.
Proof.
  induction 1 as [| p pre Hp _ IH]; simpl; [reflexivity |].
  unfold undetected in Hp. rewrite Hp. exact IH.
Qed.

Lemma detect_first_found (paths : list string) (l p : string) :
  detect_first paths = Some (l, p) ->
  exists pre post, paths = (pre ++ p :: post)%list /\ Forall undetected pre /\
                   _detect_language_from_file p = Some l.
Proof.
  induction paths as [| q paths IH]; simpl; [discriminate |].
  destruct (_detect_language_from_file q) as [lq |] eqn:D.
  - intros H. inversion H; subst. exists [], paths. repeat split; auto.
  - intros H. destruct (IH H) as (pre & post & -> & F & X).
    exists (q :: pre), post. repeat split; auto.
Qed.

Lemma detect_first_none (paths : list string) :
  detect_first paths = None -> Forall undetected paths.
Proof.
  induction paths as [| q paths IH]; simpl; [constructor |].
  destruct (_detect_language_from_file q) eqn:D; [discriminate |].
  intros H. constructor; [exact D | exact (IH H)].
Qed.

Lemma effective_language_rule (language : string) (files : list (string * string)) :
  resolution_rule language (map fst files) (effective_language language files).
Proof.
  unfold effective_language, resolution_rule.
  destruct (detect_first (map fst files)) as [[l p] |] eqn:D.
  - left. destruct (detect_first_found _ _ _ D) as (pre & post & E & F & X).
    exists pre, p, post. repeat split; auto.
    exact (detect_language_registered p l X).
  - right. split; [exact (detect_first_none _ D) | reflexivity].
Qed.

Lemma resolution_rule_unique (language : string) (files : list (string * string)) (l : string) :
  resolution_rule language (map fst files) l -> l = effective_language language files.
Proof.
  unfold effective_language.
  intros [(pre & p & post & E & F & X & _) | (F & ->)].
  - rewrite E, (detect_first_undetected pre (p :: post) F). simpl. rewrite X. reflexivity.
  - rewrite <- (app_nil_r (map fst files)), (detect_first_undetected _ [] F). reflexivity.
Qed.

(** With at least one file, an unregistered language is refused with the
    unsupported-language error before any Docker call. *)
Lemma unsupported_language_raised (env : Env) (language : string)
    (files : list (string * string)) (T : Z) (tcs : option (list TestCase)) (s : State) :
  writable env (workspace_of env) files = true -> files <> [] ->
  within_rmtree_limit env files = true ->
  dict_get LANGUAGE_CONFIG (effective_language language files) = None ->
  exists s',
    execute_code env language files T tcs s
      = (Raise (ValueError ("Unsupported language: " ++ effective_language language files)),
         s') /\
    docker_log s' = docker_log s.
Proof.
  intros W NE Hd C.
  destruct (execute_code_resolved env language files T tcs s W NE Hd)
    as (main & s1 & _ & L1 & K).
  rewrite C in K. destruct (K _ _ eq_refl) as (s' & E & (D1 & _) & _).
  exists s'. split; [exact E |]. rewrite D1. exact L1.
Qed.

(** C3.  The check of the registry (line 145) is not reached by a request
    without files: for the unregistered language ["ruby"] the engine
    raises the [IndexError] of [list(files.keys())[0]] (line 139), while
    the same declared language is refused with the unsupported-language
    error as soon as the request has one file.  No Docker call is made in
    either case. *)
Theorem unsupported_language_unreported_without_files :
  dict_get LANGUAGE_CONFIG (effective_language "ruby" []) = None /\
  (exists s',
     execute_code calm "ruby" [] 30 None init_state
       = (Raise (IndexError "list index out of range"), s') /\
     docker_log s' = []) /\
  (exists s',
     execute_code calm "ruby" [("notes.txt", "to do")] 30 None init_state
       = (Raise (ValueError "Unsupported language: ruby"), s') /\
     docker_log s' = []).
Proof.
  split; [reflexivity |].
  split; eexists; (split; [vm_compute; reflexivity | reflexivity]).
Qed.

(* ===================================================================== *)
(** * Tests that reach the deadline (C4) *)
(* ===================================================================== *)









Lemma completes_observed (T : Z) (o : exec_outcome) :
  completes_or_times_out o -> exists x, test_observation T o = Return x.
Proof.
  destruct o as [c out err | | e |]; simpl; intros H;
    [eexists; reflexivity | eexists; reflexivity | contradiction | eexists; reflexivity].
Qed.


(** When every [exec_run] was called, the log has one call per test. *)
Lemma test_calls_all (env : Env) (rc : string) (T : Z) :
  forall tests first,
    (forall k, (k < List.length tests)%nat ->
       call_made T (exec_run env (first + k)) = true) ->
    test_calls env rc T first tests
    = map (fun tc => ExecRun (test_command rc (input tc)) T) tests.
Proof.
  induction tests as [| t tests IH]; intros first H; simpl; [reflexivity |].
  rewrite <- (Nat.add_0_r first) at 1. rewrite (H 0%nat) by (simpl; lia).
  simpl. f_equal. apply IH. intros k Hk.
  replace (S first + k)%nat with (first + S k)%nat by lia. apply H. simpl. lia.
Qed.

Lemma execute_code_batch_total (env : Env) (language : string)
    (files : list (string * string)) (T : Z) (tests : list TestCase) (config : LanguageConfig) s :
  writable env (workspace_of env) files = true -> files <> [] ->
  within_rmtree_limit env files = true ->
  dict_get LANGUAGE_CONFIG (effective_language language files) = Some config ->
  has_tests (Some tests) = true ->
  batch_setup_error env = None ->
  (needs_build (effective_language language files) = true ->
   exists c out err, exec_run env (exec_calls s) = ExecDone c out err) ->
  (forall k, (k < List.length tests)%nat ->
     exists x, test_observation T
       (exec_run env (exec_calls s + build_calls (effective_language language files) + k))
       = Return x) ->
  exists r s',
    execute_code env language files T (Some tests) s = (Return r, s') /\
    exists calls rc,
      docker_log s' =
        (docker_log s ++ calls
           ++ test_calls env rc T
                (exec_calls s + build_calls (effective_language language files)) tests
           ++ [Remove])%list.
Proof.
  intros W NE Hd C Ht Hsetup Hbuild Htests.
  assert (NEt : tests <> []) by (destruct tests; [discriminate Ht | discriminate]).
  destruct (execute_code_resolved env language files T (Some tests) s W NE Hd)
    as (main & s1 & C1 & L1 & K).
  rewrite C in K. rewrite <- C1 in Hbuild, Htests.
  destruct (run_resolved_batch_total env config (effective_language language files) main
              (workspace_of env) T tests (clock env (clock_reads s)) s1
              NEt Hsetup Hbuild Htests) as (r & s2 & R).
  destruct (K _ _ R) as (s' & E & (D1 & _) & _).
  exists r, s'. split; [exact E |].
  destruct (run_resolved_batch_return _ _ _ _ _ _ _ _ _ _ _ NEt R)
    as (_ & _ & builds & rc & _ & Hlog).
  exists ([Create (image config) ("/bin/sh -c " ++ dq ++ "sleep 3600" ++ dq)
             (negb (String.eqb (effective_language language files) "typescript"));
           Start; PutArchive (archive_of (workspace_of env) (fs s1))] ++ builds)%list, rc.
  rewrite D1, Hlog, L1, C1. rewrite <- !app_assoc. reflexivity.
Qed.



(* ===================================================================== *)
(** * The stderr of a test (C9) *)
(* ===================================================================== *)

Lemma truthy_true (s : string) : PyStr.truthy s = true <-> s <> "".
Proof.
  destruct s; simpl; split; intros H.
  - discriminate H.
  - contradiction H. reflexivity.
  - discriminate.
  - reflexivity.
Qed.

Lemma nonblank_truthy (e : string) :
  PyStr.strip e <> "" -> PyStr.truthy e && PyStr.truthy (PyStr.strip e) = true.
Proof.
  intros H. apply andb_true_iff. split; [| apply truthy_true; exact H].
  destruct e; [| reflexivity]. contradiction H. reflexivity.
Qed.

Lemma blank_falsy (e : string) :
  PyStr.strip e = "" -> PyStr.truthy e && PyStr.truthy (PyStr.strip e) = false.
Proof. intros H. rewrite H. apply andb_false_r. Qed.

Lemma note_error_kept (first e : string) :
  first <> "" -> note_error first e = first.
Proof.
  intros H. unfold note_error. apply truthy_true in H. rewrite H. simpl.
  destruct (PyStr.truthy e && PyStr.truthy (PyStr.strip e)); reflexivity.
Qed.

Lemma fold_note_error_kept (es : list string) (first : string) :
  first <> "" -> fold_left note_error es first = first.
Proof.
  revert first. induction es as [| e es IH]; intros first H; simpl; [reflexivity |].
  rewrite (note_error_kept first e H). apply IH. exact H.
Qed.

(** The first non-blank stderr of the suite is the one kept. *)
Lemma first_error_at (es : list string) : forall k err,
  nth_error es k = Some err -> PyStr.strip err <> "" ->
  (forall j e, (j < k)%nat -> nth_error es j = Some e -> PyStr.strip e = "") ->
  fold_left note_error es "" = PyStr.strip err.
Proof.
  induction es as [| e0 es IH]; intros k err Hk Hn Hblank.
  - destruct k; discriminate Hk.
  - destruct k as [| k]; simpl in *.
    + inversion Hk; subst e0. unfold note_error at 2.
      rewrite (nonblank_truthy err Hn). simpl.
      apply fold_note_error_kept. exact Hn.
    + unfold note_error at 2.
      rewrite (blank_falsy e0 (Hblank 0%nat e0 (Nat.lt_0_succ k) eq_refl)).
      apply (IH k err Hk Hn). intros j e Hj He.
      apply (Hblank (S j) e); [lia | exact He].
Qed.

(** C9, as amended.  In batch test-suite mode, for a test whose run shows a
    non-blank stderr, the trimmed stderr is appended, after the label, to
    the test's actual output; when no earlier test showed a non-blank
    stderr, it is the request-level stderr of the result if the verdict is
    not ["ACCEPTED"]; when the verdict is ["ACCEPTED"] the request-level
    stderr is empty. *)
Theorem stderr_note_appended (env : Env) (language : string)
    (files : list (string * string)) (T : Z) (tests : list TestCase) s r s'
    (k : nat) (tc : TestCase) (c : Z) (out err : string) :
  has_tests (Some tests) = true ->
  execute_code env language files T (Some tests) s = (Return r, s') ->
  nth_error tests k = Some tc ->
  test_observation T
    (exec_run env (exec_calls s + build_calls (effective_language language files) + k))
    = Return (c, out, err) ->
  PyStr.strip err <> "" ->
  exists results tr,
    test_results r = Some results /\ nth_error results k = Some tr /\
    actual_output tr =
      (if PyStr.truthy (PyStr.strip out)
       then PyStr.strip out ++ PyStr.nl ++ "Ошибка: " ++ PyStr.strip err
       else "Ошибка: " ++ PyStr.strip err) /\
    (verdict r = Some "ACCEPTED" -> stderr r = "") /\
    ((forall j c' out' err', (j < k)%nat ->
        test_observation T
          (exec_run env (exec_calls s + build_calls (effective_language language files) + j))
          = Return (c', out', err') ->
        PyStr.strip err' = "") ->
     verdict r <> Some "ACCEPTED" -> stderr r = PyStr.strip err).
Proof.
  intros Ht H Hk Hrun Hn.
  destruct (execute_code_batch_return env language files T tests s r s' Ht H)
    as (obs & L & Hobs & Hres & Hv & _ & Herr & _).
  assert (Hlt : (k < List.length obs)%nat).
  { rewrite L. apply nth_error_Some. rewrite Hk. discriminate. }
  destruct (nth_error obs k) as [[[[c' out'] err'] dt] |] eqn:Ho;
    [| apply nth_error_None in Ho; lia].
  pose proof (Hobs k c' out' err' dt Ho) as O. rewrite Hrun in O.
  inversion O; subst c' out' err'; clear O.
  exists (judge_all 0 tests obs), (judge k tc c out err dt).
  split; [exact Hres |].
  split; [exact (judge_all_nth 0 tests obs k tc c out err dt Hk Ho) |].
  split; [unfold judge; simpl; rewrite (nonblank_truthy err Hn); reflexivity |].
  rewrite Hv, Herr. unfold suite_stderr, verdict_of.
  destruct (all_passed (judge_all 0 tests obs)); simpl.
  - split; [reflexivity |]. intros _ F. contradiction F. reflexivity.
  - split; [intros F; discriminate F |]. intros Hblank _.
    assert (F : first_error_of obs = PyStr.strip err).
    { unfold first_error_of. apply (first_error_at _ k err).
      - rewrite nth_error_map, Ho. reflexivity.
      - exact Hn.
      - intros j e Hj He. rewrite nth_error_map in He.
        destruct (nth_error obs j) as [[[[cj oj] ej] dj] |] eqn:Hoj; [| discriminate He].
        simpl in He. inversion He; subst e.
        exact (Hblank j cj oj ej Hj (Hobs j cj oj ej dj Hoj)). }
    rewrite F. apply truthy_true in Hn. rewrite Hn. reflexivity.
Qed.

Lemma stderr_note_appended_witness :
  exists r s' results tr,
    execute_code (with_exec calm 0 (ExecDone 1 "" "Traceback: boom"))
      "python" echo_py 30 (Some [hello_test]) init_state = (Return r, s') /\
    test_results r = Some results /\ nth_error results 0 = Some tr /\
    actual_output tr = "Ошибка: Traceback: boom" /\
    stderr r = "Traceback: boom".
Proof.
  eexists. eexists.
  assert (E : execute_code (with_exec calm 0 (ExecDone 1 "" "Traceback: boom"))
                "python" echo_py 30 (Some [hello_test]) init_state = (Return _, _))
    by (vm_compute; reflexivity).
  destruct (stderr_note_appended (with_exec calm 0 (ExecDone 1 "" "Traceback: boom"))
              "python" echo_py 30 [hello_test] init_state _ _ 0 hello_test 1 ""
              "Traceback: boom" eq_refl E eq_refl eq_refl)
    as (results & tr & Hres & Hnth & Hout & _ & Herr).
  - vm_compute. discriminate.
  - exists results, tr. split; [exact E |]. split; [exact Hres |].
    split; [exact Hnth |]. split; [exact Hout |].
    apply Herr.
    + intros j c' out' err' Hj. inversion Hj.
    + vm_compute. discriminate.
Defined.

(** C9 as stated fails when every test passes: the single test below
    writes a warning to stderr and no test before it captured any, yet the
    request-level stderr of the result is empty. *)
Lemma stderr_note_counterexample :
  exists r s',
    execute_code warned "python" echo_py 30 (Some [hello_test]) init_state
      = (Return r, s') /\
    exec_run warned 0 = ExecDone 0 ("hello" ++ PyStr.nl) "DeprecationWarning: x" /\
    PyStr.strip "DeprecationWarning: x" = "DeprecationWarning: x" /\
    verdict r = Some "ACCEPTED" /\
    stderr r = "" /\ stderr r <> "DeprecationWarning: x".
Proof.
  eexists. eexists. split; [vm_compute; reflexivity |].
  split; [reflexivity |]. split; [vm_compute; reflexivity |].
  split; [reflexivity |]. split; [reflexivity | discriminate].
Qed.

(* ===================================================================== *)
(** * The build step (C10) *)
(* ===================================================================== *)

Lemma write_files_with_exec (env : Env) (k : nat) (b : exec_outcome) (d : string)
    (files : list (string * string)) :
  forall s, write_files (with_exec env k b) d files s = write_files env d files s.
Proof.
  induction files as [| [filepath content] rest IH]; intros s; simpl; [reflexivity |].
  destruct (write_error env (OsPath.join d filepath)); [reflexivity |].
  unfold bind. simpl. apply IH.
Qed.

Lemma written_with_exec (env : Env) (k : nat) (b : exec_outcome) (d : string)
    (files : list (string * string)) :
  written (with_exec env k b) d files = written env d files.
Proof.
  induction files as [| [filepath content] rest IH]; simpl; [reflexivity |].
  destruct (write_error env (OsPath.join d filepath)); [reflexivity |].
  f_equal. exact IH.
Qed.

Lemma run_tests_with_exec (env : Env) (k : nat) (b : exec_outcome) (rc : string) (T : Z)
    (tcs : list TestCase) (idx : nat) (first : string) (acc : list TestResult) s :
  (k < exec_calls s)%nat ->
  run_tests (with_exec env k b) rc T idx tcs first acc s
    = run_tests env rc T idx tcs first acc s.
Proof.
  intros Hk. apply run_tests_ext; [reflexivity |].
  intros i Hi. simpl. destruct (Nat.eqb_spec i k); [lia | reflexivity].
Qed.

Lemma prepare_runner_with_exec (env : Env) (k : nat) (language main_file_path : string)
    (T : Z) (c c' : Z) (out out' err err' : string) s :
  k = exec_calls s ->
  exec_run env k = ExecDone c out err ->
  prepare_runner (with_exec env k (ExecDone c' out' err')) language main_file_path T s
    = prepare_runner env language main_file_path T s.
Proof.
  intros -> E. unfold prepare_runner.
  destruct (String.eqb language "typescript");
    [| destruct (String.eqb language "java");
       [| destruct (String.eqb language "go"); [| reflexivity] ] ];
    unfold bind, _exec_in_container; simpl; rewrite Nat.eqb_refl, E; reflexivity.
Qed.

Lemma batch_run_with_exec (env : Env) (k : nat) (config : LanguageConfig)
    (language main_file_path d : string) (T : Z) (tests : list TestCase) (e0 : string)
    (c c' : Z) (out out' err err' : string) s :
  k = exec_calls s ->
  needs_build language = true ->
  exec_run env k = ExecDone c out err ->
  batch_run (with_exec env k (ExecDone c' out' err')) config language main_file_path d T
    tests e0 s
  = batch_run env config language main_file_path d T tests e0 s.
Proof.
  intros Hk Hb E. unfold batch_run.
  cbv beta iota delta [bind set_container try_finally containers_create docker_call
                       put_workspace get_fs ret of_option].
  simpl.
  destruct (create_error env); [reflexivity |].
  destruct (start_error env); [reflexivity |].
  destruct (put_archive_error env); [reflexivity |].
  simpl.
  match goal with
  | |- context [prepare_runner env language main_file_path T ?s3] =>
      rewrite (prepare_runner_with_exec env k language main_file_path T c c'
                 out out' err err' s3 Hk E);
      destruct (prepare_runner env language main_file_path T s3) as [[rc | e] s4] eqn:P
  end; [| reflexivity].
  apply prepare_runner_return in P. destruct P as (P1 & _).
  unfold build_calls in P1. rewrite Hb in P1. simpl in P1.
  rewrite (run_tests_with_exec env k (ExecDone c' out' err') rc T tests 0 "" [] s4)
    by lia.
  reflexivity.
Qed.

Lemma run_resolved_with_exec (env : Env) (k : nat) (config : LanguageConfig)
    (language main_file_path d : string) (T : Z) (tests : list TestCase) (st : Z)
    (c c' : Z) (out out' err err' : string) s :
  k = exec_calls s ->
  has_tests (Some tests) = true ->
  needs_build language = true ->
  exec_run env k = ExecDone c out err ->
  run_resolved (with_exec env k (ExecDone c' out' err')) config language main_file_path d T
    (Some tests) st s
  = run_resolved env config language main_file_path d T (Some tests) st s.
Proof.
  intros Hk Ht Hb E. destruct tests as [| t ts]; [discriminate Ht |].
  unfold run_resolved. simpl has_tests. simpl negb. cbv iota.
  unfold bind at 1 5. unfold ret at 1 4.
  unfold bind at 1 4. unfold bind at 1 3.
  rewrite (batch_run_with_exec env k config language main_file_path d T (t :: ts) ""
             c c' out out' err err' s Hk Hb E).
  reflexivity.
Qed.

Lemma execute_code_with_exec (env : Env) (language : string)
    (files : list (string * string)) (T : Z) (tests : list TestCase)
    (c c' : Z) (out out' err err' : string) s :
  has_tests (Some tests) = true ->
  needs_build (effective_language language files) = true ->
  exec_run env (exec_calls s) = ExecDone c out err ->
  execute_code (with_exec env (exec_calls s) (ExecDone c' out' err')) language files T
    (Some tests) s
  = execute_code env language files T (Some tests) s.
Proof.
  intros Ht Hb E. unfold execute_code.
  cbv beta iota delta [bind time_ms makedirs try_finally]. simpl clock.
  change (workspace_of (with_exec env (exec_calls s) (ExecDone c' out' err')))
    with (workspace_of env).
  match goal with
  | |- context [resolve_and_run env language files T (Some tests) (workspace_of env) ?st ?s0] =>
      assert (R : resolve_and_run (with_exec env (exec_calls s) (ExecDone c' out' err'))
                    language files T (Some tests) (workspace_of env) st s0
                  = resolve_and_run env language files T (Some tests) (workspace_of env)
                      st s0)
  end.
  { unfold resolve_and_run. unfold bind at 1 3. rewrite write_files_with_exec.
    match goal with
    | |- context [write_files env ?d files ?s0] =>
        destruct (write_files env d files s0) as [[[] | e] s1] eqn:W
    end; [| reflexivity].
    apply write_files_frame in W. destruct W as (_ & _ & W3 & _). simpl in W3.
    unfold bind.
    destruct (select_main_file (effective_language language files) files s1)
      as [[main | e] s1'] eqn:Sm; [| reflexivity].
    apply select_main_file_pure in Sm. subst s1'.
    destruct (dict_get LANGUAGE_CONFIG (effective_language language files)); [| reflexivity].
    rewrite <- W3.
    apply (run_resolved_with_exec env (exec_calls s1) _ _ _ _ _ _ _ c c' out out' err err');
      auto. rewrite W3. exact E. }
  rewrite R, written_with_exec. reflexivity.
Qed.

Lemma needs_build_registered (language : string) :
  needs_build language = true ->
  exists config, dict_get LANGUAGE_CONFIG language = Some config.
Proof.
  unfold needs_build. intros H.
  destruct (String.eqb language "typescript") eqn:E1;
    [apply String.eqb_eq in E1; subst language; eexists; reflexivity |].
  destruct (String.eqb language "java") eqn:E2;
    [apply String.eqb_eq in E2; subst language; eexists; reflexivity |].
  destruct (String.eqb language "go") eqn:E3;
    [apply String.eqb_eq in E3; subst language; eexists; reflexivity |].
  discriminate H.
Qed.

(** The Docker calls of a suite that returned. *)
Lemma execute_code_batch_log (env : Env) (language : string)
    (files : list (string * string)) (T : Z) (tests : list TestCase) s r s' :
  has_tests (Some tests) = true ->
  execute_code env language files T (Some tests) s = (Return r, s') ->
  exists calls rc,
    docker_log s' =
      (docker_log s ++ calls
         ++ test_calls env rc T
              (exec_calls s + build_calls (effective_language language files)) tests
         ++ [Remove])%list.
Proof.
  intros Ht H.
  assert (NEt : tests <> []) by (destruct tests; [discriminate Ht | discriminate]).
  apply execute_code_return in H.
  destruct H as (config & main & s1 & s2 & _ & C1 & L1 & R & (D1 & _)).
  destruct (run_resolved_batch_return _ _ _ _ _ _ _ _ _ _ _ NEt R)
    as (_ & _ & builds & rc & _ & Hlog).
  exists ([Create (image config) ("/bin/sh -c " ++ dq ++ "sleep 3600" ++ dq)
             (negb (String.eqb (effective_language language files) "typescript"));
           Start; PutArchive (archive_of (workspace_of env) (fs s1))] ++ builds)%list, rc.
  rewrite D1, Hlog, L1, C1. rewrite <- !app_assoc. reflexivity.
Qed.

(** C10, as amended.  In batch test-suite mode, under a positive timeout
    and for a language with a build step, a build that exits with a
    non-zero code neither raises nor ends the request, and nothing of its
    exit code or output is recorded: the request does what it does, outcome
    and final state alike, with a build that exited with 0 and printed
    nothing.  When it returns, it reports one result per test case, each
    judged from the test's own run, after the [exec_run] of every test
    whose call was made; and it does return when the container is set up,
    the runs of the tests each finish or reach the deadline and the final
    cleanup is within the recursion limit.  Whether the tests then pass is
    decided by their own runs. *)
Theorem build_result_discarded (env : Env) (language : string)
    (files : list (string * string)) (T : Z) (tests : list TestCase)
    (s : State) (c : Z) (out err : string) :
  0 < T ->
  has_tests (Some tests) = true ->
  needs_build (effective_language language files) = true ->
  exec_run env (exec_calls s) = ExecDone c out err -> c <> 0 ->
  execute_code (with_exec env (exec_calls s) (ExecDone 0 "" "")) language files T
    (Some tests) s
  = execute_code env language files T (Some tests) s /\
  (forall r s',
     execute_code env language files T (Some tests) s = (Return r, s') ->
     suite_report env T (exec_calls s + 1) tests r /\
     (exists results,
        test_results r = Some results /\ List.length results = List.length tests) /\
     exists calls rc,
       docker_log s' =
         (docker_log s ++ calls ++ test_calls env rc T (exec_calls s + 1) tests
            ++ [Remove])%list) /\
  (writable env (workspace_of env) files = true -> files <> [] ->
   within_rmtree_limit env files = true ->
   batch_setup_error env = None ->
   (forall k, (k < List.length tests)%nat ->
      completes_or_times_out (exec_run env (exec_calls s + 1 + k))) ->
   exists r s', execute_code env language files T (Some tests) s = (Return r, s')).
Proof.
  intros _ Ht Hb E Hc.
  assert (B1 : build_calls (effective_language language files) = 1%nat)
    by (unfold build_calls; rewrite Hb; reflexivity).
  split; [exact (execute_code_with_exec env language files T tests c 0 out "" err "" s
                   Ht Hb E) |].
  split.
  - intros r s' X.
    pose proof (execute_code_batch_return env language files T tests s r s' Ht X) as Hrep.
    rewrite B1 in Hrep. split; [exact Hrep |].
    destruct Hrep as (obs & L & _ & Hres & _).
    split; [exists (judge_all 0 tests obs); split;
              [exact Hres | apply judge_all_length; exact L] |].
    destruct (execute_code_batch_log env language files T tests s r s' Ht X)
      as (calls & rc & Hlog).
    rewrite B1 in Hlog. exists calls, rc. exact Hlog.
  - intros W NE Hd Hsetup Hall.
    destruct (needs_build_registered _ Hb) as (config & C).
    destruct (execute_code_batch_total env language files T tests config s W NE Hd C Ht
                Hsetup) as (r & s' & X & _).
    + intros _. exists c, out, err. exact E.
    + intros k Hk. apply completes_observed. rewrite B1. apply Hall. exact Hk.
    + exists r, s'. exact X.
Qed.

Lemma build_result_discarded_witness :
  exists r s',
    execute_code tsc_reports "typescript" echo_ts 30 (Some [hello_test; one_two_test])
      init_state = (Return r, s') /\
    execute_code (with_exec tsc_reports 0 (ExecDone 0 "" "")) "typescript" echo_ts 30
      (Some [hello_test; one_two_test]) init_state = (Return r, s') /\
    (exists results, test_results r = Some results /\ List.length results = 2%nat) /\
    exists calls rc,
      docker_log s' =
        (calls ++ [ExecRun (test_command rc "hello") 30; ExecRun (test_command rc "1") 30;
                   Remove])%list.
Proof.
  destruct (build_result_discarded tsc_reports "typescript" echo_ts 30
              [hello_test; one_two_test] init_state 2
              "main.ts(1,7): error TS2322: Type 'string' is not assignable to type 'number'."
              "" eq_refl eq_refl eq_refl eq_refl ltac:(discriminate))
    as (Heq & Hret & Htot).
  destruct Htot as (r & s' & X).
  - reflexivity.
  - discriminate.
  - reflexivity.
  - reflexivity.
  - intros k Hk. simpl. trivial.
  - destruct (Hret r s' X) as (_ & Hres & Hlog).
    exists r, s'. split; [exact X |]. split; [exact (eq_trans Heq X) |].
    split; [exact Hres | exact Hlog].
Defined.

(** C10 as stated fails on its last part: the build exits with 2 and the
    test run against what it left behind passes. *)
Lemma build_failure_counterexample :
  exists r s' tr,
    execute_code tsc_reports "typescript" echo_ts 30 (Some [hello_test]) init_state
      = (Return r, s') /\
    (exists out err, exec_run tsc_reports 0 = ExecDone 2 out err) /\
    test_results r = Some [tr] /\ passed tr = true /\ verdict r = Some "ACCEPTED".
Proof.
  eexists. eexists. eexists. split; [vm_compute; reflexivity |].
  split; [do 2 eexists; reflexivity |].
  split; [reflexivity |]. split; reflexivity.
Qed.

(* ===================================================================== *)
(** * Setup failures (C6) *)
(* ===================================================================== *)

(** Single-run mode turns a failed create, populate or start into a
    result. *)
Lemma setup_failure_reported_in_single_run (env : Env) (language : string)
    (files : list (string * string)) (T : Z) (tcs : option (list TestCase))
    (config : LanguageConfig) (e : exn) s :
  writable env (workspace_of env) files = true -> files <> [] ->
  within_rmtree_limit env files = true ->
  dict_get LANGUAGE_CONFIG (effective_language language files) = Some config ->
  has_tests tcs = false ->
  single_setup_error env = Some e ->
  exists r s',
    execute_code env language files T tcs s = (Return r, s') /\
    exit_code r = -1 /\ stderr r = stderr_of_exn e /\ stdout r = "" /\
    test_results r = None /\ verdict r = None.
Proof.
  intros W NE Hd C Hn Hs.
  destruct (execute_code_resolved env language files T tcs s W NE Hd)
    as (main & s1 & _ & _ & K).
  rewrite C in K.
  destruct (single_run_setup_failure env config (effective_language language files)
              (run_command (effective_language language files) main)
              (workspace_of env) T e s1 Hs) as (s2 & E & _).
  destruct (K _ _ (run_resolved_single _ _ _ _ _ _ _ _ _ _ _ _ _ Hn E))
    as (s' & X & _).
  eexists. exists s'. split; [exact X |]. repeat split.
Qed.

(** Batch mode has no handler: the same failure leaves [execute_code] as
    the exception it was. *)
Lemma setup_failure_raised_in_batch (env : Env) (language : string)
    (files : list (string * string)) (T : Z) (tests : list TestCase)
    (config : LanguageConfig) (e : exn) s :
  writable env (workspace_of env) files = true -> files <> [] ->
  within_rmtree_limit env files = true ->
  dict_get LANGUAGE_CONFIG (effective_language language files) = Some config ->
  has_tests (Some tests) = true ->
  batch_setup_error env = Some e ->
  exists s', execute_code env language files T (Some tests) s = (Raise e, s').
Proof.
  intros W NE Hd C Ht Hs.
  destruct (execute_code_resolved env language files T (Some tests) s W NE Hd)
    as (main & s1 & _ & _ & K).
  rewrite C in K.
  assert (R : exists s2,
             run_resolved env config (effective_language language files) main
               (workspace_of env) T (Some tests) (clock env (clock_reads s)) s1
             = (Raise e, s2)).
  { destruct tests as [| t ts]; [discriminate Ht |].
    unfold run_resolved. simpl has_tests. simpl negb. cbv iota.
    unfold batch_setup_error in Hs. unfold batch_run.
    cbv beta iota delta [bind set_container get_container try_finally try_except suppress
                         remove_container containers_create docker_call put_workspace
                         get_fs ret raise of_option].
    destruct (create_error env) as [e1 |].
    - inversion Hs; subst e1. simpl. eexists. reflexivity.
    - destruct (start_error env) as [e2 |].
      + inversion Hs; subst e2. simpl.
        destruct (remove_error env); simpl; eexists; reflexivity.
      + rewrite Hs. simpl.
        destruct (remove_error env); simpl; eexists; reflexivity. }
  destruct R as (s2 & R). destruct (K _ _ R) as (s' & X & _).
  exists s'. exact X.
Qed.

(** C6.  The same failed [containers.create] is turned into a result with
    exit code -1 and a [Docker error: ...] stderr when the request has no
    tests, and leaves [execute_code] as an exception when it has one. *)
Theorem setup_failure_escapes_batch_mode :
  (exists r s',
     execute_code no_image "python" echo_py 30 None init_state = (Return r, s') /\
     exit_code r = -1 /\
     stderr r = "Docker error: 404 Client Error: No such image: python:3.12-slim") /\
  fst (execute_code no_image "python" echo_py 30 (Some [hello_test]) init_state)
    = Raise (DockerException "404 Client Error: No such image: python:3.12-slim").
Proof.
  split.
  - eexists. eexists. split; [vm_compute; reflexivity |]. split; reflexivity.
  - vm_compute. reflexivity.
Qed.

(* ===================================================================== *)
(** * Further properties of single-run mode *)
(* ===================================================================== *)

(** X1.  A request without tests whose files were written, not nested
    deeper than the final [rmtree] can walk, and whose language is
    registered always gets a result: whatever the daemon does at whatever
    step, [execute_code] returns, with no test results and no verdict. *)
Theorem single_run_always_returns (env : Env) (language : string)
    (files : list (string * string)) (T : Z) (tcs : option (list TestCase))
    (config : LanguageConfig) (s : State) :
  writable env (workspace_of env) files = true -> files <> [] ->
  within_rmtree_limit env files = true ->
  dict_get LANGUAGE_CONFIG (effective_language language files) = Some config ->
  has_tests tcs = false ->
  exists r s',
    execute_code env language files T tcs s = (Return r, s') /\
    test_results r = None /\ verdict r = None.
Proof.
  intros W NE Hd C Hn.
  destruct (execute_code_resolved env language files T tcs s W NE Hd)
    as (main & s1 & _ & _ & K).
  rewrite C in K.
  destruct (single_run_total env config (effective_language language files)
              (run_command (effective_language language files) main)
              (workspace_of env) T s1) as ([[a b] c] & s2 & E & _).
  destruct (K _ _ (run_resolved_single _ _ _ _ _ _ _ _ _ _ _ _ _ Hn E)) as (s' & X & _).
  eexists. exists s'. split; [exact X |]. split; reflexivity.
Qed.

Lemma single_run_always_returns_witness :
  exists r s',
    execute_code stuck "python" echo_py 30 None init_state = (Return r, s') /\
    test_results r = None /\ verdict r = None.
Proof.
  refine (single_run_always_returns stuck "python" echo_py 30 None python_config
            init_state eq_refl _ eq_refl eq_refl eq_refl).
  discriminate.
Defined.

Lemma single_run_wait_failure (env : Env) (config : LanguageConfig)
    (language command d : string) (T : Z) (e : exn) s :
  single_setup_error env = None -> wait_error env = Some e ->
  exists s',
    single_run env config language command d T s
      = (Return ("",
                 match stop_error env with
                 | None => timeout_message T
                 | Some e' => stderr_of_exn e'
                 end, -1), s') /\
    docker_log s' =
      (docker_log s
         ++ [Create (image config) command (negb (String.eqb language "typescript"));
             PutArchive (archive_of d (fs s)); Start; Wait T; Stop; Remove])%list.
Proof.
  unfold single_setup_error. intros Hs Hw. run_single.
  destruct (create_error env) eqn:Cr; [discriminate Hs |].
  destruct (put_archive_error env) eqn:Pu; [discriminate Hs |].
  simpl. rewrite Hs, Hw. simpl.
  destruct (stop_error env) as [e' |]; simpl.
  - destruct e'; simpl; destruct (remove_error env); simpl;
      eexists; (split; [reflexivity |]); simpl; rewrite <- !app_assoc; reflexivity.
  - destruct (remove_error env); simpl;
      eexists; (split; [reflexivity |]); simpl; rewrite <- !app_assoc; reflexivity.
Qed.

(** X2.  In single-run mode, for a request whose files were written and
    are not nested deeper than the final [rmtree] can walk, any exception
    of [container.wait], a deadline or not, makes the engine stop the
    container and report a timeout: exit code -1, empty stdout and the
    timeout message as stderr; when the stop fails too, it is the stop's
    error that is reported.  The calls made are create, populate, start,
    wait, stop and remove, in this order. *)
Theorem wait_failure_reported_as_timeout (env : Env) (language : string)
    (files : list (string * string)) (T : Z) (tcs : option (list TestCase))
    (config : LanguageConfig) (e : exn) (s : State) :
  writable env (workspace_of env) files = true -> files <> [] ->
  within_rmtree_limit env files = true ->
  dict_get LANGUAGE_CONFIG (effective_language language files) = Some config ->
  has_tests tcs = false ->
  single_setup_error env = None -> wait_error env = Some e ->
  exists r s' cmd archive,
    execute_code env language files T tcs s = (Return r, s') /\
    exit_code r = -1 /\ stdout r = "" /\
    stderr r = match stop_error env with
               | None => timeout_message T
               | Some e' => stderr_of_exn e'
               end /\
    docker_log s' =
      (docker_log s
         ++ [Create (image config) cmd
               (negb (String.eqb (effective_language language files) "typescript"));
             PutArchive archive; Start; Wait T; Stop; Remove])%list.
Proof.
  intros W NE Hd C Hn Hs Hw.
  destruct (execute_code_resolved env language files T tcs s W NE Hd)
    as (main & s1 & _ & L1 & K).
  rewrite C in K.
  destruct (single_run_wait_failure env config (effective_language language files)
              (run_command (effective_language language files) main)
              (workspace_of env) T e s1 Hs Hw) as (s2 & E & Hlog).
  destruct (K _ _ (run_resolved_single _ _ _ _ _ _ _ _ _ _ _ _ _ Hn E))
    as (s' & X & (D1 & _) & _).
  eexists. exists s'. do 2 eexists. split; [exact X |].
  simpl. repeat split. rewrite D1. simpl. rewrite Hlog, L1. reflexivity.
Qed.

Lemma wait_failure_reported_as_timeout_witness :
  exists r s' cmd archive,
    execute_code stuck "python" echo_py 30 None init_state = (Return r, s') /\
    exit_code r = -1 /\ stdout r = "" /\
    stderr r = timeout_message 30 /\
    docker_log s' =
      [Create "python:3.12-slim" cmd true; PutArchive archive; Start; Wait 30; Stop; Remove].
Proof.
  refine (wait_failure_reported_as_timeout stuck "python" echo_py 30 None python_config
            (DockerException "Read timed out. (read timeout=30)") init_state
            eq_refl _ eq_refl eq_refl eq_refl eq_refl eq_refl).
  discriminate.
Defined.

(* ===================================================================== *)
(** * Requests that fail before the container *)
(* ===================================================================== *)

(** X3.  A request without any file is refused with the [IndexError] of
    [list(files.keys())[0]], whatever language was declared, registered or
    not, and before any Docker call. *)
Theorem no_files_index_error (env : Env) (language : string) (T : Z)
    (tcs : option (list TestCase)) (s : State) :
  exists s',
    execute_code env language [] T tcs s
      = (Raise (IndexError "list index out of range"), s') /\
    docker_log s' = docker_log s /\ exec_calls s' = exec_calls s.
Proof.
  destruct (workspace_created env language [] T tcs s)
    as (s0 & _ & D1 & _ & D3 & _ & E).
  rewrite E.
  destruct (try_finally_remove_workspace
              (resolve_and_run env language [] T tcs (workspace_of env)
                 (clock env (clock_reads s)))
              env (workspace_of env) (tree_depth (workspace_of env) [])
              s0 (Raise (IndexError "list index out of range")) s0
              eq_refl) as (o' & s' & X & (F1 & _ & F3 & _) & L).
  destruct (L (overflows_0 env)) as (-> & _).
  exists s'. split; [exact X |]. split; congruence.
Qed.





(* ===================================================================== *)
(** * Further properties of a suite's results *)
(* ===================================================================== *)

(** X5.  In batch test-suite mode the results follow the test cases: there
    is one result per case, and the result at position [k] carries the
    index [k + 1], the input of case [k] and its trimmed expected output. *)
Theorem results_follow_test_cases (env : Env) (language : string)
    (files : list (string * string)) (T : Z) (tests : list TestCase) s r s'
    (k : nat) (tc : TestCase) :
  has_tests (Some tests) = true ->
  execute_code env language files T (Some tests) s = (Return r, s') ->
  nth_error tests k = Some tc ->
  exists results tr,
    test_results r = Some results /\ List.length results = List.length tests /\
    nth_error results k = Some tr /\
    test_index tr = (k + 1)%nat /\ tr_input tr = input tc /\
    expected_output tr = PyStr.strip (output tc).
Proof.
  intros Ht H Hk.
  destruct (execute_code_batch_return env language files T tests s r s' Ht H)
    as (obs & L & _ & Hres & _).
  assert (Hlt : (k < List.length obs)%nat).
  { rewrite L. apply nth_error_Some. rewrite Hk. discriminate. }
  destruct (nth_error obs k) as [[[[c out] err] dt] |] eqn:Ho;
    [| apply nth_error_None in Ho; lia].
  exists (judge_all 0 tests obs), (judge k tc c out err dt).
  split; [exact Hres |]. split; [apply judge_all_length; exact L |].
  split; [exact (judge_all_nth 0 tests obs k tc c out err dt Hk Ho) |].
  repeat split.
Qed.

Lemma results_follow_test_cases_witness :
  exists r s' results tr,
    execute_code calm "python" echo_py 30 (Some [hello_test; one_two_test]) init_state
      = (Return r, s') /\
    test_results r = Some results /\ List.length results = 2%nat /\
    nth_error results 1 = Some tr /\
    test_index tr = 2%nat /\ tr_input tr = "1" /\ expected_output tr = "2".
Proof.
  eexists. eexists.
  assert (E : execute_code calm "python" echo_py 30 (Some [hello_test; one_two_test])
                init_state = (Return _, _)) by (vm_compute; reflexivity).
  destruct (results_follow_test_cases calm "python" echo_py 30 [hello_test; one_two_test]
              init_state _ _ 1 one_two_test eq_refl E eq_refl)
    as (results & tr & H1 & H2 & H3 & H4 & H5 & H6).
  exists results, tr.
  split; [exact E |]. split; [exact H1 |]. split; [exact H2 |]. split; [exact H3 |].
  split; [exact H4 |]. split; [exact H5 |]. rewrite H6. vm_compute. reflexivity.
Defined.

Lemma not_passed_not_all (results : list TestResult) (k : nat) (tr : TestResult) :
  nth_error results k = Some tr -> passed tr = false -> all_passed results = false.
Proof.
  intros Hk Hp. destruct (all_passed results) eqn:A; [| reflexivity].
  apply all_passed_Forall in A. rewrite Forall_forall in A.
  rewrite (A tr (nth_error_In _ _ Hk)) in Hp. discriminate Hp.
Qed.

(** X6.  In batch test-suite mode one failed test fails the suite: when
    the run of some test gave a non-zero exit code (as a run that reached
    the deadline does, with -1) or an output that differs from the expected
    one after trimming, the verdict is ["WRONG ANSWER"] and the
    request-level exit code is 1. *)
Theorem one_failed_test_fails_suite (env : Env) (language : string)
    (files : list (string * string)) (T : Z) (tests : list TestCase) s r s'
    (k : nat) (tc : TestCase) (c : Z) (out err : string) :
  has_tests (Some tests) = true ->
  execute_code env language files T (Some tests) s = (Return r, s') ->
  nth_error tests k = Some tc ->
  test_observation T
    (exec_run env (exec_calls s + build_calls (effective_language language files) + k))
    = Return (c, out, err) ->
  c <> 0 \/ PyStr.strip out <> PyStr.strip (output tc) ->
  verdict r = Some "WRONG ANSWER" /\ exit_code r = 1.
Proof.
  intros Ht H Hk Hrun Hbad.
  destruct (execute_code_batch_return env language files T tests s r s' Ht H)
    as (obs & L & Hobs & _ & Hv & Hc & _).
  assert (Hlt : (k < List.length obs)%nat).
  { rewrite L. apply nth_error_Some. rewrite Hk. discriminate. }
  destruct (nth_error obs k) as [[[[c' out'] err'] dt] |] eqn:Ho;
    [| apply nth_error_None in Ho; lia].
  pose proof (Hobs k c' out' err' dt Ho) as O. rewrite Hrun in O.
  inversion O; subst c' out' err'; clear O.
  assert (A : all_passed (judge_all 0 tests obs) = false).
  { apply (not_passed_not_all _ k (judge k tc c out err dt)).
    - exact (judge_all_nth 0 tests obs k tc c out err dt Hk Ho).
    - unfold judge. simpl. apply andb_false_iff.
      destruct Hbad as [Hz | Ho'].
      + left. apply Z.eqb_neq. exact Hz.
      + right. apply String.eqb_neq. exact Ho'. }
  rewrite Hv, Hc. unfold verdict_of. rewrite A. split; reflexivity.
Qed.

Lemma one_failed_test_fails_suite_witness :
  exists r s',
    execute_code (with_exec calm 1 ExecTimeout) "python" echo_py 30
      (Some [hello_test; hello_test]) init_state = (Return r, s') /\
    verdict r = Some "WRONG ANSWER" /\ exit_code r = 1.
Proof.
  eexists. eexists.
  assert (E : execute_code (with_exec calm 1 ExecTimeout) "python" echo_py 30
                (Some [hello_test; hello_test]) init_state = (Return _, _))
    by (vm_compute; reflexivity).
  split; [exact E |].
  refine (one_failed_test_fails_suite (with_exec calm 1 ExecTimeout) "python" echo_py 30
            [hello_test; hello_test] init_state _ _ 1 hello_test (-1) ""
            (timeout_message 30) eq_refl E eq_refl eq_refl _).
  left. discriminate.
Defined.

(* ===================================================================== *)
(** * The life of the container *)
(* ===================================================================== *)

Lemma emits_ret (P : docker_op -> Prop) {A} (a : A) : emits P (ret a).
Proof.
  intros s o s' H. inversion H; subst. split; [reflexivity |].
  exists []. rewrite app_nil_r. split; [reflexivity | constructor].
Qed.

Lemma emits_raise (P : docker_op -> Prop) {A} (e : exn) : emits P (@raise A e).
Proof.
  intros s o s' H. inversion H; subst. split; [reflexivity |].
  exists []. rewrite app_nil_r. split; [reflexivity | constructor].
Qed.

Lemma emits_compose (P : docker_op -> Prop) (s1 s2 s3 : State) :
  (container s2 = container s1 /\
   exists l, docker_log s2 = (docker_log s1 ++ l)%list /\ Forall P l) ->
  (container s3 = container s2 /\
   exists l, docker_log s3 = (docker_log s2 ++ l)%list /\ Forall P l) ->
  container s3 = container s1 /\
  exists l, docker_log s3 = (docker_log s1 ++ l)%list /\ Forall P l.
Proof.
  intros (C1 & l1 & E1 & F1) (C2 & l2 & E2 & F2). split; [congruence |].
  exists (l1 ++ l2)%list. split; [rewrite E2, E1, app_assoc; reflexivity |].
  apply Forall_app. split; assumption.
Qed.

Lemma emits_bind (P : docker_op -> Prop) {A B} (c : M A) (k : A -> M B) :
  emits P c -> (forall a, emits P (k a)) -> emits P (bind c k).
Proof.
  intros Hc Hk s o s' H. unfold bind in H.
  destruct (c s) as [[a | e] s1] eqn:E.
  - exact (emits_compose P _ _ _ (Hc _ _ _ E) (Hk a _ _ _ H)).
  - inversion H; subst. exact (Hc _ _ _ E).
Qed.

Lemma emits_try_except (P : docker_op -> Prop) {A} (body : M A) (handler : exn -> M A) :
  emits P body -> (forall e, emits P (handler e)) -> emits P (try_except body handler).
Proof.
  intros Hb Hh s o s' H. unfold try_except in H.
  destruct (body s) as [[a | e] s1] eqn:E.
  - inversion H; subst. exact (Hb _ _ _ E).
  - exact (emits_compose P _ _ _ (Hb _ _ _ E) (Hh e _ _ _ H)).
Qed.

Lemma emits_docker_call (P : docker_op -> Prop) {A} (op : docker_op) (answer : outcome A) :
  P op -> emits P (docker_call op answer).
Proof.
  intros Hop s o s' H. inversion H; subst. split; [reflexivity |].
  exists [op]. split; [reflexivity | constructor; [exact Hop | constructor]].
Qed.

Lemma emits_get_fs (P : docker_op -> Prop) : emits P get_fs.
Proof.
  intros s o s' H. inversion H; subst. split; [reflexivity |].
  exists []. rewrite app_nil_r. split; [reflexivity | constructor].
Qed.

Lemma emits_time_ms (P : docker_op -> Prop) (env : Env) : emits P (time_ms env).
Proof.
  intros s o s' H. inversion H; subst. split; [reflexivity |].
  exists []. simpl. rewrite app_nil_r. split; [reflexivity | constructor].
Qed.

Lemma emits_exec (P : docker_op -> Prop) (env : Env) (command : string) (T : Z) :
  P (ExecRun command T) -> emits P (_exec_in_container env command T).
Proof.
  intros Hop s o s' H. unfold _exec_in_container in H.
  assert (X : container s' = container s /\
              docker_log s' =
                (docker_log s
                   ++ (if call_made T (exec_run env (exec_calls s))
                       then [ExecRun command T] else []))%list)
    by (destruct (exec_run env (exec_calls s)); inversion H; subst; split; reflexivity).
  destruct X as (X1 & X2). split; [exact X1 |].
  eexists. split; [exact X2 |].
  destruct (call_made T (exec_run env (exec_calls s)));
    [constructor; [exact Hop | constructor] | constructor].
Qed.

Ltac emits_step :=
  match goal with
  | |- emits _ (bind _ _) => apply emits_bind
  | |- emits _ (try_except _ _) => apply emits_try_except
  | |- emits _ (ret _) => apply emits_ret
  | |- emits _ (raise _) => apply emits_raise
  | |- emits _ (docker_call _ _) => apply emits_docker_call; exact I
  | |- emits _ (_exec_in_container _ _ _) => apply emits_exec; exact I
  | |- emits _ get_fs => apply emits_get_fs
  | |- emits _ (time_ms _) => apply emits_time_ms
  | |- emits _ (put_workspace _ _) => unfold put_workspace
  | |- emits _ (prepare_runner _ _ _ _) => unfold prepare_runner
  | |- emits _ (if ?b then _ else _) => destruct b
  | |- emits _ (match ?x with _ => _ end) => destruct x
  | |- forall _, _ => intro
  | H : forall idx first acc, emits _ (run_tests _ _ _ idx _ first acc)
    |- emits _ (run_tests _ _ _ _ _ _ _) => apply H
  end.

Lemma emits_run_tests (env : Env) (rc : string) (T : Z) :
  forall tcs idx first acc, emits inner_op (run_tests env rc T idx tcs first acc).
Proof.
  induction tcs as [| tc rest IH]; intros idx first acc; simpl.
  - apply emits_ret.
  - repeat emits_step.
Qed.

(** What the calls between creation and removal leave behind. *)
Lemma created_then (env : Env) (img cmd : string) (nd : bool) {A} (rest : M A) s o s1 :
  emits inner_op rest -> container s = None ->
  bind (containers_create env img cmd nd) (fun _ => rest) s = (o, s1) ->
  match create_error env with
  | Some _ =>
      docker_log s1 = (docker_log s ++ [Create img cmd nd])%list /\ container s1 = None
  | None =>
      container s1 = Some (Handle img cmd) /\
      exists mid, docker_log s1 = (docker_log s ++ Create img cmd nd :: mid)%list /\
                  Forall inner_op mid
  end.
Proof.
  intros Hrest Hc H.
  unfold bind at 1, containers_create, bind, docker_call, set_container in H.
  destruct (create_error env) as [e |]; simpl in H.
  - inversion H; subst. simpl. split; [reflexivity | exact Hc].
  - destruct (Hrest _ _ _ H) as (C & l & E & F). simpl in *.
    split; [exact C |]. exists l. split; [| exact F].
    rewrite E, <- app_assoc. reflexivity.
Qed.

Lemma removed_at_last (env : Env) (img cmd : string) (nd : bool) {A} (body : M A) s o s' :
  (forall o1 s1, body s = (o1, s1) ->
     match create_error env with
     | Some _ =>
         docker_log s1 = (docker_log s ++ [Create img cmd nd])%list /\ container s1 = None
     | None =>
         container s1 = Some (Handle img cmd) /\
         exists mid, docker_log s1 = (docker_log s ++ Create img cmd nd :: mid)%list /\
                     Forall inner_op mid
     end) ->
  try_finally body (remove_container env) s = (o, s') ->
  exists l, docker_log s' = (docker_log s ++ l)%list /\ container_lifecycle env l.
Proof.
  intros Hbody H. unfold try_finally in H.
  destruct (body s) as [o1 s1] eqn:B. specialize (Hbody o1 s1 eq_refl).
  destruct (remove_container_spec env s1) as (s2 & F & _ & _ & _ & _ & R).
  rewrite F in H. inversion H; subst o s'; clear H.
  unfold container_lifecycle.
  destruct (create_error env) as [e |].
  - destruct Hbody as (L & C). rewrite C in R. rewrite app_nil_r in R.
    exists [Create img cmd nd]. split; [congruence |].
    right. exists img, cmd, nd. reflexivity.
  - destruct Hbody as (C & mid & L & Fm). rewrite C in R.
    exists (Create img cmd nd :: mid ++ [Remove])%list. split.
    + rewrite R, L, <- app_assoc. reflexivity.
    + right. exists img, cmd, nd, mid. split; [reflexivity | exact Fm].
Qed.

Lemma handled_in_place {A} (body : M A) (handler : exn -> M A) (Q : State -> Prop) s :
  (forall e s1, snd (handler e s1) = s1) ->
  (forall o1 s1, body s = (o1, s1) -> Q s1) ->
  forall o1 s1, try_except body handler s = (o1, s1) -> Q s1.
Proof.
  intros Hh Hb o1 s1 H. unfold try_except in H.
  destruct (body s) as [[a | e] s2] eqn:B.
  - inversion H; subst. exact (Hb _ _ eq_refl).
  - pose proof (Hh e s2) as X. rewrite H in X. simpl in X. subst s1.
    exact (Hb _ _ eq_refl).
Qed.

Lemma single_run_lifecycle (env : Env) (config : LanguageConfig)
    (language command d : string) (T : Z) s o s' :
  single_run env config language command d T s = (o, s') ->
  exists l, docker_log s' = (docker_log s ++ l)%list /\ container_lifecycle env l.
Proof.
  unfold single_run. unfold bind at 1. unfold set_container. intros H.
  eapply removed_at_last in H; [exact H |].
  apply handled_in_place.
  - intros e s1. destruct e; reflexivity.
  - intros o1 s1 B. apply created_then in B; [exact B | | reflexivity].
    repeat emits_step.
Qed.

Lemma batch_run_lifecycle (env : Env) (config : LanguageConfig)
    (language main_file_path d : string) (T : Z) (tests : list TestCase) (e0 : string) s o s' :
  batch_run env config language main_file_path d T tests e0 s = (o, s') ->
  exists l, docker_log s' = (docker_log s ++ l)%list /\ container_lifecycle env l.
Proof.
  unfold batch_run. unfold bind at 1. unfold set_container. intros H.
  eapply removed_at_last in H; [exact H |].
  intros o1 s1 B. apply created_then in B; [exact B | | reflexivity].
  repeat (first [emits_step | apply emits_run_tests]).
Qed.

Lemma run_resolved_lifecycle (env : Env) (config : LanguageConfig)
    (language main_file_path d : string) (T : Z) (tcs : option (list TestCase)) (st : Z) s o s' :
  run_resolved env config language main_file_path d T tcs st s = (o, s') ->
  exists l, docker_log s' = (docker_log s ++ l)%list /\ container_lifecycle env l.
Proof.
  unfold run_resolved.
  destruct tcs as [[| t ts] |]; simpl has_tests; simpl negb; cbv iota.
  2: { unfold bind at 1. unfold ret at 1. unfold bind at 1. unfold bind at 1.
       destruct (batch_run env config language main_file_path d T (t :: ts) "" s)
         as [[[[[[out err] code] results] v] | e] s1] eqn:B;
         apply batch_run_lifecycle in B; intros H.
       - unfold ret at 1 in H. unfold bind, time_ms, ret in H. inversion H; subst. exact B.
       - inversion H; subst. exact B. }
  all: unfold bind at 1;
    destruct (single_run env config language (run_command language main_file_path) d T s)
      as [[[[a b] c] | e] s1] eqn:B;
    apply single_run_lifecycle in B; intros H;
    [ unfold bind, ret, time_ms in H; inversion H; subst; exact B
    | inversion H; subst; exact B ].
Qed.

(** X7.  Whatever the request and whatever happens, the Docker calls of one
    [execute_code] are: none at all; or one [create] that failed; or one
    [create] that succeeded, calls on that container, and one [remove] as
    the last call.  A container that was created is removed, once, on
    every path, and no second container is created. *)
Theorem one_container_created_and_removed (env : Env) (language : string)
    (files : list (string * string)) (T : Z) (tcs : option (list TestCase)) (s : State) :
  exists l,
    docker_log (snd (execute_code env language files T tcs s)) = (docker_log s ++ l)%list /\
    container_lifecycle env l.
Proof.
  destruct (workspace_created env language files T tcs s)
    as (s0 & _ & D1 & _ & _ & _ & E).
  rewrite E.
  destruct (resolve_and_run env language files T tcs (workspace_of env)
              (clock env (clock_reads s)) s0) as [o s1] eqn:B.
  destruct (try_finally_remove_workspace _ env (workspace_of env)
              (tree_depth (workspace_of env) (written env (workspace_of env) files))
              s0 o s1 B) as (o' & s' & X & (F1 & _) & _).
  rewrite X. simpl. rewrite F1, <- D1. clear X F1 s' o' E.
  unfold resolve_and_run in B. unfold bind at 1 in B.
  destruct (write_files env (workspace_of env) files s0) as [[[] | e] sw] eqn:W;
    apply write_files_frame in W; destruct W as (W1 & _).
  2: { inversion B; subst. exists []. rewrite app_nil_r. split; [exact W1 | left; reflexivity]. }
  unfold bind at 1 in B.
  destruct (select_main_file (effective_language language files) files sw)
    as [[main | e] sw'] eqn:Sm; apply select_main_file_pure in Sm; subst sw'.
  2: { inversion B; subst. exists []. rewrite app_nil_r. split; [exact W1 | left; reflexivity]. }
  destruct (dict_get LANGUAGE_CONFIG (effective_language language files)) as [config |].
  - apply run_resolved_lifecycle in B. rewrite <- W1. exact B.
  - inversion B; subst. exists []. rewrite app_nil_r. split; [exact W1 | left; reflexivity].
Qed.

(* ===================================================================== *)
(** * Further properties of batch test-suite mode *)
(* ===================================================================== *)

Lemma prepare_runner_calls (env : Env) (language main_file_path : string) (T : Z) s rc s' :
  prepare_runner env language main_file_path T s = (Return rc, s') ->
  exists cmds,
    docker_log s' = (docker_log s ++ cmds)%list /\
    (needs_build language = true -> exists cmd, cmds = [ExecRun cmd T]) /\
    (needs_build language = false -> cmds = []).
Proof.
  unfold prepare_runner, needs_build.
  destruct (String.eqb language "typescript"); simpl;
    [| destruct (String.eqb language "java"); simpl;
       [| destruct (String.eqb language "go"); simpl ]].
  4: { intros H; inversion H; subst. exists []. rewrite app_nil_r.
       repeat split; try reflexivity. intros D; discriminate D. }
  all: unfold bind, _exec_in_container;
    destruct (exec_run env (exec_calls s)) as [c out err | | e |];
    intros H; inversion H; subst; simpl;
    eexists; (split; [reflexivity |]);
    (split; [intros _; eexists; reflexivity | intros D; discriminate D]).
Qed.

Lemma batch_run_calls (env : Env) (config : LanguageConfig)
    (language main_file_path d : string) (T : Z) (tests : list TestCase) (e0 : string)
    s res s' :
  batch_run env config language main_file_path d T tests e0 s = (Return res, s') ->
  exists builds rc,
    (needs_build language = true -> exists cmd, builds = [ExecRun cmd T]) /\
    (needs_build language = false -> builds = []) /\
    docker_log s' =
      (docker_log s
         ++ [Create (image config) ("/bin/sh -c " ++ dq ++ "sleep 3600" ++ dq)
               (negb (String.eqb language "typescript"));
             Start; PutArchive (archive_of d (fs s))]
         ++ builds
         ++ test_calls env rc T (exec_calls s + build_calls language) tests
         ++ [Remove])%list.
Proof.
  unfold batch_run. intros H.
  apply bind_return in H. destruct H as ([] & s0 & E0 & H).
  unfold set_container in E0. inversion E0; subst s0; clear E0.
  apply try_finally_return in H. destruct H as (s5 & H & F).
  unfold containers_create in H.
  apply bind_return in H. destruct H as ([] & s1 & E1 & H).
  apply bind_return in E1. destruct E1 as ([] & s1' & E1 & E1').
  unfold docker_call in E1. destruct (create_error env) eqn:Cr; [discriminate E1 |].
  inversion E1; subst s1'; clear E1.
  unfold set_container in E1'. inversion E1'; subst s1; clear E1'.
  apply bind_return in H. destruct H as ([] & s2 & E2 & H).
  unfold docker_call in E2. destruct (start_error env) eqn:St; [discriminate E2 |].
  inversion E2; subst s2; clear E2.
  apply bind_return in H. destruct H as ([] & s3 & E3 & H).
  unfold put_workspace, bind, get_fs, docker_call in E3. simpl in E3.
  destruct (put_archive_error env) eqn:Pu; [discriminate E3 |].
  inversion E3; subst s3; clear E3.
  apply bind_return in H. destruct H as (rc & s4 & E4 & H).
  pose proof (prepare_runner_return _ _ _ _ _ _ _ E4) as (P1 & P2 & _).
  apply prepare_runner_calls in E4. destruct E4 as (cmds & P5 & Pt & Pf).
  apply bind_return in H. destruct H as ([first results] & s6 & E6 & H).
  apply run_tests_return in E6.
  destruct E6 as (obs & _ & _ & _ & _ & _ & Hlog & Hc & _).
  unfold ret in H. inversion H; subst; clear H.
  destruct (remove_container_spec env s5) as (s7 & F' & _ & _ & _ & _ & R5).
  rewrite F in F'. inversion F'; subst s7; clear F'.
  simpl in *. exists cmds, rc. split; [exact Pt |]. split; [exact Pf |].
  rewrite R5, Hc, P2, Hlog, P5, P1. rewrite <- !app_assoc. reflexivity.
Qed.

(** X8.  A suite that returns used one container.  Under a positive
    timeout the Docker calls are one [create] (with the idle command),
    [start], one [put_archive], the build if the language has one, then,
    in the order of the test cases, the [exec_run] of every test whose call
    was made, each under the request's timeout, and [remove].  When no call
    was left waiting for a thread until its deadline, that is one
    [exec_run] per test case. *)
Theorem suite_runs_in_one_container (env : Env) (language : string)
    (files : list (string * string)) (T : Z) (tests : list TestCase) s r s' :
  0 < T ->
  has_tests (Some tests) = true ->
  execute_code env language files T (Some tests) s = (Return r, s') ->
  exists config archive builds rc,
    dict_get LANGUAGE_CONFIG (effective_language language files) = Some config /\
    (needs_build (effective_language language files) = true ->
     exists cmd, builds = [ExecRun cmd T]) /\
    (needs_build (effective_language language files) = false -> builds = []) /\
    docker_log s' =
      (docker_log s
         ++ [Create (image config) ("/bin/sh -c " ++ dq ++ "sleep 3600" ++ dq)
               (negb (String.eqb (effective_language language files) "typescript"));
             Start; PutArchive archive]
         ++ builds
         ++ test_calls env rc T
              (exec_calls s + build_calls (effective_language language files)) tests
         ++ [Remove])%list /\
    ((forall k, (k < List.length tests)%nat ->
        exec_run env (exec_calls s + build_calls (effective_language language files) + k)
          <> ExecNotStarted) ->
     test_calls env rc T
       (exec_calls s + build_calls (effective_language language files)) tests
     = map (fun tc => ExecRun (test_command rc (input tc)) T) tests).
Proof.
  intros HT Ht H.
  apply execute_code_return in H.
  destruct H as (config & main & s1 & s2 & C & C1 & L1 & R & (D1 & _)).
  destruct tests as [| t ts]; [discriminate Ht |].
  unfold run_resolved in R. simpl has_tests in R. simpl negb in R. cbv iota in R.
  unfold bind at 1 in R. unfold ret at 1 in R.
  apply bind_return in R. destruct R as (x & s3 & E & R).
  apply bind_return in E. destruct E as (res & s4 & E & E').
  apply batch_run_calls in E. destruct E as (builds & rc & Pt & Pf & Hlog).
  destruct res as [[[[out err] code] results] v].
  unfold ret in E'. inversion E'; subst; clear E'.
  unfold bind, time_ms, ret in R. inversion R; subst; clear R.
  exists config, (archive_of (workspace_of env) (fs s1)), builds, rc.
  split; [exact C |]. split; [exact Pt |]. split; [exact Pf |].
  split; [rewrite D1; simpl; rewrite Hlog, L1, C1; reflexivity |].
  intros Hstarted. apply test_calls_all. intros k Hk.
  specialize (Hstarted k Hk).
  destruct (exec_run env
              (exec_calls s + build_calls (effective_language language files) + k));
    try reflexivity; [apply Z.ltb_lt; exact HT | contradiction Hstarted; reflexivity].
Qed.

Lemma suite_runs_in_one_container_witness :
  exists r s' config archive builds rc,
    execute_code tsc_reports "typescript" echo_ts 30 (Some [hello_test; one_two_test])
      init_state = (Return r, s') /\
    dict_get LANGUAGE_CONFIG "typescript" = Some config /\
    (exists cmd, builds = [ExecRun cmd 30]) /\
    docker_log s' =
      ([Create (image config) ("/bin/sh -c " ++ dq ++ "sleep 3600" ++ dq) false;
        Start; PutArchive archive]
         ++ builds
         ++ map (fun tc => ExecRun (test_command rc (input tc)) 30)
              [hello_test; one_two_test]
         ++ [Remove])%list.
Proof.
  eexists. eexists.
  assert (E : execute_code tsc_reports "typescript" echo_ts 30
                (Some [hello_test; one_two_test]) init_state = (Return _, _))
    by (vm_compute; reflexivity).
  destruct (suite_runs_in_one_container tsc_reports "typescript" echo_ts 30
              [hello_test; one_two_test] init_state _ _ eq_refl eq_refl E)
    as (config & archive & builds & rc & C & Pt & _ & Hlog & Hall).
  exists config, archive, builds, rc.
  split; [exact E |]. split; [exact C |]. split; [exact (Pt eq_refl) |].
  rewrite Hlog, Hall; [reflexivity |].
  intros k Hk. simpl. destruct (Nat.eqb (S k) 0); discriminate.
Defined.

Lemma run_tests_raise (env : Env) (rc : string) (T : Z) :
  forall tcs idx first acc s k e,
    (k < List.length tcs)%nat ->
    (forall j, (j < k)%nat ->
       exists x, test_observation T (exec_run env (exec_calls s + j)) = Return x) ->
    test_observation T (exec_run env (exec_calls s + k)) = Raise e ->
    exists s',
      run_tests env rc T idx tcs first acc s = (Raise e, s') /\
      container s' = container s /\
      docker_log s' =
        (docker_log s ++ test_calls env rc T (exec_calls s) (firstn (S k) tcs))%list.
Proof.
  induction tcs as [| tc rest IH]; intros idx first acc s k e Hk Hbefore Hat.
  - simpl in Hk. lia.
  - rewrite run_tests_cons. destruct k as [| k].
    + rewrite Nat.add_0_r in Hat. rewrite Hat.
      eexists. split; [reflexivity |]. simpl.
      split; [reflexivity |]. rewrite app_nil_r. reflexivity.
    + destruct (Hbefore 0%nat (Nat.lt_0_succ k)) as [[[c out] err] O].
      rewrite Nat.add_0_r in O. rewrite O.
      match goal with
      | |- context [run_tests env rc T ?i rest ?f ?a ?s0] =>
          destruct (IH i f a s0 k e) as (s' & E & C2 & Hl)
      end.
      * simpl in Hk. lia.
      * intros j Hj. simpl. rewrite <- Nat.add_succ_r. apply Hbefore. lia.
      * simpl. rewrite <- Nat.add_succ_r. exact Hat.
      * exists s'. split; [exact E |]. simpl in C2, Hl.
        split; [exact C2 |].
        rewrite Hl, <- app_assoc. reflexivity.
Qed.

Lemma run_resolved_batch_raise (env : Env) (config : LanguageConfig)
    (language main_file_path d : string) (T : Z) (tests : list TestCase) (st : Z)
    (e : exn) s s1 :
  tests <> [] ->
  batch_run env config language main_file_path d T tests "" s = (Raise e, s1) ->
  run_resolved env config language main_file_path d T (Some tests) st s = (Raise e, s1).
Proof.
  intros NE B. destruct tests as [| t ts]; [contradiction |].
  unfold run_resolved. simpl has_tests. simpl negb. cbv iota.
  unfold bind at 1. unfold ret at 1. unfold bind at 1. unfold bind at 1.
  rewrite B. reflexivity.
Qed.

Lemma batch_run_test_raise (env : Env) (config : LanguageConfig)
    (language main_file_path d : string) (T : Z) (tests : list TestCase) (e0 : string)
    (k : nat) (e : exn) s :
  batch_setup_error env = None ->
  (needs_build language = true ->
   exists c out err, exec_run env (exec_calls s) = ExecDone c out err) ->
  (k < List.length tests)%nat ->
  (forall j, (j < k)%nat ->
     exists x, test_observation T
                 (exec_run env (exec_calls s + build_calls language + j)) = Return x) ->
  test_observation T (exec_run env (exec_calls s + build_calls language + k)) = Raise e ->
  exists s' builds rc,
    batch_run env config language main_file_path d T tests e0 s = (Raise e, s') /\
    (needs_build language = true -> exists cmd, builds = [ExecRun cmd T]) /\
    (needs_build language = false -> builds = []) /\
    docker_log s' =
      (docker_log s
         ++ [Create (image config) ("/bin/sh -c " ++ dq ++ "sleep 3600" ++ dq)
               (negb (String.eqb language "typescript"));
             Start; PutArchive (archive_of d (fs s))]
         ++ builds
         ++ test_calls env rc T (exec_calls s + build_calls language) (firstn (S k) tests)
         ++ [Remove])%list.
Proof.
  unfold batch_setup_error. intros Hsetup Hbuild Hk Hbefore Hat.
  destruct (create_error env) eqn:Cr; [discriminate Hsetup |].
  destruct (start_error env) eqn:St; [discriminate Hsetup |].
  unfold batch_run.
  cbv beta iota delta [bind set_container try_finally containers_create docker_call
                       put_workspace get_fs ret of_option].
  rewrite Cr, St, Hsetup. simpl.
  match goal with
  | |- context [prepare_runner env language main_file_path T ?s0] =>
      destruct (prepare_runner_total env language main_file_path T s0 Hbuild)
        as (rc & s4 & E4)
  end.
  rewrite E4.
  pose proof (prepare_runner_return _ _ _ _ _ _ _ E4) as (P1 & P2 & _).
  destruct (prepare_runner_calls _ _ _ _ _ _ _ E4) as (cmds & P5 & Pt & Pf).
  simpl in P1, P2, P5.
  destruct (run_tests_raise env rc T tests 0 "" [] s4 k e Hk)
    as (s5 & E5 & C2 & Hl).
  { intros j Hj. rewrite P1. apply Hbefore. exact Hj. }
  { rewrite P1. exact Hat. }
  rewrite E5.
  destruct (remove_container_spec env s5) as (s6 & F & _ & _ & _ & _ & R5).
  rewrite F. exists s6, cmds, rc. split; [reflexivity |].
  split; [exact Pt |]. split; [exact Pf |].
  rewrite C2, P2 in R5.
  rewrite R5, Hl, P5, P1. rewrite <- !app_assoc. reflexivity.
Qed.

(** X9.  In batch test-suite mode only a deadline is caught per test: under
    a positive timeout, when the [exec_run] of test [k] fails with any
    other exception, after the earlier tests finished or reached the
    deadline, [execute_code] raises that exception and reports no result,
    not even of the tests that had passed.  The later tests are not run:
    after the setup and the build, the log holds the calls of the tests up
    to [k] that were made and then the removal of the container. *)
Theorem test_run_error_aborts_suite (env : Env) (language : string)
    (files : list (string * string)) (T : Z) (tests : list TestCase)
    (config : LanguageConfig) (s : State) (k : nat) (e : exn) :
  0 < T ->
  writable env (workspace_of env) files = true -> files <> [] ->
  within_rmtree_limit env files = true ->
  dict_get LANGUAGE_CONFIG (effective_language language files) = Some config ->
  batch_setup_error env = None ->
  (needs_build (effective_language language files) = true ->
   exists c out err, exec_run env (exec_calls s) = ExecDone c out err) ->
  (k < List.length tests)%nat ->
  (forall j, (j < k)%nat ->
     completes_or_times_out
       (exec_run env (exec_calls s + build_calls (effective_language language files) + j))) ->
  test_observation T
    (exec_run env (exec_calls s + build_calls (effective_language language files) + k))
    = Raise e ->
  exists s' archive builds rc,
    execute_code env language files T (Some tests) s = (Raise e, s') /\
    (needs_build (effective_language language files) = true ->
     exists cmd, builds = [ExecRun cmd T]) /\
    (needs_build (effective_language language files) = false -> builds = []) /\
    docker_log s' =
      (docker_log s
         ++ [Create (image config) ("/bin/sh -c " ++ dq ++ "sleep 3600" ++ dq)
               (negb (String.eqb (effective_language language files) "typescript"));
             Start; PutArchive archive]
         ++ builds
         ++ test_calls env rc T
              (exec_calls s + build_calls (effective_language language files))
              (firstn (S k) tests)
         ++ [Remove])%list.
Proof.
  intros _ W NE Hd C Hsetup Hbuild Hk Hbefore Hat.
  assert (NEt : tests <> []) by (destruct tests; [simpl in Hk; lia | discriminate]).
  destruct (execute_code_resolved env language files T (Some tests) s W NE Hd)
    as (main & s1 & C1 & L1 & K).
  rewrite C in K. rewrite <- C1 in Hbuild, Hbefore, Hat.
  destruct (batch_run_test_raise env config (effective_language language files) main
              (workspace_of env) T tests "" k e s1 Hsetup Hbuild Hk)
    as (s2 & builds & rc & B & Pt & Pf & X2).
  { intros j Hj. apply completes_observed. apply Hbefore. exact Hj. }
  { exact Hat. }
  destruct (K _ _ (run_resolved_batch_raise _ _ _ _ _ _ _ _ _ _ _ NEt B))
    as (s' & E & (D1 & _) & _).
  exists s', (archive_of (workspace_of env) (fs s1)), builds, rc.
  split; [exact E |]. split; [exact Pt |]. split; [exact Pf |].
  rewrite D1, X2, L1, C1. reflexivity.
Qed.

Lemma test_run_error_aborts_suite_witness :
  exists s' archive rc,
    execute_code (with_exec calm 1 (ExecRaise (DockerException "500 Server Error")))
      "python" echo_py 30 (Some [hello_test; one_two_test; hello_test]) init_state
      = (Raise (DockerException "500 Server Error"), s') /\
    docker_log s' =
      [Create "python:3.12-slim" ("/bin/sh -c " ++ dq ++ "sleep 3600" ++ dq) true;
       Start; PutArchive archive;
       ExecRun (test_command rc "hello") 30; ExecRun (test_command rc "1") 30; Remove].
Proof.
  destruct (test_run_error_aborts_suite
              (with_exec calm 1 (ExecRaise (DockerException "500 Server Error")))
              "python" echo_py 30 [hello_test; one_two_test; hello_test] python_config
              init_state 1 (DockerException "500 Server Error"))
    as (s' & archive & builds & rc & E & _ & Pf & Hlog).
  - reflexivity.
  - reflexivity.
  - discriminate.
  - reflexivity.
  - reflexivity.
  - reflexivity.
  - intros H. discriminate H.
  - simpl. lia.
  - intros [| j] Hj; simpl; [trivial | lia].
  - reflexivity.
  - exists s', archive, rc. split; [exact E |].
    rewrite Hlog, (Pf eq_refl). reflexivity.
Defined.

Lemma batch_run_build_failure (env : Env) (config : LanguageConfig)
    (language main_file_path d : string) (T : Z) (tests : list TestCase) (e0 : string)
    (e : exn) s :
  batch_setup_error env = None ->
  needs_build language = true ->
  exec_failure (exec_run env (exec_calls s)) = Some e ->
  exists s' cmd,
    batch_run env config language main_file_path d T tests e0 s = (Raise e, s') /\
    docker_log s' =
      (docker_log s
         ++ [Create (image config) ("/bin/sh -c " ++ dq ++ "sleep 3600" ++ dq)
               (negb (String.eqb language "typescript"));
             Start; PutArchive (archive_of d (fs s))]
         ++ (if call_made T (exec_run env (exec_calls s)) then [ExecRun cmd T] else [])
         ++ [Remove])%list.
Proof.
  unfold batch_setup_error, needs_build. intros Hsetup Hb Hf.
  destruct (create_error env) eqn:Cr; [discriminate Hsetup |].
  destruct (start_error env) eqn:St; [discriminate Hsetup |].
  unfold batch_run, prepare_runner.
  cbv beta iota delta [bind set_container get_container try_finally try_except suppress
                       remove_container containers_create docker_call put_workspace
                       get_fs ret raise of_option _exec_in_container].
  rewrite Cr, St, Hsetup. simpl.
  destruct (String.eqb language "typescript"); simpl;
    [| destruct (String.eqb language "java"); simpl;
       [| destruct (String.eqb language "go"); simpl; [| discriminate Hb] ] ];
    (destruct (exec_run env (exec_calls s)) as [c out err | | e1 |];
     simpl in Hf; inversion Hf; subst;
     destruct (remove_error env); simpl).
  all: match goal with
       | |- exists s' cmd, (_, ?st) = (_, s') /\ _ => exists st
       end.
  all: match goal with
       | |- context [ExecRun ?c _] => exists c
       | _ => exists ""
       end.
  all: split; [reflexivity |]; simpl; rewrite <- !app_assoc; reflexivity.
Qed.

(** X10.  In batch test-suite mode the build has no handler of its own:
    under a positive timeout, when the build's [exec_run] reaches the
    deadline or fails, [execute_code] raises that exception (a
    [TimeoutError] for the deadline), no test is run, and the container is
    removed.  The build's call is in the log unless it was still waiting
    for a thread when the deadline passed. *)
Theorem build_failure_aborts_request (env : Env) (language : string)
    (files : list (string * string)) (T : Z) (tests : list TestCase)
    (config : LanguageConfig) (e : exn) (s : State) :
  0 < T ->
  writable env (workspace_of env) files = true -> files <> [] ->
  within_rmtree_limit env files = true ->
  dict_get LANGUAGE_CONFIG (effective_language language files) = Some config ->
  has_tests (Some tests) = true ->
  needs_build (effective_language language files) = true ->
  batch_setup_error env = None ->
  exec_failure (exec_run env (exec_calls s)) = Some e ->
  exists s' cmd archive,
    execute_code env language files T (Some tests) s = (Raise e, s') /\
    (exec_run env (exec_calls s) <> ExecNotStarted ->
     docker_log s' =
       (docker_log s
          ++ [Create (image config) ("/bin/sh -c " ++ dq ++ "sleep 3600" ++ dq)
                (negb (String.eqb (effective_language language files) "typescript"));
              Start; PutArchive archive; ExecRun cmd T; Remove])%list) /\
    (exec_run env (exec_calls s) = ExecNotStarted ->
     docker_log s' =
       (docker_log s
          ++ [Create (image config) ("/bin/sh -c " ++ dq ++ "sleep 3600" ++ dq)
                (negb (String.eqb (effective_language language files) "typescript"));
              Start; PutArchive archive; Remove])%list).
Proof.
  intros HT W NE Hd C Ht Hb Hsetup Hf.
  assert (NEt : tests <> []) by (destruct tests; [discriminate Ht | discriminate]).
  destruct (execute_code_resolved env language files T (Some tests) s W NE Hd)
    as (main & s1 & C1 & L1 & K).
  rewrite C in K. rewrite <- C1 in Hf.
  destruct (batch_run_build_failure env config (effective_language language files) main
              (workspace_of env) T tests "" e s1 Hsetup Hb Hf)
    as (s2 & cmd & B & X2).
  destruct (K _ _ (run_resolved_batch_raise _ _ _ _ _ _ _ _ _ _ _ NEt B))
    as (s' & E & (D1 & _) & _).
  exists s', cmd, (archive_of (workspace_of env) (fs s1)).
  split; [exact E |].
  rewrite D1, X2, L1, C1. apply Z.ltb_lt in HT.
  destruct (exec_run env (exec_calls s)); simpl; rewrite ?HT; split; intros H;
    try reflexivity; try discriminate H; contradiction H; reflexivity.
Qed.

Lemma build_failure_aborts_request_witness :
  exists s' cmd archive,
    execute_code (with_exec calm 0 ExecTimeout) "typescript" echo_ts 30
      (Some [hello_test]) init_state = (Raise (TimeoutError ""), s') /\
    docker_log s' =
      [Create "node:20-slim" ("/bin/sh -c " ++ dq ++ "sleep 3600" ++ dq) false;
       Start; PutArchive archive; ExecRun cmd 30; Remove].
Proof.
  destruct (build_failure_aborts_request (with_exec calm 0 ExecTimeout) "typescript" echo_ts
              30 [hello_test] typescript_config (TimeoutError "") init_state)
    as (s' & cmd & archive & E & Hlog & _).
  - reflexivity.
  - reflexivity.
  - discriminate.
  - reflexivity.
  - reflexivity.
  - reflexivity.
  - reflexivity.
  - reflexivity.
  - reflexivity.
  - exists s', cmd, archive. split; [exact E |]. apply Hlog. discriminate.
Defined.

(* ===================================================================== *)
(** * The main file *)
(* ===================================================================== *)

Lemma find_In {A} (f : A -> bool) (l : list A) (a : A) :
  find f l = Some a -> In a l.
Proof.
  induction l as [| x l IH]; simpl; [discriminate |].
  destruct (f x).
  - intros H. inversion H; subst. left. reflexivity.
  - intros H. right. exact (IH H).
Qed.

(** X11.  The main file of a request with at least one file is one of the
    supplied paths, and when an extension is recognised it is the very
    path that fixed the language: the first path, in the order supplied,
    with a recognised extension. *)
Theorem main_file_is_supplied (language : string) (files : list (string * string))
    (s : State) :
  files <> [] ->
  exists p,
    select_main_file (effective_language language files) files s = (Return p, s) /\
    In p (map fst files) /\
    (forall pre p0 post l0,
       map fst files = (pre ++ p0 :: post)%list -> Forall undetected pre ->
       _detect_language_from_file p0 = Some l0 ->
       p = p0 /\ effective_language language files = l0).
Proof.
  intros NE. unfold select_main_file, effective_language.
  destruct (detect_first (map fst files)) as [[l p] |] eqn:D.
  - exists p. split; [reflexivity |].
    destruct (detect_first_found _ _ _ D) as (pre & post & E & F & X).
    split; [rewrite E; apply in_or_app; right; left; reflexivity |].
    intros pre0 p0 post0 l0 E0 F0 X0.
    rewrite E0, (detect_first_undetected pre0 (p0 :: post0) F0) in D.
    simpl in D. rewrite X0 in D. inversion D; subst. split; reflexivity.
  - destruct (find _ (map fst files)) as [p |] eqn:Fd.
    + exists p. split; [reflexivity |]. split; [exact (find_In _ _ _ Fd) |].
      intros pre0 p0 post0 l0 E0 F0 X0.
      rewrite E0, (detect_first_undetected pre0 (p0 :: post0) F0) in D.
      simpl in D. rewrite X0 in D. discriminate D.
    + destruct files as [| [p c] rest]; [contradiction |].
      exists p. split; [reflexivity |]. split; [left; reflexivity |].
      intros pre0 p0 post0 l0 E0 F0 X0.
      rewrite E0, (detect_first_undetected pre0 (p0 :: post0) F0) in D.
      simpl in D. rewrite X0 in D. discriminate D.
Qed.

Lemma main_file_is_supplied_witness :
  exists p,
    select_main_file (effective_language "python" [("README.md", ""); ("cmd/main.go", "")])
      [("README.md", ""); ("cmd/main.go", "")] init_state = (Return p, init_state) /\
    p = "cmd/main.go" /\
    effective_language "python" [("README.md", ""); ("cmd/main.go", "")] = "go".
Proof.
  destruct (main_file_is_supplied "python" [("README.md", ""); ("cmd/main.go", "")]
              init_state ltac:(discriminate)) as (p & E & _ & H).
  destruct (H ["README.md"] "cmd/main.go" [] "go" eq_refl) as (Hp & Hl).
  - constructor; [reflexivity | constructor].
  - reflexivity.
  - exists p. split; [exact E |]. split; assumption.
Defined.

(* ===================================================================== *)
(** * The test input on the command line *)
(* ===================================================================== *)

Lemma string_ind3 (P : string -> Prop) :
  P "" -> (forall a, P (String a "")) -> (forall a b, P (String a (String b ""))) ->
  (forall a b c r, P r -> P (String a (String b (String c r)))) ->
  forall s, P s.
Proof.
  intros H0 H1 H2 H3.
  assert (K : forall s, P s /\ (forall a, P (String a s)) /\
                        (forall a b, P (String a (String b s)))).
  { induction s as [| c r (I0 & I1 & I2)].
    - repeat split; auto.
    - repeat split; auto. }
  intros s. apply K.
Qed.

Lemma land_63_lt (x : N) : (N.land x 63 < 64)%N.
Proof.
  change 63%N with (N.ones 6). rewrite N.land_ones.
  apply N.mod_lt. discriminate.
Qed.

Lemma digit_base64 (n : N) : (n < 64)%N -> base64_char (Base64.digit n) = true.
Proof.
  intros H. unfold Base64.digit.
  assert (Hk : (N.to_nat n < 64)%nat) by lia.
  generalize dependent (N.to_nat n). intros k Hk.
  do 64 (destruct k as [| k]; [reflexivity |]). lia.
Qed.

Lemma sextet_base64 (w k : N) : base64_char (Base64.sextet w k) = true.
Proof. unfold Base64.sextet. apply digit_base64. apply land_63_lt. Qed.

Lemma encode_one (a : ascii) :
  Base64.encode (String a "") =
  let w := N.shiftl (N_of_ascii a) 16 in
  String (Base64.sextet w 3) (String (Base64.sextet w 2) "==").
Proof. reflexivity. Qed.

Lemma encode_two (a b : ascii) :
  Base64.encode (String a (String b "")) =
  let w := N.lor (N.shiftl (N_of_ascii a) 16) (N.shiftl (N_of_ascii b) 8) in
  String (Base64.sextet w 3) (String (Base64.sextet w 2) (String (Base64.sextet w 1) "=")).
Proof. reflexivity. Qed.

Lemma encode_three (a b c : ascii) (r : string) :
  Base64.encode (String a (String b (String c r))) =
  let w := N.lor (N.lor (N.shiftl (N_of_ascii a) 16) (N.shiftl (N_of_ascii b) 8))
             (N_of_ascii c) in
  String (Base64.sextet w 3) (String (Base64.sextet w 2)
    (String (Base64.sextet w 1) (String (Base64.sextet w 0) (Base64.encode r)))).
Proof. reflexivity. Qed.

(** X12.  The input of a test enters the command line of its run only in
    Base64: the encoding is made of letters, digits, [+], [/] and [=]
    alone, whatever bytes the input holds, and has four characters for
    every three bytes of input, the last group padded. *)
Theorem test_input_is_shell_safe (runner_command test_input : string) :
  test_command runner_command test_input =
    "/bin/sh -lc " ++ dq ++ "cd /workspace && echo " ++ Base64.encode test_input
      ++ " | base64 -d | " ++ runner_command ++ dq /\
  all_chars base64_char (Base64.encode test_input) = true /\
  String.length (Base64.encode test_input)
    = (4 * ((String.length test_input + 2) / 3))%nat.
Proof.
  split; [reflexivity |].
  induction test_input as [| a | a b | a b c r (IH1 & IH2)] using string_ind3.
  - split; reflexivity.
  - split; [| reflexivity].
    rewrite encode_one. cbv zeta. cbn [all_chars]. rewrite !sextet_base64. reflexivity.
  - split; [| reflexivity].
    rewrite encode_two. cbv zeta. cbn [all_chars]. rewrite !sextet_base64. reflexivity.
  - rewrite encode_three. cbv zeta. split.
    + cbn [all_chars]. rewrite !sextet_base64, IH1. reflexivity.
    + cbn [String.length]. rewrite IH2.
      replace (S (S (S (String.length r))) + 2)%nat
        with ((String.length r + 2) + 1 * 3)%nat by lia.
      rewrite Nat.div_add by lia. lia.
Qed.

(* ===================================================================== *)
(** * The single-test runner *)
(* ===================================================================== *)

(** [m] never stops a container. *)
Lemma never_stops_compose (s1 s2 s3 : State) :
  (exists l, docker_log s2 = (docker_log s1 ++ l)%list /\ ~ In Stop l) ->
  (exists l, docker_log s3 = (docker_log s2 ++ l)%list /\ ~ In Stop l) ->
  exists l, docker_log s3 = (docker_log s1 ++ l)%list /\ ~ In Stop l.
Proof.
  intros (l1 & E1 & N1) (l2 & E2 & N2). exists (l1 ++ l2)%list. split.
  - rewrite E2, E1, app_assoc. reflexivity.
  - intros H. apply in_app_or in H. destruct H as [H | H]; [exact (N1 H) | exact (N2 H)].
Qed.

Lemma never_stops_here (s s' : State) :
  docker_log s' = docker_log s ->
  exists l, docker_log s' = (docker_log s ++ l)%list /\ ~ In Stop l.
Proof.
  intros E. exists []. rewrite app_nil_r. split; [exact E | intros []].
Qed.

Lemma never_stops_call (s : State) (op : docker_op) :
  op <> Stop ->
  exists l, docker_log (logged op s) = (docker_log s ++ l)%list /\ ~ In Stop l.
Proof.
  intros Hop. exists [op]. split; [reflexivity |].
  intros [H | []]. exact (Hop H).
Qed.

Lemma run_test_container_result (env : Env) (config : LanguageConfig)
    (language command d : string) (T : Z) s :
  exists res s',
    run_test_container env config language command d T s = (Return res, s') /\
    (forall e, run_test_failure env = Some e -> res = ("", str_exn e, -1)) /\
    (forall out raw,
       run_test_failure env = None ->
       logs_stdout env = Return out -> logs_stderr env = Return raw ->
       res = (out,
              (if negb (state_exit env =? 0) && PyStr.truthy (PyStr.strip raw)
               then raw else ""),
              state_exit env)).
Proof.
  unfold run_test_container, run_test_failure, state_exit.
  cbv beta iota delta [bind set_container get_container try_finally try_except suppress
                       remove_container containers_create docker_call put_workspace
                       get_fs ret raise of_option].
  destruct (create_error env) as [e1 |]; simpl.
  { do 2 eexists. split; [reflexivity |].
    split; [intros ? H; inversion H; reflexivity | intros ? ? H; discriminate H]. }
  destruct (put_archive_error env) as [e2 |]; simpl.
  { destruct (remove_error env); simpl; (do 2 eexists; split; [reflexivity |]);
      (split; [intros ? H; inversion H; reflexivity | intros ? ? H; discriminate H]). }
  destruct (start_error env) as [e3 |]; simpl.
  { destruct (remove_error env); simpl; (do 2 eexists; split; [reflexivity |]);
      (split; [intros ? H; inversion H; reflexivity | intros ? ? H; discriminate H]). }
  destruct (wait_error env) as [e4 |]; simpl.
  { destruct (remove_error env); simpl; (do 2 eexists; split; [reflexivity |]);
      (split; [intros ? H; inversion H; reflexivity | intros ? ? H; discriminate H]). }
  destruct (logs_stdout env) as [o1 | e5]; simpl.
  2: { destruct (remove_error env); simpl; (do 2 eexists; split; [reflexivity |]);
      (split; [intros ? H; inversion H; reflexivity | intros ? ? H; discriminate H]). }
  destruct (logs_stderr env) as [r1 | e6]; simpl.
  2: { destruct (remove_error env); simpl; (do 2 eexists; split; [reflexivity |]);
      (split; [intros ? H; inversion H; reflexivity | intros ? ? H; discriminate H]). }
  destruct (reload_error env) as [e7 |]; simpl.
  { destruct (remove_error env); simpl; (do 2 eexists; split; [reflexivity |]);
      (split; [intros ? H; inversion H; reflexivity | intros ? ? H; discriminate H]). }
  destruct (remove_error env); simpl; (do 2 eexists; split; [reflexivity |]);
    (split; [intros ? H; discriminate H
            | intros ? ? _ Ho Hr; inversion Ho; inversion Hr; reflexivity]).
Qed.

Lemma remove_container_never_stops (env : Env) s o s' :
  remove_container env s = (o, s') ->
  exists l, docker_log s' = (docker_log s ++ l)%list /\ ~ In Stop l.
Proof.
  intros H. destruct (remove_container_spec env s) as (s2 & F & _ & _ & _ & _ & R).
  rewrite F in H. inversion H; subst o s'. eexists. split; [exact R |].
  destruct (container s); [intros [X | []]; discriminate X | intros []].
Qed.

Lemma run_test_container_never_stops (env : Env) (config : LanguageConfig)
    (language command d : string) (T : Z) s o s' :
  run_test_container env config language command d T s = (o, s') ->
  exists l, docker_log s' = (docker_log s ++ l)%list /\ ~ In Stop l.
Proof.
  unfold run_test_container. unfold bind at 1. unfold set_container at 1.
  unfold try_finally. intros H.
  match type of H with
  | context [try_except ?b ?h ?s0] => destruct (try_except b h s0) as [o1 s1] eqn:B
  end.
  destruct (remove_container env s1) as [o2 s2] eqn:F.
  apply remove_container_never_stops in F.
  assert (X : exists l, docker_log s1 = (docker_log s ++ l)%list /\ ~ In Stop l).
  { clear H F. revert B.
    cbv beta iota delta [bind set_container try_except containers_create docker_call
                         put_workspace get_fs ret raise of_option].
    simpl.
    repeat match goal with
           | |- context [match ?x with _ => _ end] =>
               match x with
               | create_error env => destruct x
               | put_archive_error env => destruct x
               | start_error env => destruct x
               | wait_error env => destruct x
               | logs_stdout env => destruct x
               | logs_stderr env => destruct x
               | reload_error env => destruct x
               end; simpl
           end;
      intros B; inversion B; subst o1 s1; clear B;
      repeat (eapply never_stops_compose; [| apply never_stops_call; discriminate]);
      apply never_stops_here; reflexivity. }
  assert (Y : exists l, docker_log s2 = (docker_log s ++ l)%list /\ ~ In Stop l)
    by exact (never_stops_compose _ _ _ X F).
  destruct o2 as [[] | e2]; inversion H; subst; exact Y.
Qed.

Lemma lookup_put_file (p c : string) (l : list (string * node)) :
  lookup_path p (put_file p c l) = Some (File c).
Proof. unfold lookup_path, put_file. simpl. rewrite String.eqb_refl. reflexivity. Qed.

Lemma run_test_written (env : Env) (language main_file_path tmpdir test_input : string)
    (T : Z) (runner_command : option string) (config : LanguageConfig) s :
  dict_get LANGUAGE_CONFIG language = Some config ->
  write_error env (OsPath.join tmpdir "test_input.txt") = None ->
  _run_test env language main_file_path tmpdir test_input T runner_command s =
  bind (run_test_container env config language
          (run_test_command language main_file_path runner_command) tmpdir T)
       (fun x => match x with
                 | (stdout, stderr, exit_code) =>
                     ret (Some {| run_stdout := stdout; run_stderr := stderr;
                                  run_exit_code := exit_code |})
                 end)
       (with_fs (put_file (OsPath.join tmpdir "test_input.txt")
                   (if PyStr.truthy test_input then test_input else "")) s).
Proof.
  intros C W. unfold _run_test. rewrite C, W.
  unfold bind at 1. unfold write_file at 1.
  unfold bind at 1. unfold path_exists at 1. cbn [fs with_fs].
  rewrite lookup_put_file. reflexivity.
Qed.

(** X13.  For a registered language and an input file that could be
    written, [_run_test] always returns: a failure of any container step,
    the wait included, gives exit code -1, an empty stdout and the bare
    text of the exception as stderr, and the container is never stopped;
    when every step succeeds the result is the container's stdout and exit
    code, with its stderr only if the exit code is non-zero and the stream
    is not blank. *)
Theorem run_test_always_returns (env : Env)
    (language main_file_path tmpdir test_input : string) (T : Z)
    (runner_command : option string) (config : LanguageConfig) (s : State) :
  dict_get LANGUAGE_CONFIG language = Some config ->
  write_error env (OsPath.join tmpdir "test_input.txt") = None ->
  exists r s',
    _run_test env language main_file_path tmpdir test_input T runner_command s
      = (Return (Some r), s') /\
    (exists l, docker_log s' = (docker_log s ++ l)%list /\ ~ In Stop l) /\
    (forall e, run_test_failure env = Some e ->
       run_stdout r = "" /\ run_stderr r = str_exn e /\ run_exit_code r = -1) /\
    (forall out raw,
       run_test_failure env = None ->
       logs_stdout env = Return out -> logs_stderr env = Return raw ->
       run_stdout r = out /\ run_exit_code r = state_exit env /\
       run_stderr r = (if negb (state_exit env =? 0) && PyStr.truthy (PyStr.strip raw)
                       then raw else "")).
Proof.
  intros C W. rewrite (run_test_written _ _ _ _ _ _ _ _ _ C W).
  match goal with
  | |- context [bind (run_test_container env config language ?cmd tmpdir T) _ ?s0] =>
      destruct (run_test_container_result env config language cmd tmpdir T s0)
        as ([[out err] code] & s' & E & Hf & Hs);
      pose proof (run_test_container_never_stops _ _ _ _ _ _ _ _ _ E) as Hlog
  end.
  rewrite (bind_step _ _ _ _ _ E). unfold ret.
  eexists. exists s'. split; [reflexivity |]. split; [exact Hlog |]. simpl. split.
  - intros e He. specialize (Hf e He). inversion Hf; subst. repeat split.
  - intros o raw Hn Ho Hr. specialize (Hs o raw Hn Ho Hr). inversion Hs; subst.
    repeat split.
Qed.

Lemma run_test_always_returns_witness :
  exists r s',
    _run_test stuck "python" "main.py" "/app/tmp/executor_run_0123456789ab" "hello" 30
      None init_state = (Return (Some r), s') /\
    run_stdout r = "" /\ run_stderr r = "Read timed out. (read timeout=30)" /\
    run_exit_code r = -1 /\
    exists l, docker_log s' = l /\ ~ In Stop l.
Proof.
  destruct (run_test_always_returns stuck "python" "main.py"
              "/app/tmp/executor_run_0123456789ab" "hello" 30 None python_config init_state
              eq_refl eq_refl) as (r & s' & E & Hlog & Hf & _).
  destruct (Hf (DockerException "Read timed out. (read timeout=30)") eq_refl)
    as (H1 & H2 & H3).
  exists r, s'. split; [exact E |]. split; [exact H1 |]. split; [exact H2 |].
  split; [exact H3 | exact Hlog].
Defined.

Lemma prefix_app_same (d a b : string) :
  String.prefix (d ++ a) (d ++ b) = String.prefix a b.
Proof.
  induction d as [| x d IH]; [reflexivity |].
  change (String.prefix (String x (d ++ a)) (String x (d ++ b)) = String.prefix a b).
  simpl. destruct (ascii_dec x x) as [_ | N]; [exact IH | contradiction N; reflexivity].
Qed.

Lemma drop_past (d : string) (c : ascii) (x : string) :
  PyStr.drop (S (String.length d)) (d ++ String c x) = x.
Proof.
  induction d as [| y d IH]; [reflexivity |].
  change (PyStr.drop (S (String.length d)) (d ++ String c x) = x). exact IH.
Qed.

(** A file written directly below [d] is a member of the archive of [d]. *)
Lemma archive_has_written (d name c : string) (l : list (string * node)) :
  PyStr.truthy name = true -> has_sep name = false ->
  In (name, c) (archive_of d (put_file (d ++ String "/" name) c l)).
Proof.
  intros Ht Hs. unfold archive_of, put_file. cbn [flat_map fst snd].
  apply in_or_app. left. unfold PyStr.startswith.
  change (d ++ "/") with (d ++ String "/" "").
  rewrite prefix_app_same. cbn [String.prefix].
  destruct (ascii_dec "/" "/") as [_ | N]; [| contradiction N; reflexivity].
  destruct name; [discriminate Ht |]. cbn [String.prefix].
  rewrite drop_past, Hs. simpl. left. reflexivity.
Qed.

Lemma run_test_container_archive (env : Env) (config : LanguageConfig)
    (language command d : string) (T : Z) s o s' :
  create_error env = None ->
  run_test_container env config language command d T s = (o, s') ->
  exists rest,
    docker_log s' =
      (docker_log s
         ++ Create (image config) command (negb (String.eqb language "typescript"))
            :: PutArchive (archive_of d (fs s)) :: rest)%list.
Proof.
  intros Cr. unfold run_test_container. unfold bind at 1. unfold set_container at 1.
  unfold try_finally. intros H.
  match type of H with
  | context [try_except ?b ?h ?s0] => destruct (try_except b h s0) as [o1 s1] eqn:B
  end.
  assert (X : exists rest,
             docker_log s1 =
               (docker_log s
                  ++ Create (image config) command (negb (String.eqb language "typescript"))
                     :: PutArchive (archive_of d (fs s)) :: rest)%list).
  { unfold try_except in B. unfold bind at 1 in B.
    unfold containers_create, bind at 1, docker_call at 1, set_container at 1 in B.
    rewrite Cr in B. cbn [of_option] in B.
    unfold bind at 1 in B. unfold put_workspace at 1, bind at 1, get_fs at 1,
      docker_call at 1 in B. cbn [fs logged] in B.
    destruct (put_archive_error env) as [e |]; cbn [of_option] in B.
    - inversion B; subst. exists []. simpl. rewrite <- app_assoc. reflexivity.
    - match type of B with
      | context [bind ?c ?k ?s2] =>
          assert (G : grows (bind c k)) by (repeat grows_step);
          destruct (bind c k s2) as [[a | e] s3] eqn:R;
          destruct (G _ _ _ R) as (l & E)
      end; inversion B; subst; exists l; rewrite E; simpl;
        rewrite <- !app_assoc; reflexivity. }
  destruct (remove_container env s1) as [o2 s2] eqn:F.
  destruct (grows_remove_container env _ _ _ F) as (l2 & E2).
  destruct X as (rest & E1).
  exists (rest ++ l2)%list.
  assert (Y : docker_log s2 =
              (docker_log s
                 ++ Create (image config) command (negb (String.eqb language "typescript"))
                    :: PutArchive (archive_of d (fs s)) :: rest ++ l2)%list).
  { rewrite E2, E1, <- app_assoc. reflexivity. }
  destruct o2 as [[] | e2]; inversion H; subst; exact Y.
Qed.

(** X14.  The input of a test reaches the container of [_run_test] as a
    file: when the container was created, the second Docker call sends an
    archive that holds [test_input.txt] with the input text, right after
    the creation and before anything runs. *)
Theorem run_test_sends_input_file (env : Env)
    (language main_file_path tmpdir test_input : string) (T : Z)
    (runner_command : option string) (config : LanguageConfig) (s : State) :
  dict_get LANGUAGE_CONFIG language = Some config ->
  write_error env (OsPath.join tmpdir "test_input.txt") = None ->
  OsPath.join tmpdir "test_input.txt" = tmpdir ++ "/test_input.txt" ->
  create_error env = None ->
  exists o s' archive rest,
    _run_test env language main_file_path tmpdir test_input T runner_command s = (o, s') /\
    docker_log s' =
      (docker_log s
         ++ Create (image config) (run_test_command language main_file_path runner_command)
              (negb (String.eqb language "typescript"))
            :: PutArchive archive :: rest)%list /\
    In ("test_input.txt", test_input) archive.
Proof.
  intros C W J Cr. rewrite (run_test_written _ _ _ _ _ _ _ _ _ C W).
  assert (N : (if PyStr.truthy test_input then test_input else "") = test_input)
    by (destruct test_input; reflexivity).
  rewrite N, J.
  match goal with
  | |- context [bind (run_test_container env config language ?cmd tmpdir T) ?k ?s0] =>
      destruct (run_test_container env config language cmd tmpdir T s0) as [o1 s1] eqn:E;
      destruct (run_test_container_archive _ _ _ _ _ _ _ _ _ Cr E) as (rest & Hlog);
      destruct (bind (run_test_container env config language cmd tmpdir T) k s0)
        as [o s'] eqn:B
  end.
  assert (S1 : s' = s1).
  { unfold bind in B. rewrite E in B. destruct o1 as [[[a b] c] | e];
      inversion B; reflexivity. }
  subst s'. do 4 eexists. split; [reflexivity |]. split; [exact Hlog |].
  cbn [fs with_fs]. apply archive_has_written; reflexivity.
Qed.

Lemma run_test_sends_input_file_witness :
  exists o s' archive rest,
    _run_test calm "python" "main.py" "/app/tmp/executor_run_0123456789ab" "hello" 30
      (Some "python main.py") init_state = (o, s') /\
    docker_log s' =
      Create "python:3.12-slim"
        ("/bin/sh -c " ++ dq ++ "cd /workspace && cat test_input.txt | python main.py" ++ dq)
        true
      :: PutArchive archive :: rest /\
    In ("test_input.txt", "hello") archive.
Proof.
  exact (run_test_sends_input_file calm "python" "main.py"
           "/app/tmp/executor_run_0123456789ab" "hello" 30 (Some "python main.py")
           python_config init_state eq_refl eq_refl eq_refl eq_refl).
Defined.

(* ===================================================================== *)
(** * Detection looks at the file name only *)
(* ===================================================================== *)

Lemma rsplit_last (c : ascii) (d name : string) :
  OsPath.rsplit c name = None ->
  OsPath.rsplit c (d ++ String c name) = Some (d ++ String c EmptyString, name).
Proof.
  intros H. induction d as [| a d IH].
  - change (OsPath.rsplit c (String c name) = Some (String c EmptyString, name)).
    cbn [OsPath.rsplit]. rewrite H, Ascii.eqb_refl. reflexivity.
  - change (OsPath.rsplit c (String a (d ++ String c name))
            = Some (String a (d ++ String c EmptyString), name)).
    cbn [OsPath.rsplit]. rewrite IH. reflexivity.
Qed.

(** X15.  [_detect_language_from_file] looks at the last path component
    only: the directories in front of a file name, whatever dots and
    extensions they carry, do not change the language that is found. *)
Theorem detection_ignores_directories (d name : string) :
  has_sep name = false ->
  _detect_language_from_file (d ++ "/" ++ name) = _detect_language_from_file name.
Proof.
  unfold has_sep. intros H.
  destruct (OsPath.rsplit OsPath.sep name) as [x |] eqn:R; [discriminate |].
  change (d ++ "/" ++ name) with (d ++ String OsPath.sep name).
  unfold _detect_language_from_file, OsPath.splitext, OsPath.split_last_sep.
  rewrite (rsplit_last _ d _ R), R.
  destruct (OsPath.rsplit OsPath.extsep name) as [[stem_dot ext] |]; [| reflexivity].
  destruct (OsPath.all_char OsPath.extsep stem_dot); reflexivity.
Qed.

Lemma detection_ignores_directories_witness :
  has_sep "Main.JAVA" = false /\
  _detect_language_from_file ("lib.py/v1.2" ++ "/" ++ "Main.JAVA") = Some "java".
Proof.
  split; [reflexivity |].
  exact (eq_trans (detection_ignores_directories "lib.py/v1.2" "Main.JAVA" eq_refl)
           eq_refl).
Defined.
